(** * LaserControl: a shallow embedding of the acquisition core

    The development follows the layout of the Python package
    [laser_control]:

    - [Numpy]       the array primitives the code relies on
                    ([np.linspace], boolean-mask indexing, [np.roll],
                    slice assignment, [np.max]/[np.min]/[np.mean]/
                    [np.argmax]/[np.argmin]);
    - [Scope]       [drivers/scope.py]  (PicoScopeDriver.capture_block);
    - [DataManager] [utils/data_manager.py];
    - [Engine]      [core/engine.py]    (SweepWorker.run);
    - [LivePlot]    [gui/widgets/live_plot.py] (rolling buffers);
    - [SweepPlot]   [gui/widgets/sweep_plot.py] and the legacy
                    [calculate_q] of [LaserConrtolOLD.py];
    - [MainWindow]  [gui/main_window.py] (the slot of [finished_safe]);
    - [LiveControls] the wavelength dial of [live_plot.py];
    - [PicoScope]   [drivers/scope.py] outside of [capture_block];
    - [Mocks]       [drivers/mocks.py];
    - [SantecLaser] [drivers/laser.py];
    - [Initialize]  [core/engine.py] (MeasurementEngine);
    - [SweepData]   [gui/widgets/sweep_plot.py] (set_data);
    - [Legacy]      [LaserConrtolOLD.py] (region selection, live
                    statistics, the sweep thread).

    Python floats are modelled by exact rationals [Q]: every property
    below is about ordering, selection and the order of effects, none
    about rounding.  Exceptions are values of [exn]; a call that may raise
    returns a [result]. *)

From Stdlib Require Import QArith Qabs Qround Lia Lqa Ascii String Sorted.
From stdpp Require Import gmap strings list pretty.

Open Scope Q_scope.
Open Scope string_scope.
Open Scope list_scope.

(** ** Exceptions and results *)

Inductive exn : Type :=
  | InstrumentConnectionError (msg : string)
  | FileNotFoundError (msg : string)
  | ValueError (msg : string)
  | IndexError (msg : string)
  | ZeroDivisionError (msg : string)
  | OSError (msg : string)
  | DriverError (msg : string).

Inductive result (A : Type) : Type :=
  | Ok (a : A)
  | Raise (e : exn).
Arguments Ok {A} a.
Arguments Raise {A} e.

#[global] Instance result_ret : MRet result := fun A a => Ok a.
#[global] Instance result_bind : MBind result := fun A B k r =>
  match r with
  | Ok a => k a
  | Raise e => Raise e
  end.

(** [str(e)] of the exceptions above: the message they were built with. *)
Definition exn_str (e : exn) : string :=
  match e with
  | InstrumentConnectionError m | FileNotFoundError m | ValueError m
  | IndexError m | ZeroDivisionError m | OSError m | DriverError m => m
  end.

(** ** Array primitives *)

Module Numpy.

(** [np.linspace(start, stop, num)] for [num >= 0]: [num] evenly spaced
    samples, the step being [(stop - start) / (num - 1)]. *)
Definition linspace (start stop : Q) (num : nat) : list Q :=
  match num with
  | O => []
  | S O => [start]
  | S div =>
      let step := (stop - start) / inject_Z (Z.of_nat div) in
      map (fun i => start + inject_Z (Z.of_nat i) * step) (seq 0 num)
  end.

(** [a * k] and [c + a] on arrays (broadcast of a scalar). *)
Definition mul_scalar (a : list Q) (k : Q) : list Q := map (fun x => x * k) a.
Definition add_scalar (c : Q) (a : list Q) : list Q := map (fun x => c + x) a.

(** [(a >= lo) & (a <= hi)]. *)
Definition between_mask (lo hi : Q) (a : list Q) : list bool :=
  map (fun x => Qle_bool lo x && Qle_bool x hi) a.

(** [a[mask]] for a boolean [mask]: the entries of [a] at the positions
    where [mask] is true, in order; numpy raises [IndexError] when the
    lengths differ. *)
Fixpoint select {A} (a : list A) (mask : list bool) : list A :=
  match a, mask with
  | x :: a', b :: mask' => if b then x :: select a' mask' else select a' mask'
  | _, _ => []
  end.

Definition bool_index {A} (a : list A) (mask : list bool) : result (list A) :=
  if Nat.eqb (length a) (length mask) then Ok (select a mask)
  else Raise (IndexError "boolean index did not match indexed array").

(** [np.roll(a, shift)] on a one-dimensional array: the element at
    index [i] moves to index [(i + shift) mod len(a)]. *)
Definition roll {A} (a : list A) (shift : Z) : list A :=
  match length a with
  | O => a
  | S _ as n =>
      let offset := Z.to_nat (shift mod Z.of_nat n) in
      drop (n - offset) a ++ take (n - offset) a
  end.

(** [a[:] = x] *)
Definition fill {A} (a : list A) (x : A) : list A := replicate (length a) x.

(** [a[-n:] = v] for [n > 0].  The slice starts at [max(len(a) - n, 0)];
    [v] must have the length of the slice, or length 1 (broadcast). *)
Definition assign_tail (a : list Q) (n : nat) (v : list Q) : result (list Q) :=
  let start := (length a - n)%nat in
  let len := (length a - start)%nat in
  if Nat.eqb (length v) len then Ok (take start a ++ v)
  else match v with
       | [x] => Ok (take start a ++ replicate len x)
       | _ => Raise (ValueError "could not broadcast input array")
       end.

(** [np.max], [np.min]: [ValueError] on an empty array. *)
Definition qmax (a b : Q) : Q := if Qle_bool a b then b else a.
Definition qmin (a b : Q) : Q := if Qle_bool b a then b else a.

Definition np_max (a : list Q) : result Q :=
  match a with
  | [] => Raise (ValueError "zero-size array to reduction operation maximum")
  | x :: a' => Ok (fold_left qmax a' x)
  end.

Definition np_min (a : list Q) : result Q :=
  match a with
  | [] => Raise (ValueError "zero-size array to reduction operation minimum")
  | x :: a' => Ok (fold_left qmin a' x)
  end.

Definition np_sum (a : list Q) : Q := fold_right Qplus 0 a.

(** [np.mean] (of a non-empty array; the empty mean is nan in numpy and
    0 here). *)
Definition np_mean (a : list Q) : Q := np_sum a / inject_Z (Z.of_nat (length a)).

(** [np.argmax], [np.argmin]: the index of the first occurrence of the
    extreme value.  [i] is the index of the head of [a], [best_i] and
    [best] the running answer. *)
Fixpoint argmax_from (a : list Q) (i best_i : nat) (best : Q) : nat :=
  match a with
  | [] => best_i
  | x :: a' =>
      if Qle_bool x best then argmax_from a' (S i) best_i best
      else argmax_from a' (S i) i x
  end.

Definition np_argmax (a : list Q) : result nat :=
  match a with
  | [] => Raise (ValueError "attempt to get argmax of an empty sequence")
  | x :: a' => Ok (argmax_from a' 1 0 x)
  end.

Fixpoint argmin_from (a : list Q) (i best_i : nat) (best : Q) : nat :=
  match a with
  | [] => best_i
  | x :: a' =>
      if Qle_bool best x then argmin_from a' (S i) best_i best
      else argmin_from a' (S i) i x
  end.

Definition np_argmin (a : list Q) : result nat :=
  match a with
  | [] => Raise (ValueError "attempt to get argmin of an empty sequence")
  | x :: a' => Ok (argmin_from a' 1 0 x)
  end.

(** [a[i]] for an index [i >= 0]. *)
Definition item (a : list Q) (i : nat) : result Q :=
  match a !! i with
  | Some x => Ok x
  | None => Raise (IndexError "index out of bounds")
  end.

End Numpy.

(** ** core/engine.py: the data-processing step of SweepWorker.run *)

Module Mapping.
Import Numpy.

Record SweepParams : Type := {
  start_nm : Q;
  end_nm : Q;
  speed_nm_s : Q;
  power_dbm : Q
}.

(** The dict returned by [capture_block]: keys "t", "A", "B". *)
Record Capture : Type := {
  cap_t : list Q;
  cap_A : list Q;
  cap_B : list Q
}.

(** [wavelengths = start_nm + (time_axis * speed)] *)
Definition wavelengths (start speed : Q) (time_axis : list Q) : list Q :=
  add_scalar start (mul_scalar time_axis speed).

(** [mask = (wavelengths >= start_nm) & (wavelengths <= end_nm)] *)
Definition clip_mask (start end_ : Q) (w : list Q) : list bool :=
  between_mask start end_ w.

(** Lines 101-113 of [run]: the pair [(wavelengths[mask], signal[mask])]
    handed to the autosave and to [data_ready]. *)
Definition process_data (p : SweepParams) (data : Capture)
  : result (list Q * list Q) :=
  let time_axis := cap_t data in
  let signal := cap_B data in
  let w := wavelengths (start_nm p) (speed_nm_s p) time_axis in
  let mask := clip_mask (start_nm p) (end_nm p) w in
  w_kept ← bool_index w mask;
  s_kept ← bool_index signal mask;
  Ok (w_kept, s_kept).

(** [duration = abs(end_nm - start_nm) / speed; duration += 0.5] *)
Definition duration (p : SweepParams) : Q :=
  Qabs (end_nm p - start_nm p) / speed_nm_s p + (1 # 2).

Definition in_range (start end_ : Q) (x : Q) : bool :=
  Qle_bool start x && Qle_bool x end_.

End Mapping.

(** ** drivers/scope.py: PicoScopeDriver.capture_block *)

Module Scope.
Import Numpy Mapping.

(** The driver fields [capture_block] reads and writes. *)
Record Driver : Type := {
  connected : bool;      (* self._connected *)
  streaming : bool       (* self._streaming *)
}.

(** The digitizer as seen through the SDK calls of [capture_block]:
    [is_ready k] is what the [k]-th call of [ps5000aIsReady] stores in
    [ready] (a trigger that never arrives keeps it at 0), and
    [volts_A n], [volts_B n] are the converted contents of the two data
    buffers after [ps5000aGetValues] for a request of [n] samples. *)
Record Device : Type := {
  is_ready : nat -> bool;
  volts_A : nat -> list Q;
  volts_B : nat -> list Q
}.

(** [int(x)] on a float: truncation toward zero. *)
Definition py_int (x : Q) : Z := Z.quot (Qnum x) (Z.pos (Qden x)).

(** [stop_streaming]: [if self._streaming: ps5000aStop; _streaming = False]. *)
Definition stop_streaming (d : Driver) : Driver :=
  if streaming d then {| connected := connected d; streaming := false |} else d.

(** The wait loop
    [while ready.value == 0: ps5000aIsReady(...); time.sleep(0.01)].
    [k] counts the polls already made; the loop has no exit other than
    [ready] becoming non-zero.  [fuel] bounds the number of iterations
    that are unfolded: [None] means the loop is still spinning after
    [fuel] polls, [Some n] that it left after [n] polls in total. *)
Fixpoint wait_ready (dev : Device) (fuel k : nat) : option nat :=
  match fuel with
  | O => None
  | S fuel' =>
      if is_ready dev k then Some (S k)
      else wait_ready dev fuel' (S k)
  end.

(** What [capture_block] gives back when it returns: the value or the
    exception, the driver fields, and the number of 10 ms polls spent
    in the wait loop. *)
Record Returned : Type := {
  outcome : result Capture;
  driver_after : Driver;
  polls : nat
}.

Definition capture_block (drv : Driver) (dev : Device) (fuel : nat)
    (duration_s sample_rate : Q) : option Returned :=
  if negb (connected drv) then
    Some {| outcome := Raise (InstrumentConnectionError "Not connected");
            driver_after := drv; polls := 0 |}
  else
    let drv := if streaming drv then stop_streaming drv else drv in
    let num_samples := py_int (duration_s * sample_rate) in
    match wait_ready dev fuel 0 with
    | None => None
    | Some n =>
        if (num_samples <? 0)%Z then
          (* np.zeros(shape=num_samples) *)
          Some {| outcome := Raise (ValueError "negative dimensions are not allowed");
                  driver_after := drv; polls := n |}
        else
          let ns := Z.to_nat num_samples in
          Some {| outcome := Ok {| cap_t := linspace 0 duration_s ns;
                                   cap_A := volts_A dev ns;
                                   cap_B := volts_B dev ns |};
                  driver_after := drv; polls := n |}
    end.

(** Time spent sleeping in the wait loop: 10 ms per poll. *)
Definition blocked_for (r : Returned) : Q := inject_Z (Z.of_nat (polls r)) * (1 # 100).

End Scope.

(** ** utils/data_manager.py *)

Module DataManager.

(** A data frame: named columns, in order.  A CSV file written with
    [to_csv(index=False)] is identified with the frame it holds (header
    row plus one row per sample), so [read_csv] of a stored file gives
    the stored frame back. *)
Definition DataFrame : Type := list (string * list Q).

(** The file system as the module uses it: regular files by path, and
    which paths can currently be written ([to_csv] raises on the
    others: missing directory, permissions, full disk). *)
Record FS : Type := {
  files : gmap string DataFrame;
  writable : string -> bool;
  can_mkdir : string -> bool
}.

Definition with_files (fs : FS) (m : gmap string DataFrame) : FS :=
  {| files := m; writable := writable fs; can_mkdir := can_mkdir fs |}.

(** [os.path.join(a, b)] on POSIX. *)
Definition ends_with_slash (a : string) : bool :=
  match String.length a with
  | O => false
  | S n => match String.get n a with
           | Some c => Ascii.eqb c "/"%char
           | None => false
           end
  end.

Definition starts_with_slash (b : string) : bool :=
  match b with
  | String c _ => Ascii.eqb c "/"%char
  | EmptyString => false
  end.

Definition path_join (a b : string) : string :=
  if starts_with_slash b then b
  else if (String.length a =? 0)%nat || ends_with_slash a then a +:+ b
  else a +:+ "/" +:+ b.

(** [AUTOSAVE_DIR = os.path.join(os.getcwd(), "data", "autosaves")] *)
Definition AUTOSAVE_DIR (cwd : string) : string :=
  path_join (path_join cwd "data") "autosaves".

Definition os_path_exists (fs : FS) (path : string) : bool :=
  bool_decide (is_Some (files fs !! path)).

(** [os.remove(path)] *)
Definition os_remove (fs : FS) (path : string) : result FS :=
  match files fs !! path with
  | Some _ => Ok (with_files fs (delete path (files fs)))
  | None => Raise (FileNotFoundError "No such file or directory")
  end.

(** [os.makedirs(AUTOSAVE_DIR, exist_ok=True)] *)
Definition ensure_autosave_dir (cwd : string) (fs : FS) : result unit :=
  if can_mkdir fs (AUTOSAVE_DIR cwd) then Ok tt
  else Raise (OSError "cannot create directory").

(** [pd.DataFrame({"Wavelength_nm": wavelengths, "Amplitude_V": signal})]:
    the constructor rejects columns of different lengths. *)
Definition make_frame (wavelengths signal : list Q) : result DataFrame :=
  if (length wavelengths =? length signal)%nat then
    Ok [("Wavelength_nm", wavelengths); ("Amplitude_V", signal)]
  else Raise (ValueError "All arrays must be of the same length").

(** [df.to_csv(path, index=False)].  A write that fails is taken to fail
    when the file is opened (missing directory, permissions), which
    changes nothing; a write that fails later (a disk that fills up)
    also leaves an empty or partial file at [path], a case this model
    does not distinguish. *)
Definition to_csv (fs : FS) (path : string) (df : DataFrame) : result FS :=
  if writable fs path then Ok (with_files fs (<[path := df]> (files fs)))
  else Raise (OSError "cannot write file").

(** [pd.read_csv(path)] *)
Definition read_csv (fs : FS) (path : string) : result DataFrame :=
  match files fs !! path with
  | Some df => Ok df
  | None => Raise (FileNotFoundError "No such file or directory")
  end.

(** [autosave_sweep(wavelengths, signal)].  [cwd] is the working
    directory at import time and [timestamp] the value of
    [datetime.now().strftime("%Y%m%d_%H%M%S")] at the call.  The
    result carries the file system after the call. *)
Definition autosave_sweep (cwd timestamp : string) (fs : FS)
    (wavelengths signal : list Q) : result string * FS :=
  match ensure_autosave_dir cwd fs with
  | Raise e => (Raise e, fs)
  | Ok _ =>
      let filename := "sweep_autosave_" +:+ timestamp +:+ ".csv" in
      let filepath := path_join (AUTOSAVE_DIR cwd) filename in
      match make_frame wavelengths signal with
      | Raise e => (Raise e, fs)
      | Ok df =>
          (* try: df.to_csv(...); return filepath
             except Exception: print(...); return "" *)
          match to_csv fs filepath df with
          | Ok fs' => (Ok filepath, fs')
          | Raise _ => (Ok "", fs)
          end
      end
  end.

(** [move_autosave(autosave_path, target_dir, prefix)] *)
Definition move_autosave (timestamp : string) (fs : FS)
    (autosave_path target_dir prefix : string) : result string * FS :=
  if negb (os_path_exists fs autosave_path) then
    (Raise (FileNotFoundError "Original autosave file missing"), fs)
  else
    let new_filename := prefix +:+ "_" +:+ timestamp +:+ ".csv" in
    let target_path := path_join target_dir new_filename in
    match read_csv fs autosave_path with
    | Raise e => (Raise e, fs)
    | Ok df =>
        match to_csv fs target_path df with
        | Raise e => (Raise e, fs)
        | Ok fs1 =>
            match os_remove fs1 autosave_path with
            | Raise e => (Raise e, fs1)
            | Ok fs2 => (Ok target_path, fs2)
            end
        end
    end.

(** [discard_autosave(autosave_path)] *)
Definition discard_autosave (fs : FS) (autosave_path : string) : FS :=
  if os_path_exists fs autosave_path then
    match os_remove fs autosave_path with
    | Ok fs' => fs'
    | Raise _ => fs
    end
  else fs.

End DataManager.

(** ** core/engine.py: SweepWorker.run *)

Module Engine.
Import Numpy Mapping DataManager.

(** The methods of [LaserDriver] that [run] calls. *)
Inductive LaserCmd : Type :=
  | SetPower (power : Q)
  | SetSweepParams (start_ end_ speed : Q)
  | TurnOn
  | TurnOff
  | StartSweep
  | StopSweep.

(** What the worker does that is visible outside of it: the four Qt
    signals, the driver calls, the sleeps and the trigger thread. *)
Inductive Event : Type :=
  | StatusUpdate (msg : string)
  | DataReady (wavelengths signal : list Q)
  | FinishedSafe (path : string)
  | ErrorOccurred (msg : string)
  | LaserCall (c : LaserCmd)
  | Sleep (seconds : Q)
  | TriggerThreadStart
  | TriggerThreadJoin
  | CaptureBlock (duration rate : Q)
  | AutosaveSweep (wavelengths signal : list Q).

(** An event together with the file system at the moment it happens. *)
Record Obs : Type := { ev : Event; fs_then : FS }.

Record World : Type := { trace : list Obs; fs : FS }.

(** The worker's environment: whether a laser call raises, what
    [scope.capture_block] returns (it is assumed to return here; its
    wait loop is modelled in [Scope]), the working directory and the
    clock reading used by the autosave. *)
Record Env : Type := {
  laser_raises : LaserCmd -> option exn;
  scope_capture : Q -> Q -> result Capture;
  cwd : string;
  timestamp : string
}.

Definition M (A : Type) : Type := World -> result A * World.

#[global] Instance M_ret : MRet M := fun A a w => (Ok a, w).
#[global] Instance M_bind : MBind M := fun A B k m w =>
  match m w with
  | (Ok a, w') => k a w'
  | (Raise e, w') => (Raise e, w')
  end.

Definition log (e : Event) (w : World) : World :=
  {| trace := trace w ++ [{| ev := e; fs_then := fs w |}]; fs := fs w |}.

Definition emit (e : Event) : M unit := fun w => (Ok tt, log e w).

Definition raise {A} (e : exn) : M A := fun w => (Raise e, w).

Definition laser (env : Env) (c : LaserCmd) : M unit := fun w =>
  match laser_raises env c with
  | None => (Ok tt, log (LaserCall c) w)
  | Some e => (Raise e, log (LaserCall c) w)
  end.

Definition capture_block (env : Env) (duration rate : Q) : M Capture :=
  fun w => (scope_capture env duration rate, log (CaptureBlock duration rate) w).

Definition autosave (env : Env) (wavelengths signal : list Q) : M string :=
  fun w =>
    let r := autosave_sweep (cwd env) (timestamp env) (fs w) wavelengths signal in
    (r.1, log (AutosaveSweep wavelengths signal)
              {| trace := trace w; fs := r.2 |}).

(** [wavelengths[mask]] and [signal[mask]], evaluated as the arguments
    of the autosave call. *)
Definition masked (a : list Q) (mask : list bool) : M (list Q) :=
  fun w => (bool_index a mask, w).

(** The body of the [try] block of [run]. *)
Definition run_body (env : Env) (p : SweepParams) : M unit :=
  let start_nm := start_nm p in
  let end_nm := end_nm p in
  let speed := speed_nm_s p in
  let power := power_dbm p in
  emit (StatusUpdate "Configuring Laser...");;
  laser env (SetPower power);;
  laser env (SetSweepParams start_nm end_nm speed);;
  duration ← (if Qeq_bool speed 0
              then raise (ZeroDivisionError "float division by zero")
              else mret (Qabs (end_nm - start_nm) / speed));
  let duration := duration + (1 # 2) in
  emit (StatusUpdate "Arming Trigger...");;
  laser env TurnOn;;
  emit (Sleep (1 # 2));;
  emit (StatusUpdate "Acquiring...");;
  emit TriggerThreadStart;;
  data ← capture_block env duration 100000;
  emit TriggerThreadJoin;;
  laser env StopSweep;;
  laser env TurnOff;;
  emit (StatusUpdate "Processing...");;
  let time_axis := cap_t data in
  let signal := cap_B data in
  let w := wavelengths start_nm speed time_axis in
  let mask := clip_mask start_nm end_nm w in
  emit (StatusUpdate "Saving...");;
  w_kept ← masked w mask;
  s_kept ← masked signal mask;
  path ← autosave env w_kept s_kept;
  w_kept' ← masked w mask;
  s_kept' ← masked signal mask;
  emit (DataReady w_kept' s_kept');;
  emit (FinishedSafe path).

(** The body of the trigger thread, [trigger_laser]. *)
Definition trigger_laser : list Event :=
  [Sleep (1 # 2); LaserCall StartSweep].

(** [run]: the [try] block, and on any exception the handler
    [error_occurred.emit(str(e))] followed by a guarded [stop_sweep]. *)
Definition run (env : Env) (p : SweepParams) (fs0 : FS) : World :=
  match run_body env p {| trace := []; fs := fs0 |} with
  | (Ok _, w) => w
  | (Raise e, w) =>
      log (LaserCall StopSweep) (log (ErrorOccurred (exn_str e)) w)
  end.

Definition events (w : World) : list Event := map ev (trace w).

End Engine.

(** ** gui/widgets/live_plot.py: the rolling buffers of LivePlotWidget *)

Module LivePlot.
Import Numpy.

(** The fields of the widget that [update_plot] reads and writes. *)
Record Widget : Type := {
  is_streaming : bool;
  roll_buffer_size : nat;
  data_buffer_a : list Q;
  data_buffer_b : list Q
}.

(** [__init__]: [roll_buffer_size = 50000], both buffers [np.zeros]. *)
Definition init : Widget :=
  {| is_streaming := false;
     roll_buffer_size := Z.to_nat 50000;
     data_buffer_a := replicate (Z.to_nat 50000) 0;
     data_buffer_b := replicate (Z.to_nat 50000) 0 |}.

Definition set_buffers (self : Widget) (a b : list Q) : Widget :=
  {| is_streaming := is_streaming self;
     roll_buffer_size := roll_buffer_size self;
     data_buffer_a := a;
     data_buffer_b := b |}.

(** [update_plot].  [poll] is what the scope offers on this timer tick:
    [None] when the driver has no [get_streaming_values] attribute,
    otherwise the pair [(new_a, new_b)] it returns.  The result is the
    widget after the call together with the exception that left it, if
    any (the slice assignments raise on a length mismatch, after the
    buffers have been rolled). *)
Definition update_plot (self : Widget) (poll : option (list Q * list Q))
  : Widget * option exn :=
  if negb (is_streaming self) then (self, None)
  else
    match poll with
    | None => (self, None)
    | Some (new_a, new_b) =>
        if (0 <? length new_a)%nat then
          let n := length new_a in
          if (roll_buffer_size self <? n)%nat then
            (set_buffers self (fill (data_buffer_a self) 0)
                              (fill (data_buffer_b self) 0), None)
          else
            let a1 := roll (data_buffer_a self) (- Z.of_nat n) in
            let b1 := roll (data_buffer_b self) (- Z.of_nat n) in
            match assign_tail a1 n new_a with
            | Raise e => (set_buffers self a1 b1, Some e)
            | Ok a2 =>
                match assign_tail b1 n new_b with
                | Raise e => (set_buffers self a2 b1, Some e)
                | Ok b2 => (set_buffers self a2 b2, None)
                end
            end
        else (self, None)
    end.

(** The invariant [__init__] establishes: both buffers have
    [roll_buffer_size] entries. *)
Definition wf (self : Widget) : Prop :=
  length (data_buffer_a self) = roll_buffer_size self /\
  length (data_buffer_b self) = roll_buffer_size self.

End LivePlot.

(** ** gui/widgets/sweep_plot.py: SweepPlotWidget.update_fit, and the
    legacy calculate_q of LaserConrtolOLD.py *)

Module SweepPlot.
Import Numpy.

(** The arguments of [model.make_params]. *)
Record Params : Type := {
  amplitude : Q;
  center : Q;
  sigma : Q;
  c : Q
}.

(** What the widget reads off the result of [model.fit]. *)
Record FitResult : Type := {
  center_value : Q;           (* result.params["center"].value *)
  fwhm_value : Q;             (* result.params["fwhm"].value *)
  eval : list Q -> list Q     (* result.eval(x=...) *)
}.

(** [model.fit(y_sub, params, x=x_sub)] of lmfit: it returns a result or
    raises. *)
Definition Fitter : Type := list Q -> Params -> list Q -> result FitResult.

(** The text of [lbl_info]. *)
Inductive Label : Type :=
  | NoData                          (* "No Data. Run a sweep to begin." *)
  | DataLoaded                      (* "Data Loaded. Drag region to fit." *)
  | FitResults (center q_factor : Q)(* "Fit Results: Center=...nm, Q=..." *)
  | FitFailed (msg : string).       (* "Fit Failed: ..." *)

(** The widget: the stored series ([current_wavelengths] and
    [current_signal], both [None] until [set_data]), the ROI, what is
    shown, and the record of the calls made to [model.fit]. *)
Record Widget : Type := {
  current : option (list Q * list Q);
  roi : Q * Q;
  lbl_info : Label;
  curve_fit : list Q * list Q;
  fit_calls : list (list Q * Params * list Q)
}.

Definition init : Widget :=
  {| current := None; roi := (0, 1); lbl_info := NoData;
     curve_fit := ([], []); fit_calls := [] |}.

(** The initial guesses of [update_fit]. *)
Definition guesses (x_sub y_sub : list Q) : result Params :=
  mx ← np_max y_sub;
  mn ← np_min y_sub;
  let amp_guess := mx - mn in
  let mean := np_mean y_sub in
  i ← np_argmax (map (fun y => Qabs (y - mean)) y_sub);
  center_guess ← item x_sub i;
  let c_guess := np_mean y_sub in
  Ok {| amplitude := amp_guess; center := center_guess;
        sigma := 1 # 100; c := c_guess |}.

Definition set_label (self : Widget) (l : Label) : Widget :=
  {| current := current self; roi := roi self; lbl_info := l;
     curve_fit := curve_fit self; fit_calls := fit_calls self |}.

Definition set_curve (self : Widget) (cv : list Q * list Q) : Widget :=
  {| current := current self; roi := roi self; lbl_info := lbl_info self;
     curve_fit := cv; fit_calls := fit_calls self |}.

Definition record_fit (self : Widget) (call : list Q * Params * list Q) : Widget :=
  {| current := current self; roi := roi self; lbl_info := lbl_info self;
     curve_fit := curve_fit self; fit_calls := fit_calls self ++ [call] |}.

(** [update_fit].  The mask indexing is outside the [try] block, so its
    [IndexError] leaves the method; everything after the length test is
    inside it. *)
Definition update_fit (fit : Fitter) (self : Widget) : result Widget :=
  match current self with
  | None => Ok self
  | Some (wl, sig) =>
      let '(min_x, max_x) := roi self in
      let mask := between_mask min_x max_x wl in
      x_sub ← bool_index wl mask;
      y_sub ← bool_index sig mask;
      if (length x_sub <? 10)%nat then Ok self
      else
        match guesses x_sub y_sub with
        | Raise e => Ok (set_label self (FitFailed (exn_str e)))
        | Ok params =>
            let self1 := record_fit self (y_sub, params, x_sub) in
            match fit y_sub params x_sub with
            | Raise e => Ok (set_label self1 (FitFailed (exn_str e)))
            | Ok res =>
                let fit_x := linspace min_x max_x 500 in
                let fit_y := eval res fit_x in
                let self2 := set_curve self1 (fit_x, fit_y) in
                let center := center_value res in
                let fwhm := fwhm_value res in
                let q_factor :=
                  if negb (Qeq_bool fwhm 0) then center / fwhm else 0 in
                Ok (set_label self2 (FitResults center q_factor))
            end
        end
  end.

(** [calculate_q] of the legacy window, up to [make_params]:
    [x_center_guess = region_x[np.argmin(region_y)]],
    [amplitude_guess = np.abs(np.max(region_y) - np.min(region_y))],
    [sigma=0.01], [c=np.max(region_y)]. *)
Definition legacy_guesses (region_x region_y : list Q) : result Params :=
  i ← np_argmin region_y;
  x_center_guess ← item region_x i;
  mx ← np_max region_y;
  mn ← np_min region_y;
  let amplitude_guess := Qabs (mx - mn) in
  mx' ← np_max region_y;
  Ok {| amplitude := amplitude_guess; center := x_center_guess;
        sigma := 1 # 100; c := mx' |}.

End SweepPlot.

(** ** Timing of the capture step of SweepWorker.run

    [run] starts the trigger thread and then calls [capture_block] on its
    own thread; the trigger thread runs [Engine.trigger_laser].  Time is
    counted in seconds from [trigger_thread.start()]. *)

Module Sync.
Import Engine.

(** Delays the code does not control: how long the trigger thread takes
    to begin running, and how long the worker takes from
    [trigger_thread.start()] until [ps5000aRunBlock] has armed the
    digitizer inside [capture_block]. *)
Record Latency : Type := {
  thread_latency : Q;
  arm_latency : Q
}.

(** The instant at which a thread that starts at [t0] and runs [prog]
    issues [target]: every [Sleep d] before it delays it by [d]. *)
Fixpoint issued_at (prog : list Event) (t0 : Q)
    (target : Event -> bool) : option Q :=
  match prog with
  | [] => None
  | e :: prog' =>
      if target e then Some t0
      else match e with
           | Sleep d => issued_at prog' (t0 + d) target
           | _ => issued_at prog' t0 target
           end
  end.

Definition is_start_sweep (e : Event) : bool :=
  match e with
  | LaserCall StartSweep => true
  | _ => false
  end.

(** When the laser's sweep-start command is issued. *)
Definition sweep_started_at (l : Latency) : option Q :=
  issued_at trigger_laser (thread_latency l) is_start_sweep.

(** When the digitizer is armed. *)
Definition armed_at (l : Latency) : Q := arm_latency l.

Definition armed_before_sweep (l : Latency) : bool :=
  match sweep_started_at l with
  | Some t => negb (Qle_bool t (armed_at l))
  | None => false
  end.

(** Does the program wait on anything but the clock?  The events of the
    worker model contain no acknowledgment or arm-status poll at all. *)
Definition is_sleep (e : Event) : bool :=
  match e with
  | Sleep _ => true
  | _ => false
  end.

End Sync.

(** ** gui/main_window.py: MainWindow.on_sweep_finished *)

Module MainWindow.
Import DataManager.

(** [os.path.basename] on POSIX: what follows the last slash.  [seg] is
    the part read since the last slash. *)
Fixpoint basename_from (p seg : string) : string :=
  match p with
  | EmptyString => seg
  | String ch p' =>
      if Ascii.eqb ch "/"%char then basename_from p' ""
      else basename_from p' (seg +:+ String ch "")
  end.

Definition os_path_basename (p : string) : string := basename_from p "".

(** What the slot puts on the screen: nothing, a status-bar message, or
    a [QMessageBox.warning]. *)
Inductive Shown : Type :=
  | Nothing
  | StatusMessage (text : string)
  | WarningBox (title text : string).

(** [on_sweep_finished(autosave_path)], the slot of [finished_safe].
    [prefix] and [target_dir] are the texts of [le_prefix] and
    [lbl_dir], [timestamp] the clock reading inside [move_autosave]. *)
Definition on_sweep_finished (timestamp : string) (fs : FS)
    (autosave_path prefix target_dir : string) : Shown * FS :=
  if (String.length autosave_path =? 0)%nat then (Nothing, fs)
  else
    match move_autosave timestamp fs autosave_path target_dir prefix with
    | (Ok final_path, fs') =>
        (StatusMessage ("Saved to: " +:+ os_path_basename final_path), fs')
    | (Raise e, fs') => (WarningBox "Save Error" (exn_str e), fs')
    end.

End MainWindow.

(** ** gui/widgets/live_plot.py: the wavelength dial of LivePlotWidget *)

Module LiveControls.

(** What [on_dial_moved] asks of the wavelength spin box. *)
Inductive Step : Type := StepUp | StepDown | NoStep.

(** The wrapped difference computed by [on_dial_moved]. *)
Definition dial_delta (last_dial_val val : Z) : Z :=
  let delta := (val - last_dial_val)%Z in
  let delta := if (180 <? delta)%Z then (delta - 360)%Z else delta in
  let delta := if (delta <? -180)%Z then (delta + 360)%Z else delta in
  delta.

(** [on_dial_moved(val)]: the step requested and the new
    [last_dial_val]. *)
Definition on_dial_moved (last_dial_val val : Z) : Step * Z :=
  let delta := dial_delta last_dial_val val in
  (if (0 <? delta)%Z then StepUp
   else if (delta <? 0)%Z then StepDown
   else NoStep,
   val).

End LiveControls.

(** ** drivers/scope.py: connection, channel set-up and streaming of
    PicoScopeDriver *)

Module PicoScope.
Import Numpy Scope.

(** The input ranges [configure_channels] chooses between (entries of
    [ps.PS5000A_RANGE]). *)
Inductive Range : Type := PS5000A_500MV | PS5000A_1V | PS5000A_2V | PS5000A_5V.

(** The channel names for which [ps.PS5000A_CHANNEL] has an entry
    [PS5000A_CHANNEL_<name>]. *)
Inductive Channel : Type := ChannelA | ChannelB | ChannelC | ChannelD.

(** One value of the [channels] dict: the two keys the method reads,
    [None] for an absent key. *)
Record ChannelParams : Type := {
  enabled : option bool;
  range : option Q
}.

(** The arguments of one [ps5000aSetChannel] call. *)
Record SetChannel : Type := {
  ch_idx : Channel;
  ch_enabled : Z;
  ch_range : Range
}.

(** The driver object.  The two streaming buffers are [None] until
    [start_streaming] allocates them and are read only while streaming;
    [None] is written [[]]. *)
Record Pico : Type := {
  drv : Driver;                          (* _connected, _streaming *)
  maxADC : Z;
  channel_range : Range;
  bufferAMax : list Z;
  bufferBMax : list Z;
  set_channel_calls : list SetChannel    (* ps5000aSetChannel calls so far *)
}.

(** [__init__] (with the SDK present). *)
Definition init : Pico :=
  {| drv := {| connected := false; streaming := false |};
     maxADC := 0;
     channel_range := PS5000A_5V;
     bufferAMax := [];
     bufferBMax := [];
     set_channel_calls := [] |}.

Definition with_drv (s : Pico) (d : Driver) : Pico :=
  {| drv := d; maxADC := maxADC s; channel_range := channel_range s;
     bufferAMax := bufferAMax s; bufferBMax := bufferBMax s;
     set_channel_calls := set_channel_calls s |}.

Definition with_buffers (s : Pico) (a b : list Z) : Pico :=
  {| drv := drv s; maxADC := maxADC s; channel_range := channel_range s;
     bufferAMax := a; bufferBMax := b;
     set_channel_calls := set_channel_calls s |}.

(** What the SDK answers during [connect]: the status codes of
    [ps5000aOpenUnit] and [ps5000aChangePowerSource], the value
    [ps5000aMaximumValue] stores, and the name [assert_pico_ok] prints
    for a status. *)
Record OpenUnit : Type := {
  openunit : Z;
  changePowerSource : Z;
  maximumValue : Z;
  status_name : Z -> string
}.

(** [assert_pico_ok(status)] *)
Definition assert_pico_ok (u : OpenUnit) (status : Z) : result unit :=
  if (status =? 0)%Z then Ok tt
  else Raise (DriverError ("PicoSDK returned '" +:+ status_name u status +:+ "'")).

(** [connect].  [sdk] is [None] when the SDK could not be imported
    ([ps = None]). *)
Definition connect (sdk : option OpenUnit) (s : Pico) : result unit * Pico :=
  let body : result Z :=
    match sdk with
    | None =>
        Raise (DriverError
          "'NoneType' object has no attribute 'PS5000A_DEVICE_RESOLUTION'")
    | Some u =>
        match assert_pico_ok u (openunit u) with
        | Ok _ => Ok (maximumValue u)
        | Raise _ =>
            let powerStatus := openunit u in
            if (powerStatus =? 286)%Z || (powerStatus =? 282)%Z then
              _ ← assert_pico_ok u (changePowerSource u);
              Ok (maximumValue u)
            else Raise (InstrumentConnectionError "PicoScope not found")
        end
    end in
  match body with
  | Ok m =>
      (Ok tt,
       {| drv := {| connected := true; streaming := streaming (drv s) |};
          maxADC := m; channel_range := channel_range s;
          bufferAMax := bufferAMax s; bufferBMax := bufferBMax s;
          set_channel_calls := set_channel_calls s |})
  | Raise e =>
      (Raise (InstrumentConnectionError ("PicoScope Error: " +:+ exn_str e)),
       with_drv s {| connected := false; streaming := streaming (drv s) |})
  end.

(** [disconnect] *)
Definition disconnect (s : Pico) : Pico :=
  let s1 := if connected (drv s) then with_drv s (stop_streaming (drv s)) else s in
  with_drv s1 {| connected := false; streaming := streaming (drv s1) |}.

(** The [if]/[elif] chain of [configure_channels]. *)
Definition range_code (v_range : Q) : Range :=
  if Qle_bool 5 v_range then PS5000A_5V
  else if Qle_bool 2 v_range then PS5000A_2V
  else if Qle_bool 1 v_range then PS5000A_1V
  else PS5000A_500MV.

(** One round of the loop of [configure_channels]. *)
Definition configure_channel (s : Pico) (c : Channel * ChannelParams) : Pico :=
  let enabled := if default true (enabled c.2) then 1%Z else 0%Z in
  let r_code := range_code (default 5 (range c.2)) in
  {| drv := drv s; maxADC := maxADC s;
     channel_range := r_code;
     bufferAMax := bufferAMax s; bufferBMax := bufferBMax s;
     set_channel_calls :=
       set_channel_calls s ++
       [{| ch_idx := c.1; ch_enabled := enabled; ch_range := r_code |}] |}.

(** [configure_channels(channels)]; the dict is given by its items, in
    order. *)
Definition configure_channels (s : Pico)
    (channels : list (Channel * ChannelParams)) : Pico :=
  if negb (connected (drv s)) then s
  else fold_left configure_channel channels s.

(** [start_streaming(callback_func)]: [buffer_size = 10000]. *)
Definition start_streaming (s : Pico) : Pico :=
  if negb (connected (drv s)) || streaming (drv s) then s
  else
    let buffer_size := Z.to_nat 10000 in
    {| drv := {| connected := connected (drv s); streaming := true |};
       maxADC := maxADC s; channel_range := channel_range s;
       bufferAMax := replicate buffer_size 0%Z;
       bufferBMax := replicate buffer_size 0%Z;
       set_channel_calls := set_channel_calls s |}.

(** [adc2mV] of [picosdk.functions]: [(x * vRange) / maxADC] for each
    sample, [vRange] being the range in millivolts. *)
Definition input_range_mV (r : Range) : Z :=
  match r with
  | PS5000A_500MV => 500
  | PS5000A_1V => 1000
  | PS5000A_2V => 2000
  | PS5000A_5V => 5000
  end.

Definition adc2mV (bufferADC : list Z) (r : Range) (maxADC : Z) : list Q :=
  map (fun x => inject_Z (x * input_range_mV r) / inject_Z maxADC) bufferADC.

(** [np.array(adc2mV(raw, self.channel_range, self.maxADC)) / 1000.0] *)
Definition to_volts (s : Pico) (raw : list Z) : list Q :=
  map (fun mv => mv / 1000) (adc2mV raw (channel_range s) (maxADC s)).

(** [a[start:stop]] for [0 <= start] and [0 <= stop]. *)
Definition slice {A} (a : list A) (start stop : nat) : list A :=
  take (stop - start) (drop start a).

(** What [ps5000aGetStreamingLatestValues] does during one call:
    whether it invokes the callback, and then with which [noOfSamples]
    and [startIndex]; and what it leaves at each index of the two
    registered buffers, which it writes in place. *)
Record Latest : Type := {
  callback : option (Z * nat);
  written_A : nat -> Z -> Z;
  written_B : nat -> Z -> Z
}.

(** [get_streaming_values()] *)
Definition get_streaming_values (l : Latest) (s : Pico)
  : (list Q * list Q) * Pico :=
  if negb (streaming (drv s)) then (([], []), s)
  else
    let s' := with_buffers s (imap (written_A l) (bufferAMax s))
                             (imap (written_B l) (bufferBMax s)) in
    match callback l with
    | Some (noOfSamples, startIndex) =>
        if (0 <? noOfSamples)%Z then
          let stop := (startIndex + Z.to_nat noOfSamples)%nat in
          let raw_a := slice (bufferAMax s') startIndex stop in
          let raw_b := slice (bufferBMax s') startIndex stop in
          ((to_volts s' raw_a, to_volts s' raw_b), s')
        else (([], []), s')
    | None => (([], []), s')
    end.

End PicoScope.

(** ** drivers/mocks.py *)

Module Mocks.
Import Numpy Mapping Engine.

(** The simulated absorption line of [MockScopeDriver.capture_block]. *)
Definition lorentzian_dip (duration_s t : Q) : Q :=
  let center_t := duration_s / 2 in
  let width := duration_s / 10 in
  1 - (1 # 2) * (width * width / ((t - center_t) * (t - center_t) + width * width)).

(** [MockScopeDriver.capture_block(duration_s, sample_rate)].  [noise i]
    is the [i]-th draw of [np.random.normal(0, 0.01, n_samples)];
    [time.sleep] rejects a negative duration and [np.linspace] a
    negative count. *)
Definition capture_block (noise : nat -> Q) (duration_s sample_rate : Q)
  : result Capture :=
  if negb (Qle_bool 0 duration_s) then
    Raise (ValueError "sleep length must be non-negative")
  else
    let n_samples := Scope.py_int (duration_s * sample_rate) in
    if (n_samples <? 0)%Z then
      Raise (ValueError ("Number of samples, " +:+ pretty n_samples
                         +:+ ", must be non-negative."))
    else
      let n := Z.to_nat n_samples in
      let t := linspace 0 duration_s n in
      let signal := map (lorentzian_dip duration_s) t in
      Ok {| cap_t := t;
            cap_A := replicate n 0;
            cap_B := zip_with Qplus signal (map noise (seq 0 n)) |}.

(** [MockLaserDriver]: every method prints and returns. *)
Definition laser_raises (c : LaserCmd) : option exn := None.


End Mocks.

(** ** drivers/laser.py: SantecLaserDriver *)

Module SantecLaser.
Import Engine.

(** A command as handed to [resource.write]: a fixed text, or a text
    followed by a number printed with the given count of decimals
    (the f-strings [{x:.4f}], [{x:.2f}], [{x:.1f}]). *)
Inductive Scpi : Type :=
  | Plain (text : string)
  | Fixed (text : string) (value : Q) (decimals : nat).

(** The values found in a connection config. *)
Inductive Value : Type :=
  | VStr (s : string)
  | VInt (n : Z).

(** The [config] dict. *)
Definition Config : Type := gmap string Value.

(** [f"{v}"] *)
Definition format (v : Value) : string :=
  match v with
  | VStr s => s
  | VInt n => pretty n
  end.

(** pyvisa as the driver uses it: which calls raise, and what the
    identity query answers. *)
Record Visa : Type := {
  resource_manager : option exn;          (* pyvisa.ResourceManager() *)
  open_resource : string -> option exn;   (* rm.open_resource(name) *)
  query : string -> result string;        (* resource.query(text) *)
  write : Scpi -> option exn;             (* resource.write(command) *)
  close : option exn                      (* resource.close() *)
}.

(** The driver object, with a record of the VISA calls it has made. *)
Record Driver : Type := {
  connected : bool;              (* _connected *)
  resource : option string;      (* self.resource, by the name opened *)
  session_open : bool;           (* opened and not closed since *)
  timeout : option Z;            (* resource.timeout, when set *)
  opened : list string;          (* open_resource calls so far *)
  written : list Scpi            (* write calls so far *)
}.

Definition init : Driver :=
  {| connected := false; resource := None; session_open := false;
     timeout := None; opened := []; written := [] |}.

Definition set_connected (s : Driver) (b : bool) : Driver :=
  {| connected := b; resource := resource s; session_open := session_open s;
     timeout := timeout s; opened := opened s; written := written s |}.

(** [self.resource.write(command)] *)
Definition resource_write (visa : Visa) (command : Scpi) (s : Driver)
  : option exn * Driver :=
  (write visa command,
   {| connected := connected s; resource := resource s;
      session_open := session_open s; timeout := timeout s;
      opened := opened s; written := written s ++ [command] |}).

(** [self.resource.close()] *)
Definition resource_close (visa : Visa) (s : Driver) : option exn * Driver :=
  match close visa with
  | Some e => (Some e, s)
  | None =>
      (None,
       {| connected := connected s; resource := resource s;
          session_open := false; timeout := timeout s;
          opened := opened s; written := written s |})
  end.

(** Consecutive writes: the first one that raises ends the method. *)
Fixpoint write_all (visa : Visa) (commands : list Scpi) (s : Driver)
  : option exn * Driver :=
  match commands with
  | [] => (None, s)
  | command :: commands' =>
      match resource_write visa command s with
      | (Some e, s') => (Some e, s')
      | (None, s') => write_all visa commands' s'
      end
  end.

(** The writes of each method that [SweepWorker.run] calls. *)
Definition commands (c : LaserCmd) : list Scpi :=
  match c with
  | SetPower power_dbm =>
      [Fixed ":POWer:ATT " power_dbm 2; Fixed ":POWe " power_dbm 2]
  | SetSweepParams start_nm end_nm speed_nm_s =>
      [Fixed ":WAV:SWE:START " start_nm 4; Fixed ":WAV:SWE:STOP " end_nm 4;
       Fixed ":WAV:SWE:SPE " speed_nm_s 1;
       Plain ":WAV:SWE:MOD 1"; Plain ":TRIG:OUTP 2"]
  | TurnOn => [Plain ":POWer:STATe 1"; Plain ":POW:SHUT 0"]
  | TurnOff => [Plain ":POW:SHUT 1"; Plain ":POWer:STATe 0"]
  | StartSweep => [Plain ":WAV:SWE 1"]
  | StopSweep => [Plain ":WAV:SWE 0"]
  end.

(** [set_power], [set_sweep_params], [turn_on], [turn_off],
    [start_sweep], [stop_sweep]: nothing unless connected. *)
Definition call (visa : Visa) (c : LaserCmd) (s : Driver) : option exn * Driver :=
  if negb (connected s) then (None, s)
  else write_all visa (commands c) s.

(** [set_wavelength(wavelength_nm)] *)
Definition set_wavelength (visa : Visa) (wavelength_nm : Q) (s : Driver)
  : option exn * Driver :=
  if negb (connected s) then (None, s)
  else write_all visa [Fixed ":WAVelength " wavelength_nm 4] s.

(** What stops the [try] block of [connect]: a key that the config does
    not have, or an exception of pyvisa. *)
Inductive Failure : Type :=
  | KeyError (key : string)
  | Raised (e : exn).

(** [str(e)] *)
Definition failure_str (f : Failure) : string :=
  match f with
  | KeyError key => "'" +:+ key +:+ "'"
  | Raised e => exn_str e
  end.

(** [config.get("interface") == "LAN"] *)
Definition is_lan (config : Config) : bool :=
  match config !! "interface" with
  | Some (VStr i) => String.eqb i "LAN"
  | _ => false
  end.

(** The resource name [connect] opens. *)
Definition resource_name (config : Config) : Failure + string :=
  if is_lan config then
    match config !! "ip" with
    | None => inl (KeyError "ip")
    | Some ip =>
        match config !! "port" with
        | None => inl (KeyError "port")
        | Some port =>
            inr ("TCPIP0::" +:+ format ip +:+ "::" +:+ format port +:+ "::SOCKET")
        end
    end
  else inr (format (default (VStr "GPIB0::10::INSTR") (config !! "address"))).

(** The [try] block of [connect]: the state it reaches and what stopped
    it, if anything. *)
Definition connect_attempt (visa : Visa) (config : Config) (s : Driver)
  : Driver * option Failure :=
  match resource_manager visa with
  | Some e => (s, Some (Raised e))
  | None =>
      match resource_name config with
      | inl f => (s, Some f)
      | inr name =>
          let s1 :=
            {| connected := connected s; resource := resource s;
               session_open := session_open s; timeout := timeout s;
               opened := opened s ++ [name]; written := written s |} in
          match open_resource visa name with
          | Some e => (s1, Some (Raised e))
          | None =>
              let s2 :=
                {| connected := connected s1; resource := Some name;
                   session_open := true;
                   timeout := if is_lan config then Some 5000%Z else None;
                   opened := opened s1; written := written s1 |} in
              match query visa "*IDN?" with
              | Raise e => (s2, Some (Raised e))
              | Ok _ =>
                  match resource_write visa (Plain ":WAVelength:UNIT 0") s2 with
                  | (Some e, s3) => (s3, Some (Raised e))
                  | (None, s3) => (set_connected s3 true, None)
                  end
              end
          end
      end
  end.

(** [connect(config)] *)
Definition connect (visa : Visa) (config : Config) (s : Driver)
  : result unit * Driver :=
  match connect_attempt visa config s with
  | (s', None) => (Ok tt, s')
  | (s', Some f) =>
      let s1 := set_connected s' false in
      match resource s1 with
      | Some _ =>
          match resource_close visa s1 with
          | (Some e, s2) => (Raise e, s2)
          | (None, s2) =>
              (Raise (InstrumentConnectionError
                        ("Failed to connect to Santec Laser: " +:+ failure_str f)),
               s2)
          end
      | None =>
          (Raise (InstrumentConnectionError
                    ("Failed to connect to Santec Laser: " +:+ failure_str f)),
           s1)
      end
  end.

(** [disconnect()]: the guarded shutdown, then [_connected = False]. *)
Definition disconnect (visa : Visa) (s : Driver) : Driver :=
  let s1 :=
    match resource s with
    | Some _ =>
        match call visa StopSweep s with
        | (Some _, s') => s'
        | (None, s') =>
            match call visa TurnOff s' with
            | (Some _, s'') => s''
            | (None, s'') => (resource_close visa s'').2
            end
        end
    | None => s
    end in
  set_connected s1 false.

End SantecLaser.

(** ** core/engine.py: MeasurementEngine *)

Module Initialize.
Import Numpy Mapping Engine.

(** The objects [self.laser] and [self.scope] can hold. *)
Inductive LaserObj : Type :=
  | Santec (d : SantecLaser.Driver)
  | MockLaser (connected : bool).

Inductive ScopeObj : Type :=
  | Pico (d : PicoScope.Pico)
  | MockScope (connected streaming : bool).

(** The instruments behind the real drivers. *)
Record Hardware : Type := {
  visa : SantecLaser.Visa;
  sdk : option PicoScope.OpenUnit
}.

(** [is_connected] *)
Definition laser_is_connected (o : LaserObj) : bool :=
  match o with
  | Santec d => SantecLaser.connected d
  | MockLaser connected => connected
  end.

Definition scope_is_connected (o : ScopeObj) : bool :=
  match o with
  | Pico d => Scope.connected (PicoScope.drv d)
  | MockScope connected _ => connected
  end.

Definition scope_is_streaming (o : ScopeObj) : bool :=
  match o with
  | Pico d => Scope.streaming (PicoScope.drv d)
  | MockScope _ streaming => streaming
  end.

(** [connect(config)] of the four driver classes. *)
Definition laser_connect (hw : Hardware) (config : SantecLaser.Config)
    (o : LaserObj) : result unit * LaserObj :=
  match o with
  | Santec d =>
      let r := SantecLaser.connect (visa hw) config d in (r.1, Santec r.2)
  | MockLaser _ => (Ok tt, MockLaser true)
  end.

Definition scope_connect (hw : Hardware) (config : SantecLaser.Config)
    (o : ScopeObj) : result unit * ScopeObj :=
  match o with
  | Pico d => let r := PicoScope.connect (sdk hw) d in (r.1, Pico r.2)
  | MockScope _ streaming => (Ok tt, MockScope true streaming)
  end.

(** [disconnect()] of the four driver classes. *)
Definition laser_disconnect (hw : Hardware) (o : LaserObj) : LaserObj :=
  match o with
  | Santec d => Santec (SantecLaser.disconnect (visa hw) d)
  | MockLaser _ => MockLaser false
  end.

Definition scope_disconnect (o : ScopeObj) : ScopeObj :=
  match o with
  | Pico d => Pico (PicoScope.disconnect d)
  | MockScope _ _ => MockScope false false
  end.

Record MeasurementEngine : Type := {
  laser : option LaserObj;
  scope : option ScopeObj;
  mock_mode : bool
}.

(** [__init__] *)
Definition init : MeasurementEngine :=
  {| laser := None; scope := None; mock_mode := false |}.

(** What [initialize_drivers] leaves behind: the pair it returns, the
    engine, and the two drivers it replaced, as [disconnect] left
    them. *)
Record Initialized : Type := {
  returned : bool * string;
  engine : MeasurementEngine;
  old_laser : option LaserObj;
  old_scope : option ScopeObj
}.

(** [initialize_drivers(laser_config, scope_config, force_mock)] *)
Definition initialize_drivers (hw : Hardware) (self : MeasurementEngine)
    (laser_config scope_config : SantecLaser.Config) (force_mock : bool)
  : Initialized :=
  let old_laser := laser_disconnect hw <$> laser self in
  let old_scope := scope_disconnect <$> scope self in
  let new_laser :=
    if force_mock then MockLaser false else Santec SantecLaser.init in
  let new_scope :=
    if force_mock then MockScope false false else Pico PicoScope.init in
  match laser_connect hw laser_config new_laser with
  | (Raise e, laser') =>
      {| returned := (false, exn_str e);
         engine := {| laser := Some laser'; scope := Some new_scope;
                      mock_mode := force_mock |};
         old_laser := old_laser; old_scope := old_scope |}
  | (Ok _, laser') =>
      match scope_connect hw scope_config new_scope with
      | (Raise e, scope') =>
          {| returned := (false, exn_str e);
             engine := {| laser := Some laser'; scope := Some scope';
                          mock_mode := force_mock |};
             old_laser := old_laser; old_scope := old_scope |}
      | (Ok _, scope') =>
          {| returned := (true, "Connected successfully");
             engine := {| laser := Some laser'; scope := Some scope';
                          mock_mode := force_mock |};
             old_laser := old_laser; old_scope := old_scope |}
      end
  end.

(** The name of the driver method behind each call of [run]. *)
Definition method_name (c : LaserCmd) : string :=
  match c with
  | SetPower _ => "set_power"
  | SetSweepParams _ _ _ => "set_sweep_params"
  | TurnOn => "turn_on"
  | TurnOff => "turn_off"
  | StartSweep => "start_sweep"
  | StopSweep => "stop_sweep"
  end.

(** A laser call of the worker on whatever [self.laser] holds: on
    [None] the attribute lookup raises. *)
Definition laser_call (hw : Hardware) (o : option LaserObj) (c : LaserCmd)
  : option exn :=
  match o with
  | None =>
      Some (DriverError ("'NoneType' object has no attribute '"
                         +:+ method_name c +:+ "'"))
  | Some (Santec d) => (SantecLaser.call (visa hw) c d).1
  | Some (MockLaser _) => None
  end.

(** [self.scope.capture_block(duration, rate)] on whatever [self.scope]
    holds.  [digitizer] is what a connected PicoScope returns and
    [noise] the random draws of the mock. *)
Definition scope_call (o : option ScopeObj)
    (digitizer : Q -> Q -> result Capture) (noise : nat -> Q)
    (duration rate : Q) : result Capture :=
  match o with
  | None =>
      Raise (DriverError "'NoneType' object has no attribute 'capture_block'")
  | Some (Pico d) =>
      if negb (Scope.connected (PicoScope.drv d)) then
        Raise (InstrumentConnectionError "Not connected")
      else digitizer duration rate
  | Some (MockScope _ _) => Mocks.capture_block noise duration rate
  end.

(** [start_sweep(params)]: the worker gets the engine's two drivers. *)
Definition start_sweep (hw : Hardware) (self : MeasurementEngine)
    (digitizer : Q -> Q -> result Capture) (noise : nat -> Q)
    (cwd timestamp : string) : Env :=
  {| laser_raises := laser_call hw (laser self);
     scope_capture := scope_call (scope self) digitizer noise;
     cwd := cwd;
     timestamp := timestamp |}.

(** One timer tick of the live view on a scope object:
    [hasattr(self.scope, "get_streaming_values")] holds for the
    PicoScope driver only, and the scope is polled only while the
    widget is streaming. *)
Definition live_tick (l : PicoScope.Latest) (self : LivePlot.Widget)
    (o : ScopeObj) : (LivePlot.Widget * option exn) * ScopeObj :=
  if negb (LivePlot.is_streaming self) then (LivePlot.update_plot self None, o)
  else
    match o with
    | Pico d =>
        let r := PicoScope.get_streaming_values l d in
        (LivePlot.update_plot self (Some r.1), Pico r.2)
    | MockScope _ _ => (LivePlot.update_plot self None, o)
    end.

End Initialize.

(** ** gui/widgets/sweep_plot.py: SweepPlotWidget.set_data *)

Module SweepData.
Import Numpy SweepPlot.

(** [roi.setRegion((a, b))]; [roi.getRegion()] reads the two lines back
    in increasing order, and so does [roi] here. *)
Definition set_roi (self : Widget) (a b : Q) : Widget :=
  {| current := current self; roi := (qmin a b, qmax a b);
     lbl_info := lbl_info self; curve_fit := curve_fit self;
     fit_calls := fit_calls self |}.

(** [update_fit] run as the slot of [sigRegionChanged]: an exception
    raised in a slot is reported and does not reach the emitter. *)
Definition update_fit_slot (fit : Fitter) (self : Widget) : Widget :=
  match update_fit fit self with
  | Ok self' => self'
  | Raise _ => self
  end.

Fixpoint run_slots (fit : Fitter) (k : nat) (self : Widget) : Widget :=
  match k with
  | O => self
  | S k' => run_slots fit k' (update_fit_slot fit self)
  end.

(** [set_data(wavelengths, signal)].  [region_signals] is the number of
    times [roi.setRegion] emits [sigRegionChanged];
    [curve_data.setData] rejects arrays of different lengths. *)
Definition set_data (fit : Fitter) (region_signals : nat) (self : Widget)
    (wavelengths signal : list Q) : result Widget :=
  if negb (length wavelengths =? length signal)%nat then
    Raise (DriverError ("X and Y arrays must be the same shape--got ("
                        +:+ pretty (length wavelengths) +:+ ",) and ("
                        +:+ pretty (length signal) +:+ ",)."))
  else
    let self1 :=
      {| current := Some (wavelengths, signal); roi := roi self;
         lbl_info := DataLoaded; curve_fit := ([], []);
         fit_calls := fit_calls self |} in
    let mid := (length wavelengths / 2)%nat in
    let span := (length wavelengths / 4)%nat in
    if (1 <? length wavelengths)%nat then
      lo ← item wavelengths (mid - span);
      hi ← item wavelengths (mid + span);
      let self2 := run_slots fit region_signals (set_roi self1 lo hi) in
      update_fit fit self2
    else Ok self1.

End SweepData.

(** ** LaserConrtolOLD.py: region selection, live statistics and the
    legacy sweep mapping *)

Module Legacy.
Import Numpy.

(** [np.searchsorted(a, v)] on a sorted array: the index of the first
    entry that is not below [v]. *)
Fixpoint searchsorted (a : list Q) (v : Q) : nat :=
  match a with
  | [] => O
  | x :: a' => if Qle_bool v x then O else S (searchsorted a' v)
  end.

(** A slice bound as Python reads it on a sequence of [len] entries: a
    negative bound counts from the end, and bounds are clipped. *)
Definition slice_bound (len : nat) (i : Z) : nat :=
  if (i <? 0)%Z then Z.to_nat (Z.max 0 (i + Z.of_nat len))
  else Nat.min (Z.to_nat i) len.

(** [a[start:stop]] *)
Definition py_slice {A} (a : list A) (start stop : Z) : list A :=
  let s := slice_bound (length a) start in
  let e := slice_bound (length a) stop in
  take (e - s) (drop s a).

(** The region [on_select(xmin, xmax)] cuts out of the sweep. *)
Definition select_region (wavelengths spectrum : list Q) (xmin xmax : Q)
  : list Q * list Q :=
  let indmin := Z.of_nat (searchsorted wavelengths xmin) in
  let indmax := Z.of_nat (searchsorted wavelengths xmax) in
  let indmax := Z.min (Z.of_nat (length wavelengths) - 1) indmax in
  (py_slice wavelengths indmin indmax, py_slice spectrum indmin indmax).

(** [on_select(xmin, xmax)]: [data] is [(self.wavelengths,
    self.spectrum)], [None] before the first sweep; [line2] holds the
    data of the lower plot, which [calculate_q] fits. *)
Definition on_select (data : option (list Q * list Q)) (line2 : list Q * list Q)
    (xmin xmax : Q) : list Q * list Q :=
  match data with
  | None => line2
  | Some (wavelengths, spectrum) =>
      let region := select_region wavelengths spectrum xmin xmax in
      if (2 <=? length region.1)%nat then region else line2
  end.

(** The guard of [calculate_q]: is there a region to fit? *)
Definition has_region (line2 : list Q * list Q) : bool :=
  (2 <=? length line2.1)%nat.

(** [update_live_data]: the history of the last samples of one
    channel, [append] followed by [pop(0)] beyond ten entries. *)
Definition push_history (history : list Q) (x : Q) : list Q :=
  let history := history ++ [x] in
  if (10 <? length history)%nat then drop 1 history else history.

(** [SweepThread.run], from the samples to the emitted pair:
    [time_axis = np.arange(len(data_b)) * actual_interval],
    [wavelengths = start + time_axis * speed],
    [mask = wavelengths <= end], [spectrum = data_b[:len(wavelengths)]]
    with the masked wavelengths. *)
Definition sweep_thread_data (start_wavelength end_wavelength sweep_speed
    actual_interval : Q) (data_b : list Q) : list Q * list Q :=
  let time_axis :=
    map (fun i => inject_Z (Z.of_nat i) * actual_interval)
        (seq 0 (length data_b)) in
  let wavelengths := add_scalar start_wavelength (mul_scalar time_axis sweep_speed) in
  let mask := map (fun w => Qle_bool w end_wavelength) wavelengths in
  let wavelengths := select wavelengths mask in
  (wavelengths, take (length wavelengths) data_b).

End Legacy.

(** * Scenarios and specification-level notions used by the properties *)

Section SweepMappingSetting.

Import Numpy Mapping.

Definition sweep_1550 : SweepParams :=
  {| start_nm := 1550; end_nm := 1551; speed_nm_s := 1; power_dbm := 0 |}.

(** A block whose time axis starts before the trigger and runs past the
    end of the sweep: five samples at -0.25, 0, 0.5, 1 and 1.5 s. *)
Definition pre_trigger_block : Capture :=
  {| cap_t := [-(1 # 4); 0; 1 # 2; 1; 3 # 2];
     cap_A := [0; 0; 0; 0; 0];
     cap_B := [1; 2; 3; 4; 5] |}.

End SweepMappingSetting.

Section CaptureBlockSetting.

Import Numpy Mapping Scope.

(** [k] is the first poll at which the device reports ready. *)
Definition first_ready (dev : Device) (k : nat) : Prop :=
  is_ready dev k = true /\ forall j, (j < k)%nat -> is_ready dev j = false.

Definition open_driver : Driver := {| connected := true; streaming := false |}.

(** A digitizer whose trigger never arrives. *)
Definition never_triggered : Device :=
  {| is_ready := fun _ => false;
     volts_A := fun n => replicate n 0;
     volts_B := fun n => replicate n 0 |}.

(** A digitizer that reports ready at the third poll. *)
Definition ready_at_third_poll : Device :=
  {| is_ready := fun k => Nat.eqb k 2;
     volts_A := fun n => replicate n 0;
     volts_B := fun n => replicate n 1 |}.

End CaptureBlockSetting.

Section RingBufferSetting.

Import Numpy LivePlot.

Definition small_widget : Widget :=
  {| is_streaming := true; roll_buffer_size := 3;
     data_buffer_a := [1; 2; 3]; data_buffer_b := [4; 5; 6] |}.

End RingBufferSetting.

Section PersistenceSetting.

Import DataManager.

(** A staging area with one autosaved sweep. *)
Definition staged_frame : DataFrame :=
  [("Wavelength_nm", [1550; 1551]); ("Amplitude_V", [1 # 2; 1 # 4])].

Definition staged_fs : FS :=
  {| files := {[ "/lab/data/autosaves/sweep_autosave_20240101_120000.csv"
                 := staged_frame ]};
     writable := fun _ => true;
     can_mkdir := fun _ => true |}.

End PersistenceSetting.

Section AutosaveSetting.

Import DataManager.

(** The path [autosave_sweep] writes to. *)
Definition autosave_path (cwd ts : string) : string :=
  path_join (AUTOSAVE_DIR cwd) ("sweep_autosave_" +:+ ts +:+ ".csv").

Definition open_fs : FS :=
  {| files := ∅; writable := fun _ => true; can_mkdir := fun _ => true |}.

End AutosaveSetting.

Section RunOrderSetting.

Import Numpy Mapping DataManager Engine Sync.

(** The two signals that hand a result to the consumers of the worker. *)
Definition is_notification (e : Event) : bool :=
  match e with
  | DataReady _ _ | FinishedSafe _ => true
  | _ => false
  end.

(** The autosave call of [run] returned [path] and left [fs1]. *)
Definition autosave_returned (env : Env) (fs0 : FS) (wl sg : list Q)
    (path : string) (fs1 : FS) : Prop :=
  autosave_sweep (cwd env) (timestamp env) fs0 wl sg = (Ok path, fs1).

(** A simulated bench: the laser obeys, the scope returns three samples
    over the requested duration. *)
Definition bench : Env :=
  {| laser_raises := fun _ => None;
     scope_capture := fun d _ =>
       Ok {| cap_t := linspace 0 d 3; cap_A := [0; 0; 0]; cap_B := [1; 2; 3] |};
     cwd := "/lab";
     timestamp := "20240101_120000" |}.

(** A staging area that cannot be written (full disk). *)
Definition full_disk : FS :=
  {| files := ∅; writable := fun _ => false; can_mkdir := fun _ => true |}.

(** Arming that takes one second, with a trigger thread that starts at
    once. *)
Definition slow_arming : Latency := {| thread_latency := 0; arm_latency := 1 |}.

(** Arming that takes 10 ms. *)
Definition fast_arming : Latency :=
  {| thread_latency := 0; arm_latency := 1 # 100 |}.

(** A bench whose scope missed the trigger and hands back an empty
    block. *)
Definition bench_missed_trigger : Env :=
  {| laser_raises := fun _ => None;
     scope_capture := fun _ _ => Ok {| cap_t := []; cap_A := []; cap_B := [] |};
     cwd := "/lab";
     timestamp := "20240101_120000" |}.

End RunOrderSetting.

Section FitGuessesSetting.

Import Numpy SweepPlot.

(** The maximum and minimum of an array, and "the x value at the sample
    of maximum |y - mean(y)|" / "at the minimum of y" (the first such
    sample when several tie). *)
Definition is_max (l : list Q) (m : Q) : Prop :=
  In m l /\ Forall (fun v => v <= m) l.

Definition is_min (l : list Q) (m : Q) : Prop :=
  In m l /\ Forall (fun v => m <= v) l.

Definition first_largest (l : list Q) (i : nat) : Prop :=
  exists v, l !! i = Some v /\
    Forall (fun u => u <= v) l /\
    forall j u, (j < i)%nat -> l !! j = Some u -> u < v.

Definition first_smallest (l : list Q) (i : nat) : Prop :=
  exists v, l !! i = Some v /\
    Forall (fun u => v <= u) l /\
    forall j u, (j < i)%nat -> l !! j = Some u -> v < u.

End FitGuessesSetting.

Section FitGuessesClaimSetting.

Import Numpy SweepPlot.

Definition dip_x : list Q := [1; 2; 3; 4; 5; 6; 7; 8; 9; 10].
Definition dip_y : list Q := [5; 5; 5; 5; 1; 5; 5; 5; 5; 6].

End FitGuessesClaimSetting.

Section FitRegionSetting.

Import Numpy SweepPlot.

(** The samples of the stored series that fall in the ROI. *)
Definition in_roi (lo hi : Q) (wl : list Q) : list Q :=
  List.filter (fun x => Qle_bool lo x && Qle_bool x hi) wl.

(** A fitter that always converges to the same line. *)
Definition constant_fitter : Fitter :=
  fun _ _ _ => Ok {| center_value := 1550; fwhm_value := 1 # 10;
                     eval := fun xs => map (fun _ => 1) xs |}.

(** A widget that shows the result of an earlier fit and whose ROI now
    holds three samples. *)
Definition narrow_roi_widget : Widget :=
  {| current := Some ([1550; 1551; 1552; 1553], [1; 2; 3; 4]);
     roi := (1550, 1552);
     lbl_info := FitResults 1550 15500;
     curve_fit := ([1550; 1552], [1; 1]);
     fit_calls := [] |}.

End FitRegionSetting.

Section RunOutcomeSetting.

Import Numpy Mapping DataManager Engine.



(** The texts sent through [status_update], in order. *)
Definition status_messages (l : list Event) : list string :=
  omap (fun e => match e with StatusUpdate m => Some m | _ => None end) l.

(** The five stages [run] announces. *)
Definition stages : list string :=
  ["Configuring Laser..."; "Arming Trigger..."; "Acquiring...";
   "Processing..."; "Saving..."].

(** A bench whose scope driver is not connected. *)
Definition bench_unplugged : Env :=
  {| laser_raises := fun _ => None;
     scope_capture := fun _ _ => Raise (InstrumentConnectionError "Not connected");
     cwd := "/lab";
     timestamp := "20240101_120000" |}.

Definition sweep_zero_speed : SweepParams :=
  {| start_nm := 1550; end_nm := 1551; speed_nm_s := 0; power_dbm := 0 |}.

End RunOutcomeSetting.

Section SaveSlotSetting.

Import DataManager.

Fixpoint has_slash (s : string) : bool :=
  match s with
  | EmptyString => false
  | String ch s' => Ascii.eqb ch "/"%char || has_slash s'
  end.

(** The frame [autosave_sweep] builds from a series. *)
Definition sweep_frame (wl sg : list Q) : DataFrame :=
  [("Wavelength_nm", wl); ("Amplitude_V", sg)].

End SaveSlotSetting.

Section PicoScopeSetting.

Import Scope PicoScope.

(** Full scale of an input range, in volts. *)
Definition full_scale (r : Range) : Q :=
  match r with
  | PS5000A_500MV => 1 # 2
  | PS5000A_1V => 1
  | PS5000A_2V => 2
  | PS5000A_5V => 5
  end.

(** A driver never streams without being connected. *)
Definition consistent (d : Driver) : Prop :=
  streaming d = true -> connected d = true.

(** A connected scope with 12-bit full scale 32512. *)
Definition pico_connected : Pico :=
  {| drv := {| connected := true; streaming := false |};
     maxADC := 32512;
     channel_range := PS5000A_5V;
     bufferAMax := [];
     bufferBMax := [];
     set_channel_calls := [] |}.

(** A streaming scope with four-sample buffers. *)
Definition pico_streaming : Pico :=
  {| drv := {| connected := true; streaming := true |};
     maxADC := 32512;
     channel_range := PS5000A_5V;
     bufferAMax := [0; 0; 0; 0]%Z;
     bufferBMax := [0; 0; 0; 0]%Z;
     set_channel_calls := [] |}.

(** The SDK delivers two samples starting at index 1. *)
Definition two_samples : Latest :=
  {| callback := Some (2%Z, 1%nat);
     written_A := fun i _ => Z.of_nat i;
     written_B := fun i _ => (- Z.of_nat i)%Z |}.

(** Channel A asked at 5 V, then channel B at 1 V. *)
Definition a_5V_b_1V : list (Channel * ChannelParams) :=
  [(ChannelA, {| enabled := Some true; range := Some 5 |});
   (ChannelB, {| enabled := None; range := Some 1 |})].

End PicoScopeSetting.

Section LiveViewSetting.

Import Numpy LivePlot.

(** The two channels of a chunk have the same length. *)
Definition even_channels (poll : option (list Q * list Q)) : Prop :=
  forall new_a new_b, poll = Some (new_a, new_b) -> length new_b = length new_a.

(** Successive timer ticks: the widget after the last one, and the
    exceptions raised on the way (an exception leaves the slot, the
    timer goes on). *)
Fixpoint ticks (self : Widget) (polls : list (option (list Q * list Q)))
  : Widget * list exn :=
  match polls with
  | [] => (self, [])
  | poll :: polls' =>
      let r := update_plot self poll in
      let r' := ticks r.1 polls' in
      (r'.1, match r.2 with Some e => e :: r'.2 | None => r'.2 end)
  end.

End LiveViewSetting.

Section DriversSetting.

Import Numpy Mapping Engine SantecLaser Initialize.

(** A VISA layer on which every call succeeds. *)
Definition visa_ok : Visa :=
  {| resource_manager := None;
     open_resource := fun _ => None;
     query := fun _ => Ok "SANTEC,TSL-550,0,0";
     write := fun _ => None;
     close := None |}.

(** No instrument answers at any address. *)
Definition visa_nothing_there : Visa :=
  {| resource_manager := None;
     open_resource := fun _ => Some (DriverError "VI_ERROR_RSRC_NFOUND");
     query := fun _ => Raise (DriverError "VI_ERROR_TMO");
     write := fun _ => Some (DriverError "VI_ERROR_TMO");
     close := None |}.

(** A digitizer that opens at once. *)
Definition sdk_ok : PicoScope.OpenUnit :=
  {| PicoScope.openunit := 0; PicoScope.changePowerSource := 0;
     PicoScope.maximumValue := 32512;
     PicoScope.status_name := fun _ => "PICO_NOT_FOUND" |}.

(** No digitizer is plugged in (status 3, PICO_NOT_FOUND). *)
Definition sdk_not_found : PicoScope.OpenUnit :=
  {| PicoScope.openunit := 3; PicoScope.changePowerSource := 0;
     PicoScope.maximumValue := 0;
     PicoScope.status_name := fun _ => "PICO_NOT_FOUND" |}.

Definition bench_hw : Hardware := {| visa := visa_ok; sdk := Some sdk_ok |}.

Definition laser_only_hw : Hardware :=
  {| visa := visa_ok; sdk := Some sdk_not_found |}.

Definition empty_bench_hw : Hardware :=
  {| visa := visa_nothing_there; sdk := Some sdk_not_found |}.

(** A LAN preset that lacks the port. *)
Definition lan_without_port : Config :=
  {[ "interface" := VStr "LAN"; "ip" := VStr "192.168.1.100" ]}.

(** A preset that only names the interface. *)
Definition gpib_bare : Config := {[ "interface" := VStr "GPIB" ]}.

(** A connected Santec driver. *)
Definition santec_connected : Driver :=
  {| connected := true; resource := Some "GPIB0::10::INSTR";
     session_open := true; timeout := None;
     opened := ["GPIB0::10::INSTR"];
     written := [Plain ":WAVelength:UNIT 0"] |}.

(** An engine running on connected mock drivers. *)
Definition mock_engine : MeasurementEngine :=
  {| laser := Some (MockLaser true);
     scope := Some (MockScope true false);
     mock_mode := true |}.

(** The digitizer of the simulated bench. *)
Definition bench_digitizer : Q -> Q -> result Capture := scope_capture bench.

Definition no_noise : nat -> Q := fun _ => 0.

End DriversSetting.

Section SweepDataSetting.

Import Numpy SweepPlot SweepData.

(** The widget [update_fit] leaves after attempting a fit of the
    selection [(x_sub, y_sub)] from the guesses [p]. *)
Definition after_fit (fit : Fitter) (self : Widget) (lo hi : Q)
    (x_sub y_sub : list Q) (p : Params) : Widget :=
  let self1 := record_fit self (y_sub, p, x_sub) in
  match fit y_sub p x_sub with
  | Raise e => set_label self1 (FitFailed (exn_str e))
  | Ok res =>
      let fit_x := linspace lo hi 500 in
      set_label (set_curve self1 (fit_x, eval res fit_x))
        (FitResults (center_value res)
           (if negb (Qeq_bool (fwhm_value res) 0)
            then center_value res / fwhm_value res else 0))
  end.

(** A fitter that never converges. *)
Definition failing_fitter : Fitter :=
  fun _ _ _ => Raise (ValueError "The model function generated NaN values").

(** A fitter that returns a line of zero width. *)
Definition zero_width_fitter : Fitter :=
  fun _ _ _ => Ok {| center_value := 1550; fwhm_value := 0;
                     eval := fun xs => map (fun _ => 1) xs |}.

(** Twelve samples, one per nanometre, and a widget that shows an
    earlier fit of them with the whole span selected. *)
Definition twelve_nm : list Q :=
  [1550; 1551; 1552; 1553; 1554; 1555; 1556; 1557; 1558; 1559; 1560; 1561].

Definition twelve_volts : list Q := [5; 5; 5; 5; 5; 1; 5; 5; 5; 5; 5; 6].

Definition fitted_widget : Widget :=
  {| current := Some (twelve_nm, twelve_volts);
     roi := (1550, 1561);
     lbl_info := FitResults 1555 15550;
     curve_fit := ([1550; 1561], [1; 1]);
     fit_calls := [] |}.

(** Twenty samples, one per nanometre. *)
Definition twenty_nm : list Q := map (fun i => 1550 + inject_Z (Z.of_nat i)) (seq 0 20).

Definition twenty_volts : list Q := replicate 20 1.

End SweepDataSetting.

Section LegacySetting.

Import Numpy Legacy.

(** Inside the half-open interval [[xmin, xmax)]. *)
Definition in_span (xmin xmax x : Q) : bool :=
  Qle_bool xmin x && negb (Qle_bool xmax x).

(** All but the last entry. *)
Definition but_last {A} (l : list A) : list A := take (length l - 1) l.

(** The time axis of the legacy sweep thread:
    [np.arange(n) * actual_interval]. *)
Definition arange_times (n : nat) (actual_interval : Q) : list Q :=
  map (fun i => inject_Z (Z.of_nat i) * actual_interval) (seq 0 n).

(** Five sorted wavelengths and their amplitudes. *)
Definition legacy_nm : list Q := [1550; 1551; 1552; 1553; 1554].

Definition legacy_volts : list Q := [5; 4; 1; 4; 5].

End LegacySetting.

(** * Properties *)

(** ** Mapping time to wavelength (core/engine.py) *)

Section MappingFacts.
Import Numpy Mapping.

Lemma select_mask_filter {A} (f : A -> bool) (l : list A) :
  select l (map f l) = List.filter f l.
Proof.
  induction l as [|x l IH]; simpl; [reflexivity|].
  destruct (f x); rewrite IH; reflexivity.
Qed.

Lemma bool_index_mask {A} (f : A -> bool) (l : list A) :
  bool_index l (map f l) = Ok (List.filter f l).
Proof.
  unfold bool_index. rewrite length_map, Nat.eqb_refl.
  now rewrite select_mask_filter.
Qed.


(** Selecting two arrays of the same length with one mask keeps the
    pairs of entries at the positions where the mask is true. *)
Lemma select_mask_samples {A B} (f : A -> bool) (l : list A) (s : list B) :
  length s = length l ->
  select l (map f l) = map fst (List.filter (fun xs => f xs.1) (combine l s)) /\
  select s (map f l) = map snd (List.filter (fun xs => f xs.1) (combine l s)).
Proof.
  revert s. induction l as [|x l IH]; intros [|y s] Hlen; simpl in *;
    try discriminate; [split; reflexivity|].
  injection Hlen as Hlen. destruct (IH s Hlen) as [IH1 IH2].
  destruct (f x); simpl; rewrite IH1, IH2; split; reflexivity.
Qed.

Lemma in_range_spec lo hi x :
  in_range lo hi x = true <-> lo <= x /\ x <= hi.
Proof.
  unfold in_range. rewrite andb_true_iff, !Qle_bool_iff. reflexivity.
Qed.

Lemma filter_in_range_bounded lo hi (l : list Q) :
  Forall (fun x => lo <= x /\ x <= hi) (List.filter (in_range lo hi) l).
Proof.
  apply List.Forall_forall. intros x Hx.
  apply List.filter_In in Hx. now apply in_range_spec.
Qed.

Lemma StronglySorted_map_mono (f : Q -> Q) (l : list Q) :
  (forall a b, a <= b -> f a <= f b) ->
  StronglySorted Qle l -> StronglySorted Qle (map f l).
Proof.
  intros Hf. induction 1 as [|a l Hs IH Hall]; simpl; constructor; auto.
  apply List.Forall_forall. intros y Hy.
  apply List.in_map_iff in Hy as (b & <- & Hb).
  apply Hf. rewrite List.Forall_forall in Hall. now apply Hall.
Qed.

Lemma StronglySorted_filter_keep (f : Q -> bool) (l : list Q) :
  StronglySorted Qle l -> StronglySorted Qle (List.filter f l).
Proof.
  induction 1 as [|a l Hs IH Hall]; simpl; [constructor|].
  destruct (f a); auto. constructor; auto.
  apply List.Forall_forall. intros y Hy.
  apply List.filter_In in Hy as [Hy _].
  rewrite List.Forall_forall in Hall. now apply Hall.
Qed.

Lemma wavelengths_sorted start speed (ts : list Q) :
  0 <= speed -> StronglySorted Qle ts ->
  StronglySorted Qle (wavelengths start speed ts).
Proof.
  intros Hs Hts. unfold wavelengths, add_scalar, mul_scalar.
  rewrite List.map_map. apply StronglySorted_map_mono; auto.
  intros a b Hab. apply Qplus_le_r. now apply Qmult_le_compat_r.
Qed.

(** A sequence [f i, f (i+1), ...] with [f] monotone on indexes. *)
Lemma StronglySorted_map_seq (f : nat -> Q) (i n : nat) :
  (forall a b, (a <= b)%nat -> f a <= f b) ->
  StronglySorted Qle (map f (seq i n)).
Proof.
  intros Hf. revert i. induction n as [|n IH]; intros i; simpl; constructor; auto.
  apply List.Forall_forall. intros y Hy.
  apply List.in_map_iff in Hy as (b & <- & Hb).
  apply List.in_seq in Hb. apply Hf. lia.
Qed.

Lemma linspace_length a b n : length (linspace a b n) = n.
Proof.
  destruct n as [|[|n]]; simpl; try reflexivity.
  now rewrite length_map, length_seq.
Qed.

(** [np.linspace(a, b, n)] is non-decreasing when [a <= b]. *)
Lemma linspace_sorted a b n : a <= b -> StronglySorted Qle (linspace a b n).
Proof.
  intros Hab. destruct n as [|[|n]].
  - constructor.
  - repeat constructor.
  - unfold linspace. apply StronglySorted_map_seq.
    intros i j Hij. apply Qplus_le_r. apply Qmult_le_compat_r.
    + rewrite <- Zle_Qle. lia.
    + apply Qle_shift_div_l.
      * change 0 with (inject_Z 0). rewrite <- Zlt_Qlt. lia.
      * rewrite Qmult_0_l. now apply Qle_minus_iff in Hab.
Qed.

Lemma duration_nonneg (p : SweepParams) : 0 < speed_nm_s p -> 0 <= duration p.
Proof.
  intros Hs. unfold duration.
  assert (0 <= Qabs (end_nm p - start_nm p) / speed_nm_s p).
  { apply Qle_shift_div_l; auto. rewrite Qmult_0_l. apply Qabs_nonneg. }
  apply Qle_trans with (0 + 0); [now rewrite Qplus_0_l|].
  apply Qplus_le_compat; auto. discriminate.
Qed.


End MappingFacts.

Section SweepMapping.
Import Numpy Mapping.

(** C1.  For a valid sweep ([end > start], [speed > 0]) and any captured
    block (a time axis with one signal sample per instant), the
    processing step of [run] maps each sample time [t] to the
    wavelength [start + t * speed] and returns exactly the samples
    (wavelength, amplitude) whose wavelength lies in [[start, end]], in
    their order of capture: the others are dropped and no wavelength is
    clamped.  Every emitted wavelength lies within [[start, end]], and
    the emitted wavelengths are non-decreasing whenever the time axis
    is, as is the axis [np.linspace(0, duration, n)] that both scope
    drivers return. *)
Theorem sweep_wavelengths_clipped_sorted (p : SweepParams) (data : Capture) :
  start_nm p < end_nm p ->
  0 < speed_nm_s p ->
  length (cap_B data) = length (cap_t data) ->
  let w := map (fun t => start_nm p + t * speed_nm_s p) (cap_t data) in
  let keep := fun x => Qle_bool (start_nm p) x && Qle_bool x (end_nm p) in
  let kept := List.filter (fun ws => keep ws.1) (combine w (cap_B data)) in
  process_data p data = Ok (map fst kept, map snd kept) /\
  map fst kept = List.filter keep w /\
  Forall (fun x => start_nm p <= x /\ x <= end_nm p) (map fst kept) /\
  (StronglySorted Qle (cap_t data) -> StronglySorted Qle (map fst kept)) /\
  (forall n, cap_t data = linspace 0 (duration p) n ->
     StronglySorted Qle (map fst kept)).
Proof.
  intros Hrange Hspeed Hlen w keep kept.
  assert (Hs : 0 <= speed_nm_s p) by now apply Qlt_le_weak.
  assert (Heq : wavelengths (start_nm p) (speed_nm_s p) (cap_t data) = w).
  { unfold wavelengths, add_scalar, mul_scalar. now rewrite List.map_map. }
  assert (Hw : length (cap_B data) = length w).
  { unfold w. now rewrite length_map. }
  destruct (select_mask_samples keep w (cap_B data) Hw) as [Hfst Hsnd].
  fold kept in Hfst, Hsnd.
  assert (Hkept : map fst kept = List.filter keep w).
  { rewrite <- Hfst. apply select_mask_filter. }
  assert (Hsorted : StronglySorted Qle (cap_t data) ->
                    StronglySorted Qle (map fst kept)).
  { intros Hts. rewrite Hkept. apply StronglySorted_filter_keep.
    rewrite <- Heq. now apply wavelengths_sorted. }
  split; [|split; [|split; [|split]]].
  - unfold process_data, clip_mask, between_mask. rewrite Heq.
    change (map (fun x => Qle_bool (start_nm p) x && Qle_bool x (end_nm p)) w)
      with (map keep w).
    unfold bool_index. rewrite length_map, Nat.eqb_refl. cbn [mbind result_bind].
    rewrite Hw, Nat.eqb_refl. cbn [mbind result_bind].
    now rewrite Hfst, Hsnd.
  - exact Hkept.
  - rewrite Hkept. apply (filter_in_range_bounded (start_nm p) (end_nm p)).
  - exact Hsorted.
  - intros n Hn. apply Hsorted. rewrite Hn.
    apply linspace_sorted. now apply duration_nonneg.
Qed.

Lemma sweep_wavelengths_clipped_sorted_witness :
  process_data sweep_1550 pre_trigger_block
    = Ok ([1550 + 0 * 1; 1550 + (1 # 2) * 1; 1550 + 1 * 1], [2; 3; 4]) /\
  Forall (fun x => 1550 <= x /\ x <= 1551)
    [1550 + 0 * 1; 1550 + (1 # 2) * 1; 1550 + 1 * 1] /\
  StronglySorted Qle [1550 + 0 * 1; 1550 + (1 # 2) * 1; 1550 + 1 * 1].
Proof.
  destruct (sweep_wavelengths_clipped_sorted sweep_1550 pre_trigger_block)
    as (Hrun & _ & Hin & Hsorted & _); try reflexivity.
  split; [exact Hrun|]. split; [exact Hin|].
  apply Hsorted. repeat constructor; discriminate.
Defined.

(** Three samples at 1550, 1550.75 and 1551.5 nm: the last one is
    dropped, not clamped to 1551. *)
Example sweep_1550_drops_out_of_range :
  process_data sweep_1550
    {| cap_t := linspace 0 (duration sweep_1550) 3;
       cap_A := [0; 0; 0]; cap_B := [1; 2; 3] |}
  = Ok ([6200 # 4; 6203 # 4], [1; 2]).
Proof. reflexivity. Qed.

End SweepMapping.

(** ** The wait loop of capture_block (drivers/scope.py) *)

Section CaptureBlock.
Import Numpy Mapping Scope.

Lemma wait_ready_never (dev : Device) :
  (forall k, is_ready dev k = false) ->
  forall fuel k, wait_ready dev fuel k = None.
Proof.
  intros Hnever. induction fuel as [|fuel IH]; intros k; simpl; [reflexivity|].
  now rewrite Hnever.
Qed.

Lemma wait_ready_first (dev : Device) (k : nat) :
  first_ready dev k ->
  forall fuel k0, (k0 <= k)%nat -> (k - k0 < fuel)%nat ->
  wait_ready dev fuel k0 = Some (S k).
Proof.
  intros [Hk Hbefore]. induction fuel as [|fuel IH]; intros k0 Hle Hfuel; [lia|].
  simpl. destruct (Nat.eq_dec k0 k) as [->|Hne].
  - now rewrite Hk.
  - rewrite Hbefore by lia. apply IH; lia.
Qed.

(** If the loop leaves at all, the device reported ready at the last
    poll. *)
Lemma wait_ready_sound (dev : Device) :
  forall fuel k n, wait_ready dev fuel k = Some n ->
  exists j, n = S j /\ (k <= j)%nat /\ is_ready dev j = true.
Proof.
  induction fuel as [|fuel IH]; intros k n H; simpl in H; [discriminate|].
  destruct (is_ready dev k) eqn:E.
  - injection H as <-. exists k. auto.
  - apply IH in H as (j & -> & Hj & Hr). exists j. repeat split; auto. lia.
Qed.

Lemma capture_block_never_ready (drv : Driver) (dev : Device) :
  connected drv = true ->
  (forall k, is_ready dev k = false) ->
  forall fuel duration_s sample_rate,
    capture_block drv dev fuel duration_s sample_rate = None.
Proof.
  intros Hc Hnever fuel d r. unfold capture_block. rewrite Hc.
  cbn [negb]. now rewrite wait_ready_never.
Qed.

(** C2 fails on the code: connected to a digitizer whose trigger never
    arrives, [capture_block(1.5, 100000)] never returns, whatever number
    of polls is allowed: no value, and no timeout error either. *)
Lemma capture_block_no_timeout :
  ~ exists fuel r,
      capture_block open_driver never_triggered fuel (3 # 2) 100000 = Some r.
Proof.
  intros (fuel & r & H).
  rewrite capture_block_never_ready in H by reflexivity. discriminate.
Qed.

(** C2, amended.  On a connected driver [capture_block] has no timeout
    of its own: it polls the digitizer every 10 ms and returns right
    after the first poll that reports ready (having slept 10 ms per
    poll), with the captured block or the [ValueError] of a negative
    sample count; if the digitizer never reports ready it never
    returns, and it raises nothing. *)
Theorem capture_block_returns_when_ready
    (drv : Driver) (dev : Device) (duration_s sample_rate : Q) :
  connected drv = true ->
  (forall k, first_ready dev k ->
     forall fuel, (k < fuel)%nat ->
     exists r, capture_block drv dev fuel duration_s sample_rate = Some r /\
               polls r = S k /\
               blocked_for r == inject_Z (Z.of_nat (S k)) * (1 # 100) /\
               streaming (driver_after r) = false /\
               ((0 <= py_int (duration_s * sample_rate))%Z ->
                exists ns, Z.of_nat ns = py_int (duration_s * sample_rate) /\
                  outcome r = Ok {| cap_t := linspace 0 duration_s ns;
                                    cap_A := volts_A dev ns;
                                    cap_B := volts_B dev ns |})) /\
  ((forall k, is_ready dev k = false) ->
     forall fuel, capture_block drv dev fuel duration_s sample_rate = None) /\
  (forall fuel r, capture_block drv dev fuel duration_s sample_rate = Some r ->
     exists j, polls r = S j /\ is_ready dev j = true).
Proof.
  intros Hc. split; [|split].
  - intros k Hk fuel Hfuel. unfold capture_block. rewrite Hc. simpl.
    rewrite (wait_ready_first dev k Hk) by lia.
    assert (Hstr : streaming (if streaming drv then stop_streaming drv else drv)
                   = false).
    { unfold stop_streaming. destruct (streaming drv) eqn:E; simpl; auto. }
    destruct (py_int (duration_s * sample_rate) <? 0)%Z eqn:E.
    + eexists. split; [reflexivity|]. cbn [polls driver_after outcome].
      split; [reflexivity|]. split; [reflexivity|]. split; [exact Hstr|].
      intros Hpos. lia.
    + eexists. split; [reflexivity|]. cbn [polls driver_after outcome].
      split; [reflexivity|]. split; [reflexivity|]. split; [exact Hstr|].
      intros _. exists (Z.to_nat (py_int (duration_s * sample_rate))).
      split; [lia | reflexivity].
  - intros Hnever fuel. now apply capture_block_never_ready.
  - intros fuel r H. unfold capture_block in H. rewrite Hc in H. simpl in H.
    destruct (wait_ready dev fuel 0) as [n|] eqn:E; [|discriminate].
    apply wait_ready_sound in E as (j & -> & _ & Hj).
    exists j. destruct (py_int (duration_s * sample_rate) <? 0)%Z;
      injection H as <-; auto.
Qed.

Lemma capture_block_returns_when_ready_witness :
  exists r,
    capture_block open_driver ready_at_third_poll 3 (3 # 2) 4 = Some r /\
    polls r = 3%nat /\
    outcome r = Ok {| cap_t := linspace 0 (3 # 2) 6;
                      cap_A := replicate 6 0;
                      cap_B := replicate 6 1 |}.
Proof.
  destruct (capture_block_returns_when_ready open_driver ready_at_third_poll
              (3 # 2) 4 eq_refl) as (Hret & _ & _).
  destruct (Hret 2%nat) with (fuel := 3%nat) as (r & Hr & Hp & _ & _ & Hout).
  - split; [reflexivity|]. intros [|[|j]] Hj; try reflexivity; lia.
  - lia.
  - exists r. split; [exact Hr|]. split; [exact Hp|].
    destruct Hout as (ns & Hns & ->); [vm_compute; discriminate|].
    change (py_int ((3 # 2) * 4)) with 6%Z in Hns.
    assert (ns = 6%nat) as -> by lia.
    reflexivity.
Defined.

End CaptureBlock.

(** ** The rolling buffers (gui/widgets/live_plot.py) *)

Section RingBuffer.
Import Numpy LivePlot.

(** Rolling left by [n] moves the [n] oldest entries behind the rest. *)
Lemma roll_left {A} (a : list A) (n : nat) :
  (0 < n)%nat -> (n <= length a)%nat ->
  roll a (- Z.of_nat n) = drop n a ++ take n a.
Proof.
  intros Hpos Hle. unfold roll.
  destruct (length a) as [|m] eqn:Hlen; [lia|].
  set (N := S m) in *.
  assert (Hoff : Z.to_nat (- Z.of_nat n mod Z.of_nat N) = (N - n)%nat).
  { replace (- Z.of_nat n)%Z with (Z.of_nat (N - n) + (-1) * Z.of_nat N)%Z by lia.
    rewrite Z_mod_plus_full.
    destruct (Nat.eq_dec n N) as [->|Hne].
    - rewrite Nat.sub_diag. reflexivity.
    - rewrite Z.mod_small by lia. lia. }
  rewrite Hoff. replace (N - (N - n))%nat with n by lia. reflexivity.
Qed.

Lemma assign_tail_exact (a v : list Q) (n : nat) :
  length v = n -> (n <= length a)%nat ->
  assign_tail a n v = Ok (take (length a - n) a ++ v).
Proof.
  intros Hv Hle. unfold assign_tail.
  replace (length a - (length a - n))%nat with n by lia.
  now rewrite Hv, Nat.eqb_refl.
Qed.

(** Roll then overwrite the tail: the [n] oldest entries are gone and
    the chunk sits at the end. *)
Lemma roll_then_assign (a v : list Q) :
  (0 < length v)%nat -> (length v <= length a)%nat ->
  assign_tail (roll a (- Z.of_nat (length v))) (length v) v
    = Ok (drop (length v) a ++ v).
Proof.
  intros Hpos Hle. rewrite roll_left by assumption.
  rewrite assign_tail_exact;
    [| reflexivity | rewrite length_app, length_drop, length_take; lia].
  rewrite length_app, length_drop, length_take.
  replace (length a - length v + length v `min` length a - length v)%nat
    with (length (drop (length v) a)) by (rewrite length_drop; lia).
  now rewrite take_app_length.
Qed.

(** C3.  While streaming, a chunk longer than the buffer capacity
    leaves both channel buffers all-zero (and of unchanged length),
    whatever they held before: a full reset, no partial merge. *)
Theorem lag_chunk_resets_buffers (self : Widget) (new_a new_b : list Q) :
  is_streaming self = true ->
  (roll_buffer_size self < length new_a)%nat ->
  let r := update_plot self (Some (new_a, new_b)) in
  r.2 = None /\
  data_buffer_a r.1 = replicate (length (data_buffer_a self)) 0 /\
  data_buffer_b r.1 = replicate (length (data_buffer_b self)) 0 /\
  Forall (fun v => v = 0) (data_buffer_a r.1) /\
  Forall (fun v => v = 0) (data_buffer_b r.1) /\
  roll_buffer_size r.1 = roll_buffer_size self.
Proof.
  intros Hs Hlag r. unfold r, update_plot. rewrite Hs. cbn [negb].
  assert (H0 : (0 <? length new_a)%nat = true) by (apply Nat.ltb_lt; lia).
  assert (H1 : (roll_buffer_size self <? length new_a)%nat = true)
    by now apply Nat.ltb_lt.
  rewrite H0, H1. cbn [fst snd set_buffers data_buffer_a data_buffer_b
                       roll_buffer_size]. unfold fill.
  repeat split; auto using Forall_replicate_eq.
  all: apply Forall_replicate; reflexivity.
Qed.

Lemma lag_chunk_resets_buffers_witness :
  let r := update_plot small_widget (Some ([7; 8; 9; 10], [1; 1; 1; 1])) in
  r.2 = None /\
  data_buffer_a r.1 = replicate 3 0 /\
  data_buffer_b r.1 = replicate 3 0 /\
  Forall (fun v => v = 0) (data_buffer_a r.1) /\
  Forall (fun v => v = 0) (data_buffer_b r.1) /\
  roll_buffer_size r.1 = 3%nat.
Proof.
  apply (lag_chunk_resets_buffers small_widget [7; 8; 9; 10] [1; 1; 1; 1]);
    [reflexivity | simpl; lia].
Defined.

(** C4.  While streaming, a non-empty chunk of [n <= N] samples per
    channel, fed to buffers of capacity [N], leaves each buffer with
    exactly [N] entries: the old contents shifted left by [n] (the [n]
    oldest samples discarded) followed by the chunk in arrival order. *)
Theorem chunk_rolls_fifo (self : Widget) (new_a new_b : list Q) :
  is_streaming self = true ->
  wf self ->
  (0 < length new_a)%nat ->
  (length new_a <= roll_buffer_size self)%nat ->
  length new_b = length new_a ->
  let n := length new_a in
  let N := roll_buffer_size self in
  let r := update_plot self (Some (new_a, new_b)) in
  r.2 = None /\
  data_buffer_a r.1 = drop n (data_buffer_a self) ++ new_a /\
  data_buffer_b r.1 = drop n (data_buffer_b self) ++ new_b /\
  length (data_buffer_a r.1) = N /\
  length (data_buffer_b r.1) = N /\
  roll_buffer_size r.1 = N /\
  (forall i, (i < N - n)%nat ->
     data_buffer_a r.1 !! i = data_buffer_a self !! (n + i)%nat /\
     data_buffer_b r.1 !! i = data_buffer_b self !! (n + i)%nat) /\
  (forall j, (j < n)%nat ->
     data_buffer_a r.1 !! (N - n + j)%nat = new_a !! j /\
     data_buffer_b r.1 !! (N - n + j)%nat = new_b !! j).
Proof.
  intros Hs [Ha Hb] Hpos Hle Hlen n N r.
  assert (Hr : r = (set_buffers self (drop n (data_buffer_a self) ++ new_a)
                                     (drop n (data_buffer_b self) ++ new_b), None)).
  { unfold r, update_plot. rewrite Hs. cbn [negb].
    assert (H0 : (0 <? length new_a)%nat = true) by now apply Nat.ltb_lt.
    assert (H1 : (roll_buffer_size self <? length new_a)%nat = false)
      by (apply Nat.ltb_ge; lia).
    rewrite H0, H1.
    rewrite roll_then_assign by (rewrite ?Ha; assumption).
    rewrite <- Hlen at 1 2.
    rewrite roll_then_assign by (rewrite ?Hb, ?Hlen; assumption).
    rewrite Hlen. reflexivity. }
  rewrite Hr. cbn [fst snd set_buffers data_buffer_a data_buffer_b
                   roll_buffer_size].
  assert (Hda : length (drop n (data_buffer_a self)) = (N - n)%nat)
    by (rewrite length_drop, Ha; reflexivity).
  assert (Hdb : length (drop n (data_buffer_b self)) = (N - n)%nat)
    by (rewrite length_drop, Hb; reflexivity).
  repeat split.
  - rewrite length_app, Hda. unfold n, N in *. lia.
  - rewrite length_app, Hdb, Hlen. unfold n, N in *. lia.
  - rewrite lookup_app_l by lia. apply lookup_drop.
  - rewrite lookup_app_l by lia. apply lookup_drop.
  - rewrite lookup_app_r by lia. f_equal. lia.
  - rewrite lookup_app_r by lia. f_equal. lia.
Qed.

Lemma chunk_rolls_fifo_witness :
  let r := update_plot small_widget (Some ([7; 8], [9; 10])) in
  r.2 = None /\
  data_buffer_a r.1 = [3; 7; 8] /\
  data_buffer_b r.1 = [6; 9; 10] /\
  length (data_buffer_a r.1) = 3%nat /\
  length (data_buffer_b r.1) = 3%nat.
Proof.
  destruct (chunk_rolls_fifo small_widget [7; 8] [9; 10])
    as (H1 & H2 & H3 & H4 & H5 & _);
    [reflexivity | split; reflexivity | simpl; lia | simpl; lia | reflexivity |].
  repeat split; assumption.
Defined.

(** The invariant of the widget: [__init__] establishes it and every
    tick with equally long channels keeps it. *)
Lemma init_wf : wf init.
Proof. split; apply length_replicate. Qed.

End RingBuffer.

(** ** Two-phase persistence (utils/data_manager.py) *)

Section Persistence.
Import DataManager.

Lemma os_path_exists_true (fs : FS) (path : string) (df : DataFrame) :
  files fs !! path = Some df -> os_path_exists fs path = true.
Proof.
  intros H. unfold os_path_exists. apply bool_decide_eq_true. now exists df.
Qed.

Lemma os_path_exists_false (fs : FS) (path : string) :
  files fs !! path = None -> os_path_exists fs path = false.
Proof.
  intros H. unfold os_path_exists. apply bool_decide_eq_false.
  rewrite H. now intros [? ?].
Qed.

Lemma discard_autosave_removes (fs : FS) (path : string) :
  files (discard_autosave fs path) !! path = None.
Proof.
  unfold discard_autosave, os_remove.
  destruct (files fs !! path) as [df|] eqn:E.
  - rewrite (os_path_exists_true _ _ _ E). simpl. apply lookup_delete_eq.
  - now rewrite (os_path_exists_false _ _ E).
Qed.

Lemma move_autosave_missing (ts : string) (fs : FS) (src dir prefix : string) :
  files fs !! src = None ->
  move_autosave ts fs src dir prefix =
    (Raise (FileNotFoundError "Original autosave file missing"), fs).
Proof.
  intros H. unfold move_autosave. now rewrite (os_path_exists_false _ _ H).
Qed.

(** C5.  [move_autosave] writes the frame held by the staged file to
    [target_dir/prefix_timestamp.csv] and removes the staged file only
    after that write has succeeded, so the staged file is gone after a
    successful commit; when the write fails the staged file is left in
    place; committing a path that does not exist, for instance after
    [discard_autosave], raises
    [FileNotFoundError("Original autosave file missing")] and changes
    nothing. *)
Theorem move_autosave_commits (ts : string) (fs : FS) (src dir prefix : string) :
  (forall df, files fs !! src = Some df ->
     let tgt := path_join dir (prefix +:+ "_" +:+ ts +:+ ".csv") in
     (writable fs tgt = true ->
        exists fs',
          move_autosave ts fs src dir prefix = (Ok tgt, fs') /\
          files fs' = delete src (<[tgt := df]> (files fs)) /\
          files fs' !! src = None /\
          (tgt <> src -> files fs' !! tgt = Some df)) /\
     (writable fs tgt = false ->
        exists e,
          move_autosave ts fs src dir prefix = (Raise e, fs) /\
          e <> FileNotFoundError "Original autosave file missing" /\
          files fs !! src = Some df)) /\
  (files fs !! src = None ->
     move_autosave ts fs src dir prefix =
       (Raise (FileNotFoundError "Original autosave file missing"), fs)) /\
  move_autosave ts (discard_autosave fs src) src dir prefix =
    (Raise (FileNotFoundError "Original autosave file missing"),
     discard_autosave fs src).
Proof.
  split; [|split].
  - intros df Hsrc tgt. split; intros Hw.
    + eexists. unfold move_autosave, read_csv, to_csv.
      rewrite (os_path_exists_true _ _ _ Hsrc), Hsrc. cbn [negb].
      fold tgt. rewrite Hw. unfold os_remove. cbn [files with_files].
      destruct (<[tgt:=df]> (files fs) !! src) as [df'|] eqn:E.
      * split; [reflexivity|]. cbn [files with_files].
        split; [reflexivity|]. split; [apply lookup_delete_eq|].
        intros Hne. rewrite lookup_delete_ne by congruence.
        apply lookup_insert_eq.
      * exfalso. destruct (decide (tgt = src)) as [->|Hne].
        -- rewrite lookup_insert_eq in E. discriminate.
        -- rewrite lookup_insert_ne in E by assumption. congruence.
    + eexists. unfold move_autosave, read_csv, to_csv.
      rewrite (os_path_exists_true _ _ _ Hsrc), Hsrc. cbn [negb].
      fold tgt. rewrite Hw.
      split; [reflexivity|]. split; [discriminate | reflexivity].
  - apply move_autosave_missing.
  - apply move_autosave_missing, discard_autosave_removes.
Qed.

Lemma move_autosave_commits_witness :
  exists fs',
    move_autosave "20240101_120500" staged_fs
      "/lab/data/autosaves/sweep_autosave_20240101_120000.csv" "/home/user" "scan"
    = (Ok "/home/user/scan_20240101_120500.csv", fs') /\
    files fs' !! "/lab/data/autosaves/sweep_autosave_20240101_120000.csv" = None /\
    files fs' !! "/home/user/scan_20240101_120500.csv" = Some staged_frame.
Proof.
  destruct (move_autosave_commits "20240101_120500" staged_fs
              "/lab/data/autosaves/sweep_autosave_20240101_120000.csv"
              "/home/user" "scan") as (Hok & _ & _).
  destruct (Hok staged_frame) as [Hw _]; [apply lookup_singleton_eq|].
  destruct Hw as (fs' & Hmv & _ & Hgone & Htgt); [reflexivity|].
  exists fs'. split; [exact Hmv|]. split; [exact Hgone|].
  apply Htgt. discriminate.
Defined.

End Persistence.

Section Autosave.
Import DataManager.

Lemma path_join_absolute (a b : string) :
  starts_with_slash a = true -> starts_with_slash b = false ->
  starts_with_slash (path_join a b) = true.
Proof.
  intros Ha Hb. unfold path_join. rewrite Hb.
  destruct a as [|ch a]; [discriminate|].
  destruct ((String.length (String ch a) =? 0)%nat || ends_with_slash (String ch a));
    exact Ha.
Qed.

Lemma autosave_path_absolute (cwd ts : string) :
  starts_with_slash cwd = true -> starts_with_slash (autosave_path cwd ts) = true.
Proof.
  intros H. unfold autosave_path, AUTOSAVE_DIR.
  repeat apply path_join_absolute; auto.
Qed.

(** C10 fails on the code: the frame is built before the [try] block,
    so arrays of different lengths make [autosave_sweep] raise the
    [ValueError] of [pd.DataFrame] instead of returning a path or [""]. *)
Lemma autosave_sweep_propagates_value_error :
  autosave_sweep "/lab" "20240101_120000" open_fs [1550] [1 # 2; 1 # 4]
  = (Raise (ValueError "All arrays must be of the same length"), open_fs).
Proof. reflexivity. Qed.

(** C10, amended.  For two arrays of the same length, when the autosave
    directory exists or can be created, [autosave_sweep] raises nothing:
    if the write succeeds it returns the path
    [<cwd>/data/autosaves/sweep_autosave_<timestamp>.csv] (absolute when
    the working directory is) of the file that now holds the two
    columns, and if the write fails it returns [""] and leaves the file
    system as it was. *)
Theorem autosave_sweep_returns_path_or_empty
    (cwd ts : string) (fs : FS) (wavelengths signal : list Q) :
  length wavelengths = length signal ->
  can_mkdir fs (AUTOSAVE_DIR cwd) = true ->
  let filepath := autosave_path cwd ts in
  let df := [("Wavelength_nm", wavelengths); ("Amplitude_V", signal)] in
  (writable fs filepath = true ->
     exists fs',
       autosave_sweep cwd ts fs wavelengths signal = (Ok filepath, fs') /\
       files fs' = <[filepath := df]> (files fs) /\
       files fs' !! filepath = Some df /\
       (starts_with_slash cwd = true -> starts_with_slash filepath = true)) /\
  (writable fs filepath = false ->
     autosave_sweep cwd ts fs wavelengths signal = (Ok "", fs)) /\
  (forall e fs', autosave_sweep cwd ts fs wavelengths signal <> (Raise e, fs')).
Proof.
  intros Hlen Hdir filepath df.
  assert (Hframe : make_frame wavelengths signal = Ok df).
  { unfold make_frame. now rewrite Hlen, Nat.eqb_refl. }
  unfold autosave_sweep, ensure_autosave_dir. rewrite Hdir, Hframe.
  fold (autosave_path cwd ts). fold filepath. unfold to_csv.
  split; [|split].
  - intros Hw. rewrite Hw. eexists. split; [reflexivity|].
    cbn [files with_files]. split; [reflexivity|].
    split; [apply lookup_insert_eq | apply autosave_path_absolute].
  - intros Hw. now rewrite Hw.
  - intros e fs'. destruct (writable fs filepath); discriminate.
Qed.

Lemma autosave_sweep_returns_path_or_empty_witness :
  exists fs',
    autosave_sweep "/lab" "20240101_120000" open_fs [1550; 1551] [1 # 2; 1 # 4]
    = (Ok "/lab/data/autosaves/sweep_autosave_20240101_120000.csv", fs') /\
    files fs' !! "/lab/data/autosaves/sweep_autosave_20240101_120000.csv"
    = Some [("Wavelength_nm", [1550; 1551]); ("Amplitude_V", [1 # 2; 1 # 4])].
Proof.
  destruct (autosave_sweep_returns_path_or_empty "/lab" "20240101_120000"
              open_fs [1550; 1551] [1 # 2; 1 # 4] eq_refl eq_refl)
    as (Hok & _ & _).
  destruct Hok as (fs' & Hrun & _ & Hfile & _); [reflexivity|].
  exists fs'. split; [exact Hrun | exact Hfile].
Defined.

(** The other exception raised before the [try] block: a directory
    that cannot be created. *)
Lemma autosave_sweep_propagates_mkdir_error
    (cwd ts : string) (fs : FS) (wavelengths signal : list Q) :
  can_mkdir fs (AUTOSAVE_DIR cwd) = false ->
  autosave_sweep cwd ts fs wavelengths signal
  = (Raise (OSError "cannot create directory"), fs).
Proof.
  intros H. unfold autosave_sweep, ensure_autosave_dir. now rewrite H.
Qed.

End Autosave.

(** ** The order of effects in SweepWorker.run (core/engine.py) *)

Section RunOrder.
Import Numpy Mapping DataManager Engine.

(** Case analysis on every call of [run] that can raise. *)
Ltac run_cases :=
  unfold events, run, run_body;
  unfold mbind, M_bind, mret, M_ret, emit, laser, raise, capture_block,
         masked, autosave, log;
  cbn [trace fs];
  repeat match goal with
  | |- context [laser_raises ?e ?c] =>
      destruct (laser_raises e c) eqn:?; cbn [trace fs fst snd app]
  | |- context [Qeq_bool ?a ?b] =>
      destruct (Qeq_bool a b) eqn:?; cbn [trace fs fst snd app]
  | |- context [scope_capture ?e ?a ?b] =>
      destruct (scope_capture e a b) eqn:?; cbn [trace fs fst snd app]
  | |- context [bool_index ?a ?b] =>
      destruct (bool_index a b) eqn:?; cbn [trace fs fst snd app]
  | |- context [autosave_sweep ?a ?b ?c ?d ?e] =>
      destruct (autosave_sweep a b c d e) as [[?|?] ?] eqn:?;
      cbn [trace fs fst snd app]
  end;
  cbn [map ev].

(** Whenever [run] emits [data_ready] or [finished_safe], the autosave
    call has returned just before [data_ready], [finished_safe] follows
    with the value it returned, and nothing was notified earlier. *)
Lemma run_notification_inv (env : Env) (p : SweepParams) (fs0 : FS) :
  Exists (fun e => is_notification e = true) (events (run env p fs0)) ->
  exists wl sg pre fs1 path,
    trace (run env p fs0) =
      pre ++ [ {| ev := AutosaveSweep wl sg; fs_then := fs1 |};
               {| ev := DataReady wl sg; fs_then := fs1 |};
               {| ev := FinishedSafe path; fs_then := fs1 |} ] /\
    Forall (fun o => is_notification (ev o) = false /\ fs_then o = fs0) pre /\
    autosave_returned env fs0 wl sg path fs1.
Proof.
  run_cases.
  all: try (intros H; apply List.Exists_exists in H as (e' & Hin & Hn);
            simpl in Hin;
            repeat match type of Hin with
                   | _ \/ _ => destruct Hin as [Hin|Hin]
                   | False => destruct Hin
                   | _ = _ => subst e'; discriminate
                   end; fail).
  all: intros _;
    match goal with
    | Hsave : autosave_sweep _ _ _ ?wl ?sg = (Ok ?path, ?f)
      |- exists wl' sg' pre fs1 path', ?l = _ /\ _ =>
        exists wl, sg, (take 14 l), f, path; split; [reflexivity|];
        split; [|exact Hsave]
    end;
    cbn [take]; repeat constructor.
Qed.

(** What a returned autosave call has done. *)
Lemma autosave_sweep_ok_inv (cwd ts : string) (fs fs1 : FS)
    (wl sg : list Q) (path : string) :
  autosave_sweep cwd ts fs wl sg = (Ok path, fs1) ->
  let filepath := autosave_path cwd ts in
  (writable fs filepath = true /\ path = filepath /\
   fs1 = with_files fs (<[filepath := [("Wavelength_nm", wl); ("Amplitude_V", sg)]]>
                          (files fs))) \/
  (writable fs filepath = false /\ path = "" /\ fs1 = fs).
Proof.
  unfold autosave_sweep, ensure_autosave_dir, make_frame, to_csv.
  fold (autosave_path cwd ts).
  destruct (can_mkdir fs (AUTOSAVE_DIR cwd)); [|discriminate].
  destruct (length wl =? length sg)%nat; [|discriminate].
  destruct (writable fs (autosave_path cwd ts)) eqn:Hw; intros H;
    injection H as <- <-; [left | right]; auto.
Qed.

(** C8 fails on the code: with a staging area that cannot be written,
    the write of the autosave raises and [autosave_sweep] returns [""];
    the sweep completes all the same, and both [data_ready] and
    [finished_safe] (with the empty path) are emitted although no file
    holds the series at any moment of the run. *)
Lemma run_notifies_after_failed_autosave :
  events (run bench sweep_1550 full_disk) =
    [StatusUpdate "Configuring Laser..."; LaserCall (SetPower 0);
     LaserCall (SetSweepParams 1550 1551 1);
     StatusUpdate "Arming Trigger..."; LaserCall TurnOn;
     Sleep (1 # 2); StatusUpdate "Acquiring..."; TriggerThreadStart;
     CaptureBlock (3 # 2) 100000; TriggerThreadJoin;
     LaserCall StopSweep; LaserCall TurnOff; StatusUpdate "Processing...";
     StatusUpdate "Saving..."; AutosaveSweep [6200 # 4; 6203 # 4] [1; 2];
     DataReady [6200 # 4; 6203 # 4] [1; 2]; FinishedSafe ""] /\
  (exists e,
     to_csv full_disk (autosave_path "/lab" "20240101_120000")
       (sweep_frame [6200 # 4; 6203 # 4] [1; 2]) = Raise e) /\
  Forall (fun o => forall path,
            files (fs_then o) !! path
            <> Some (sweep_frame [6200 # 4; 6203 # 4] [1; 2]))
    (trace (run bench sweep_1550 full_disk)).
Proof.
  split; [reflexivity|]. split; [eexists; reflexivity|].
  assert (Hempty : Forall (fun o => files (fs_then o) = ∅)
                     (trace (run bench sweep_1550 full_disk)))
    by repeat constructor.
  rewrite List.Forall_forall in Hempty.
  apply List.Forall_forall. intros o Hin path.
  rewrite (Hempty o Hin), lookup_empty. discriminate.
Qed.

(** C8, amended.  Whenever [run] notifies its consumers ([data_ready]
    or [finished_safe]), the blocking call of [autosave_sweep] on the
    mapped series has returned immediately before [data_ready], which
    is immediately followed by [finished_safe], and nothing was
    notified earlier.  If the staging file
    [<cwd>/data/autosaves/sweep_autosave_<timestamp>.csv] could be
    written, it holds the two columns of the series at both
    notifications and [finished_safe] carries its path; if it could not,
    the notifications are emitted all the same and [finished_safe]
    carries [""]. *)
Theorem run_autosaves_before_notifying
    (env : Env) (p : SweepParams) (fs0 : FS) :
  Exists (fun e => is_notification e = true) (events (run env p fs0)) ->
  let filepath := autosave_path (cwd env) (timestamp env) in
  exists wl sg pre fs1 path,
    trace (run env p fs0) =
      pre ++ [ {| ev := AutosaveSweep wl sg; fs_then := fs1 |};
               {| ev := DataReady wl sg; fs_then := fs1 |};
               {| ev := FinishedSafe path; fs_then := fs1 |} ] /\
    Forall (fun o => is_notification (ev o) = false /\ fs_then o = fs0) pre /\
    (writable fs0 filepath = true ->
       path = filepath /\
       files fs1 !! filepath =
         Some [("Wavelength_nm", wl); ("Amplitude_V", sg)]) /\
    (writable fs0 filepath = false -> path = "").
Proof.
  intros H filepath.
  destruct (run_notification_inv env p fs0 H)
    as (wl & sg & pre & fs1 & path & Htrace & Hpre & Hsave).
  exists wl, sg, pre, fs1, path. split; [exact Htrace|]. split; [exact Hpre|].
  apply autosave_sweep_ok_inv in Hsave. fold filepath in Hsave.
  destruct Hsave as [(Hw & -> & ->) | (Hw & -> & ->)]; split; intros Hw';
    try congruence.
  split; [reflexivity|]. cbn [files with_files]. apply lookup_insert_eq.
Qed.

Lemma run_autosaves_before_notifying_witness :
  exists wl sg pre fs1 path,
    trace (run bench sweep_1550 open_fs) =
      pre ++ [ {| ev := AutosaveSweep wl sg; fs_then := fs1 |};
               {| ev := DataReady wl sg; fs_then := fs1 |};
               {| ev := FinishedSafe path; fs_then := fs1 |} ] /\
    path = "/lab/data/autosaves/sweep_autosave_20240101_120000.csv" /\
    files fs1 !! "/lab/data/autosaves/sweep_autosave_20240101_120000.csv" =
      Some [("Wavelength_nm", wl); ("Amplitude_V", sg)].
Proof.
  destruct (run_autosaves_before_notifying bench sweep_1550 open_fs)
    as (wl & sg & pre & fs1 & path & Htrace & _ & Hok & _).
  - apply List.Exists_exists. exists (FinishedSafe
      "/lab/data/autosaves/sweep_autosave_20240101_120000.csv").
    split; [|reflexivity]. vm_compute. tauto.
  - exists wl, sg, pre, fs1, path. split; [exact Htrace|].
    apply Hok. reflexivity.
Defined.

Lemma select_length_eq {A B} (a : list A) (b : list B) (mask : list bool) :
  length a = length b ->
  length (select a mask) = length (select b mask).
Proof.
  revert b mask. induction a as [|x a IH]; intros [|y b] [|m mask] H;
    simpl in *; try discriminate; try reflexivity.
  injection H as H. destruct m; simpl; auto.
Qed.

Lemma run_passes_capture_on (env : Env) (p : SweepParams) (fs0 : FS)
    (data : Capture) :
  (forall c, laser_raises env c = None) ->
  Qeq_bool (speed_nm_s p) 0 = false ->
  scope_capture env (duration p) 100000 = Ok data ->
  length (cap_B data) = length (cap_t data) ->
  can_mkdir fs0 (AUTOSAVE_DIR (cwd env)) = true ->
  exists wl sg path,
    process_data p data = Ok (wl, sg) /\
    events (run env p fs0) =
      [StatusUpdate "Configuring Laser..."; LaserCall (SetPower (power_dbm p));
       LaserCall (SetSweepParams (start_nm p) (end_nm p) (speed_nm_s p));
       StatusUpdate "Arming Trigger..."; LaserCall TurnOn;
       Sleep (1 # 2); StatusUpdate "Acquiring..."; TriggerThreadStart;
       CaptureBlock (duration p) 100000; TriggerThreadJoin;
       LaserCall StopSweep; LaserCall TurnOff; StatusUpdate "Processing...";
       StatusUpdate "Saving..."; AutosaveSweep wl sg;
       DataReady wl sg; FinishedSafe path].
Proof.
  intros Hl Hs Hcap Hlen Hdir.
  set (w := wavelengths (start_nm p) (speed_nm_s p) (cap_t data)).
  set (mask := clip_mask (start_nm p) (end_nm p) w).
  assert (Hw : bool_index w mask = Ok (select w mask)).
  { unfold bool_index, mask, clip_mask, between_mask.
    now rewrite length_map, Nat.eqb_refl. }
  assert (Hsg : bool_index (cap_B data) mask = Ok (select (cap_B data) mask)).
  { unfold bool_index, mask, clip_mask, between_mask, w, wavelengths,
      add_scalar, mul_scalar.
    now rewrite !length_map, Hlen, Nat.eqb_refl. }
  assert (Hsave : exists path fs1,
             autosave_sweep (cwd env) (timestamp env) fs0
               (select w mask) (select (cap_B data) mask) = (Ok path, fs1)).
  { unfold autosave_sweep, ensure_autosave_dir, make_frame, to_csv.
    rewrite Hdir.
    rewrite (select_length_eq w (cap_B data) mask), Nat.eqb_refl.
    - destruct (writable fs0 _); eauto.
    - unfold w, wavelengths, add_scalar, mul_scalar.
      now rewrite !length_map, Hlen. }
  destruct Hsave as (path & fs1 & Hsave).
  exists (select w mask), (select (cap_B data) mask), path. split.
  - unfold process_data. fold w. fold mask. rewrite Hw. simpl.
    now rewrite Hsg.
  - unfold duration in *.
    unfold events, run, run_body.
    unfold mbind, M_bind, mret, M_ret, emit, laser, raise, capture_block,
           masked, autosave, log.
    cbn [trace fs]. rewrite !Hl, Hs. cbn [trace fs fst snd app].
    rewrite Hcap. cbn [trace fs fst snd app]. fold w. fold mask.
    rewrite Hw, Hsg. cbn [trace fs fst snd app]. rewrite Hsave.
    reflexivity.
Qed.

(** ** The capture step: arming the digitizer and starting the sweep *)

Import Sync.

(** C9 fails on the code.  When arming takes one second the sweep-start
    command goes out at 0.5 s, before the digitizer is armed at 1 s;
    and a capture that comes back empty is autosaved and emitted like
    any other, with no error. *)
Lemma sweep_can_start_before_armed :
  sweep_started_at slow_arming = Some (0 + (1 # 2)) /\
  armed_at slow_arming = 1 /\
  armed_before_sweep slow_arming = false /\
  events (run bench_missed_trigger sweep_1550 open_fs) =
    [StatusUpdate "Configuring Laser..."; LaserCall (SetPower 0);
     LaserCall (SetSweepParams 1550 1551 1);
     StatusUpdate "Arming Trigger..."; LaserCall TurnOn;
     Sleep (1 # 2); StatusUpdate "Acquiring..."; TriggerThreadStart;
     CaptureBlock (3 # 2) 100000; TriggerThreadJoin;
     LaserCall StopSweep; LaserCall TurnOff; StatusUpdate "Processing...";
     StatusUpdate "Saving..."; AutosaveSweep [] [];
     DataReady [] [];
     FinishedSafe "/lab/data/autosaves/sweep_autosave_20240101_120000.csv"].
Proof. repeat split. Qed.

(** C9, amended.  In the capture step of [run] the trigger thread is
    started before the blocking [capture_block] call and issues the
    sweep-start command after a fixed sleep of 0.5 s, whatever the
    digitizer does: the thread only sleeps and starts the sweep, there
    is no armed acknowledgment and no arm-status poll.  So the
    digitizer is armed before the sweep starts exactly when arming
    takes less than the thread's start-up time plus 0.5 s, in
    particular whenever it takes less than 0.5 s.  When the laser calls
    succeed, whatever block [capture_block] returns (with equally long
    time and signal arrays, empty or truncated ones included) is
    mapped, autosaved and emitted through [data_ready] and
    [finished_safe]; no error is raised for a missed trigger. *)
Theorem sweep_start_relies_on_fixed_delay
    (l : Latency) (env : Env) (p : SweepParams) (fs0 : FS) (data : Capture) :
  (forall c, laser_raises env c = None) ->
  Qeq_bool (speed_nm_s p) 0 = false ->
  scope_capture env (duration p) 100000 = Ok data ->
  length (cap_B data) = length (cap_t data) ->
  can_mkdir fs0 (AUTOSAVE_DIR (cwd env)) = true ->
  sweep_started_at l = Some (thread_latency l + (1 # 2)) /\
  (armed_before_sweep l = true <-> arm_latency l < thread_latency l + (1 # 2)) /\
  (0 <= thread_latency l -> arm_latency l < 1 # 2 ->
     armed_before_sweep l = true) /\
  Forall (fun e => is_sleep e || is_start_sweep e = true) trigger_laser /\
  exists wl sg path,
    process_data p data = Ok (wl, sg) /\
    events (run env p fs0) =
      [StatusUpdate "Configuring Laser..."; LaserCall (SetPower (power_dbm p));
       LaserCall (SetSweepParams (start_nm p) (end_nm p) (speed_nm_s p));
       StatusUpdate "Arming Trigger..."; LaserCall TurnOn;
       Sleep (1 # 2); StatusUpdate "Acquiring..."; TriggerThreadStart;
       CaptureBlock (duration p) 100000; TriggerThreadJoin;
       LaserCall StopSweep; LaserCall TurnOff; StatusUpdate "Processing...";
       StatusUpdate "Saving..."; AutosaveSweep wl sg;
       DataReady wl sg; FinishedSafe path].
Proof.
  intros Hl Hs Hcap Hlen Hdir.
  assert (Hiff : armed_before_sweep l = true <->
                 arm_latency l < thread_latency l + (1 # 2)).
  { unfold armed_before_sweep, sweep_started_at, armed_at. cbn.
    rewrite negb_true_iff. split.
    - intros H. apply Qnot_le_lt. intros Hle.
      apply Qle_bool_iff in Hle. congruence.
    - intros H. destruct (Qle_bool _ _) eqn:E; [|reflexivity].
      apply Qle_bool_iff in E. exfalso. now apply (Qlt_not_le _ _ H). }
  split; [reflexivity|]. split; [exact Hiff|]. split; [|split].
  - intros H0 Harm. apply Hiff.
    apply Qlt_le_trans with (1 # 2); [exact Harm|].
    rewrite <- (Qplus_0_l (1 # 2)) at 1. apply Qplus_le_l. exact H0.
  - repeat constructor.
  - now apply run_passes_capture_on.
Qed.

Lemma sweep_start_relies_on_fixed_delay_witness :
  sweep_started_at fast_arming = Some (0 + (1 # 2)) /\
  armed_before_sweep fast_arming = true /\
  exists wl sg path,
    events (run bench sweep_1550 open_fs) =
      [StatusUpdate "Configuring Laser..."; LaserCall (SetPower 0);
       LaserCall (SetSweepParams 1550 1551 1);
       StatusUpdate "Arming Trigger..."; LaserCall TurnOn;
       Sleep (1 # 2); StatusUpdate "Acquiring..."; TriggerThreadStart;
       CaptureBlock (duration sweep_1550) 100000; TriggerThreadJoin;
       LaserCall StopSweep; LaserCall TurnOff; StatusUpdate "Processing...";
       StatusUpdate "Saving..."; AutosaveSweep wl sg;
       DataReady wl sg; FinishedSafe path].
Proof.
  destruct (sweep_start_relies_on_fixed_delay fast_arming bench sweep_1550
              open_fs
              {| cap_t := linspace 0 (duration sweep_1550) 3;
                 cap_A := [0; 0; 0]; cap_B := [1; 2; 3] |})
    as (Hstart & _ & Harmed & _ & wl & sg & path & _ & Hev);
    try reflexivity.
  split; [exact Hstart|]. split.
  - apply Harmed; [discriminate | reflexivity].
  - exists wl, sg, path. exact Hev.
Defined.

End RunOrder.

(** ** The spectral fitter (gui/widgets/sweep_plot.py, LaserConrtolOLD.py) *)

Section FitGuesses.
Import Numpy SweepPlot.

Lemma qmax_cases a b : (qmax a b = a \/ qmax a b = b) /\ a <= qmax a b /\ b <= qmax a b.
Proof.
  unfold qmax. destruct (Qle_bool a b) eqn:E.
  - apply Qle_bool_iff in E. repeat split; auto. apply Qle_refl.
  - assert (~ a <= b) by (rewrite <- Qle_bool_iff; congruence).
    repeat split; auto; [apply Qle_refl | now apply Qlt_le_weak, Qnot_le_lt].
Qed.

Lemma qmin_cases a b : (qmin a b = a \/ qmin a b = b) /\ qmin a b <= a /\ qmin a b <= b.
Proof.
  unfold qmin. destruct (Qle_bool b a) eqn:E.
  - apply Qle_bool_iff in E. repeat split; auto. apply Qle_refl.
  - assert (~ b <= a) by (rewrite <- Qle_bool_iff; congruence).
    repeat split; auto; [apply Qle_refl | now apply Qlt_le_weak, Qnot_le_lt].
Qed.

Lemma fold_qmax_spec (l : list Q) : forall x, is_max (x :: l) (fold_left qmax l x).
Proof.
  induction l as [|a l IH]; intros x; simpl.
  - split; [now left | repeat constructor; apply Qle_refl].
  - destruct (IH (qmax x a)) as [Hin Hall].
    destruct (qmax_cases x a) as (Hc & Hx & Ha).
    inversion Hall as [|? ? Hm Hl]; subst. split.
    + destruct Hin as [Hin|Hin]; [|now right; right].
      rewrite <- Hin. destruct Hc as [-> | ->]; [now left | now right; left].
    + constructor; [|constructor]; auto; eapply Qle_trans; eauto.
Qed.

Lemma fold_qmin_spec (l : list Q) : forall x, is_min (x :: l) (fold_left qmin l x).
Proof.
  induction l as [|a l IH]; intros x; simpl.
  - split; [now left | repeat constructor; apply Qle_refl].
  - destruct (IH (qmin x a)) as [Hin Hall].
    destruct (qmin_cases x a) as (Hc & Hx & Ha).
    inversion Hall as [|? ? Hm Hl]; subst. split.
    + destruct Hin as [Hin|Hin]; [|now right; right].
      rewrite <- Hin. destruct Hc as [-> | ->]; [now left | now right; left].
    + constructor; [|constructor]; auto; eapply Qle_trans; eauto.
Qed.

Lemma lookup_map {A B} (f : A -> B) (l : list A) (i : nat) :
  map f l !! i = option_map f (l !! i).
Proof.
  revert i. induction l as [|a l IH]; intros [|i]; simpl; auto.
Qed.

(** The scan of [np.argmax]: [pre] has been read, [best] at [best_i] is
    its first largest entry. *)
Lemma argmax_from_spec (a : list Q) :
  forall (pre : list Q) (best_i : nat),
    first_largest pre best_i ->
    forall best, pre !! best_i = Some best ->
    first_largest (pre ++ a) (argmax_from a (length pre) best_i best).
Proof.
  induction a as [|x a IH]; intros pre best_i Hfl best Hbest; simpl.
  - now rewrite app_nil_r.
  - destruct Hfl as (v & Hv & Hall & Hfirst).
    assert (v = best) as -> by congruence.
    replace (pre ++ x :: a) with ((pre ++ [x]) ++ a) by now rewrite <- app_assoc.
    replace (S (length pre)) with (length (pre ++ [x]))
      by (rewrite length_app; simpl; lia).
    assert (Hlt : (best_i < length pre)%nat) by (eapply lookup_lt_Some; eauto).
    destruct (Qle_bool x best) eqn:E.
    + apply Qle_bool_iff in E. apply IH.
      * exists best. split; [now rewrite lookup_app_l|]. split.
        -- apply Forall_app. split; auto.
        -- intros j u Hj Hu. rewrite lookup_app_l in Hu by lia. eauto.
      * now rewrite lookup_app_l.
    + assert (Hx : best < x).
      { apply Qnot_le_lt. rewrite <- Qle_bool_iff. congruence. }
      apply IH.
      * exists x. split; [now rewrite list_lookup_middle|]. split.
        -- apply Forall_app. split; [|repeat constructor; apply Qle_refl].
           eapply Forall_impl; [exact Hall|]. intros u Hu. simpl in Hu.
           apply Qlt_le_weak. eapply Qle_lt_trans; eauto.
        -- intros j u Hj Hu. rewrite lookup_app_l in Hu by lia.
           eapply Qle_lt_trans; [|exact Hx].
           rewrite Forall_lookup in Hall. eapply Hall; eauto.
      * now rewrite list_lookup_middle.
Qed.

Lemma argmin_from_spec (a : list Q) :
  forall (pre : list Q) (best_i : nat),
    first_smallest pre best_i ->
    forall best, pre !! best_i = Some best ->
    first_smallest (pre ++ a) (argmin_from a (length pre) best_i best).
Proof.
  induction a as [|x a IH]; intros pre best_i Hfl best Hbest; simpl.
  - now rewrite app_nil_r.
  - destruct Hfl as (v & Hv & Hall & Hfirst).
    assert (v = best) as -> by congruence.
    replace (pre ++ x :: a) with ((pre ++ [x]) ++ a) by now rewrite <- app_assoc.
    replace (S (length pre)) with (length (pre ++ [x]))
      by (rewrite length_app; simpl; lia).
    assert (Hlt : (best_i < length pre)%nat) by (eapply lookup_lt_Some; eauto).
    destruct (Qle_bool best x) eqn:E.
    + apply Qle_bool_iff in E. apply IH.
      * exists best. split; [now rewrite lookup_app_l|]. split.
        -- apply Forall_app. split; auto.
        -- intros j u Hj Hu. rewrite lookup_app_l in Hu by lia. eauto.
      * now rewrite lookup_app_l.
    + assert (Hx : x < best).
      { apply Qnot_le_lt. rewrite <- Qle_bool_iff. congruence. }
      apply IH.
      * exists x. split; [now rewrite list_lookup_middle|]. split.
        -- apply Forall_app. split; [|repeat constructor; apply Qle_refl].
           eapply Forall_impl; [exact Hall|]. intros u Hu. simpl in Hu.
           apply Qlt_le_weak. eapply Qlt_le_trans; eauto.
        -- intros j u Hj Hu. rewrite lookup_app_l in Hu by lia.
           eapply Qlt_le_trans; [exact Hx|].
           rewrite Forall_lookup in Hall. eapply Hall; eauto.
      * now rewrite list_lookup_middle.
Qed.

Lemma np_argmax_spec (l : list Q) :
  l <> [] -> exists i, np_argmax l = Ok i /\ first_largest l i.
Proof.
  destruct l as [|x l]; [congruence|]. intros _. eexists. split; [reflexivity|].
  apply (argmax_from_spec l [x] 0%nat); [|reflexivity].
  exists x. repeat split; [repeat constructor; apply Qle_refl|]. intros; lia.
Qed.

Lemma np_argmin_spec (l : list Q) :
  l <> [] -> exists i, np_argmin l = Ok i /\ first_smallest l i.
Proof.
  destruct l as [|x l]; [congruence|]. intros _. eexists. split; [reflexivity|].
  apply (argmin_from_spec l [x] 0%nat); [|reflexivity].
  exists x. repeat split; [repeat constructor; apply Qle_refl|]. intros; lia.
Qed.

Lemma np_max_spec (l : list Q) :
  l <> [] -> exists m, np_max l = Ok m /\ is_max l m.
Proof.
  destruct l as [|x l]; [congruence|]. intros _. eexists. split; [reflexivity|].
  apply fold_qmax_spec.
Qed.

Lemma np_min_spec (l : list Q) :
  l <> [] -> exists m, np_min l = Ok m /\ is_min l m.
Proof.
  destruct l as [|x l]; [congruence|]. intros _. eexists. split; [reflexivity|].
  apply fold_qmin_spec.
Qed.

(** [np.mean] is the arithmetic mean. *)
Lemma np_mean_spec (l : list Q) :
  l <> [] -> np_mean l * inject_Z (Z.of_nat (length l)) == np_sum l.
Proof.
  intros Hl. unfold np_mean. rewrite Qmult_comm. apply Qmult_div_r.
  destruct l; [congruence|]. discriminate.
Qed.

Lemma item_lookup (a : list Q) (i : nat) (v : Q) :
  a !! i = Some v -> item a i = Ok v.
Proof. intros H. unfold item. now rewrite H. Qed.

End FitGuesses.

Section FitGuessesClaim.
Import Numpy SweepPlot.

(** C7.  For a selected sub-range [(x, y)] of at least 10 points,
    [update_fit] starts the fit from amplitude [max(y) - min(y)], centre
    [x] at the (first) sample of maximum [|y - mean(y)|] and background
    [mean(y)]; the legacy [calculate_q] starts from the same amplitude,
    centre [x] at the (first) minimum of [y] and background [max(y)].
    Both use [sigma = 0.01]. *)
Theorem fit_initial_guesses (x y : list Q) :
  length x = length y ->
  (10 <= length y)%nat ->
  exists p q,
    guesses x y = Ok p /\
    legacy_guesses x y = Ok q /\
    (exists mx mn, is_max y mx /\ is_min y mn /\ amplitude p = mx - mn) /\
    (exists i, first_largest (map (fun v => Qabs (v - np_mean y)) y) i /\
               x !! i = Some (center p)) /\
    c p = np_mean y /\
    np_mean y * inject_Z (Z.of_nat (length y)) == np_sum y /\
    sigma p = 1 # 100 /\
    (exists mx mn, is_max y mx /\ is_min y mn /\ amplitude q == mx - mn) /\
    (exists i, first_smallest y i /\ x !! i = Some (center q)) /\
    is_max y (c q) /\
    sigma q = 1 # 100.
Proof.
  intros Hlen Hten.
  assert (Hy : y <> []) by (destruct y; simpl in *; [lia | discriminate]).
  set (dev := map (fun v => Qabs (v - np_mean y)) y).
  assert (Hdev : dev <> []).
  { unfold dev. destruct y; [congruence | discriminate]. }
  destruct (np_max_spec y Hy) as (mx & Hmx & Hmax).
  destruct (np_min_spec y Hy) as (mn & Hmn & Hmin).
  destruct (np_argmax_spec dev Hdev) as (i & Hi & Hlargest).
  destruct (np_argmin_spec y Hy) as (k & Hk & Hsmallest).
  assert (Hxi : exists xi, x !! i = Some xi).
  { destruct Hlargest as (v & Hv & _). apply lookup_lt_Some in Hv.
    unfold dev in Hv. rewrite length_map, <- Hlen in Hv.
    now apply lookup_lt_is_Some_2. }
  assert (Hxk : exists xk, x !! k = Some xk).
  { destruct Hsmallest as (v & Hv & _). apply lookup_lt_Some in Hv.
    rewrite <- Hlen in Hv. now apply lookup_lt_is_Some_2. }
  destruct Hxi as (xi & Hxi). destruct Hxk as (xk & Hxk).
  exists {| amplitude := mx - mn; center := xi; sigma := 1 # 100;
            c := np_mean y |},
         {| amplitude := Qabs (mx - mn); center := xk; sigma := 1 # 100;
            c := mx |}.
  split; [|split].
  - unfold guesses. rewrite Hmx, Hmn. cbn [mbind result_bind].
    fold dev. rewrite Hi. cbn [mbind result_bind].
    rewrite (item_lookup _ _ _ Hxi). reflexivity.
  - unfold legacy_guesses. rewrite Hk. cbn [mbind result_bind].
    rewrite (item_lookup _ _ _ Hxk). cbn [mbind result_bind].
    rewrite Hmx, Hmn. reflexivity.
  - cbn [amplitude center sigma c].
    split; [now exists mx, mn|]. split; [now exists i|].
    split; [reflexivity|]. split; [now apply np_mean_spec|].
    split; [reflexivity|]. split; [|split; [now exists k | split; auto]].
    exists mx, mn. repeat split; try apply Hmax; try apply Hmin.
    apply Qabs_pos. destruct Hmax as [_ Hall], Hmin as [Hin _].
    rewrite List.Forall_forall in Hall. specialize (Hall mn Hin).
    now apply Qle_minus_iff in Hall.
Qed.

Lemma fit_initial_guesses_witness :
  guesses dip_x dip_y
    = Ok {| amplitude := 6 - 1; center := 5; sigma := 1 # 100;
            c := np_mean dip_y |} /\
  legacy_guesses dip_x dip_y
    = Ok {| amplitude := Qabs (6 - 1); center := 5; sigma := 1 # 100; c := 6 |} /\
  exists p q, guesses dip_x dip_y = Ok p /\ legacy_guesses dip_x dip_y = Ok q /\
              c p = np_mean dip_y /\ is_max dip_y (c q).
Proof.
  split; [reflexivity|]. split; [reflexivity|].
  destruct (fit_initial_guesses dip_x dip_y) as (p & q & Hp & Hq & _ & _ & Hc & _
    & _ & _ & _ & Hmax & _); [reflexivity | simpl; lia |].
  exists p, q. repeat split; auto; apply Hmax.
Defined.

End FitGuessesClaim.

Section FitRegion.
Import Numpy SweepPlot.

(** C6 fails on the code: with fewer than 10 points in the ROI
    [update_fit] returns without saying so; the label goes on showing
    whatever it showed, here the result of an earlier fit, and no
    "not enough points" result exists. *)
Lemma too_few_points_is_silent :
  length (in_roi 1550 1552 [1550; 1551; 1552; 1553]) = 3%nat /\
  update_fit constant_fitter narrow_roi_widget = Ok narrow_roi_widget /\
  lbl_info narrow_roi_widget = FitResults 1550 15500.
Proof. repeat split. Qed.

(** C6, amended.  Whenever the ROI holds fewer than 10 samples of the
    stored series, [update_fit] returns at once without attempting a
    fit and without raising: the widget is left exactly as it was
    (label, fit curve and the record of fit calls unchanged), so
    nothing reports that there were not enough points. *)
Theorem update_fit_too_few_points
    (fit : Fitter) (self : Widget) (wl sig : list Q) (lo hi : Q) :
  current self = Some (wl, sig) ->
  roi self = (lo, hi) ->
  length sig = length wl ->
  (length (in_roi lo hi wl) < 10)%nat ->
  update_fit fit self = Ok self /\
  forall self', update_fit fit self = Ok self' ->
    fit_calls self' = fit_calls self /\
    lbl_info self' = lbl_info self /\
    curve_fit self' = curve_fit self.
Proof.
  intros Hcur Hroi Hlen Hfew.
  assert (Hrun : update_fit fit self = Ok self).
  { unfold update_fit. rewrite Hcur, Hroi. unfold between_mask.
    rewrite bool_index_mask. cbn [mbind result_bind].
    unfold bool_index. rewrite length_map, Hlen, Nat.eqb_refl.
    cbn [mbind result_bind].
    apply Nat.ltb_lt in Hfew. unfold in_roi in Hfew. now rewrite Hfew. }
  split; [exact Hrun|]. intros self' H. rewrite Hrun in H.
  injection H as <-. auto.
Qed.

Lemma update_fit_too_few_points_witness :
  update_fit constant_fitter narrow_roi_widget = Ok narrow_roi_widget /\
  forall self', update_fit constant_fitter narrow_roi_widget = Ok self' ->
    fit_calls self' = [] /\
    lbl_info self' = FitResults 1550 15500 /\
    curve_fit self' = ([1550; 1552], [1; 1]).
Proof.
  apply (update_fit_too_few_points constant_fitter narrow_roi_widget
           [1550; 1551; 1552; 1553] [1; 2; 3; 4] 1550 1552);
    [reflexivity | reflexivity | reflexivity | simpl; lia].
Defined.

(** With 10 points or more the fit is attempted, once, from the initial
    guesses of [guesses]. *)
Lemma update_fit_fits_from_guesses
    (fit : Fitter) (self : Widget) (wl sig : list Q) (lo hi : Q) (p : Params) :
  current self = Some (wl, sig) ->
  roi self = (lo, hi) ->
  length sig = length wl ->
  (10 <= length (in_roi lo hi wl))%nat ->
  let x_sub := in_roi lo hi wl in
  let y_sub := select sig (between_mask lo hi wl) in
  guesses x_sub y_sub = Ok p ->
  exists self', update_fit fit self = Ok self' /\
    fit_calls self' = fit_calls self ++ [(y_sub, p, x_sub)].
Proof.
  intros Hcur Hroi Hlen Hmany x_sub y_sub Hg.
  unfold update_fit. rewrite Hcur, Hroi. unfold between_mask.
  rewrite bool_index_mask. cbn [mbind result_bind].
  unfold bool_index. rewrite length_map, Hlen, Nat.eqb_refl.
  cbn [mbind result_bind].
  apply Nat.ltb_ge in Hmany. unfold in_roi in Hmany. rewrite Hmany.
  fold (in_roi lo hi wl). fold x_sub.
  change (select sig (map (fun x => Qle_bool lo x && Qle_bool x hi) wl))
    with y_sub.
  rewrite Hg. destruct (fit y_sub p x_sub); eexists; split; reflexivity.
Qed.

End FitRegion.

(** ** Staging area: discarding, committing, overwriting
    (utils/data_manager.py) *)

Section StagingArea.
Import DataManager.

(** X1.  [discard_autosave] removes the given file and nothing else: the
    other files and the permissions are untouched; a path that does not
    exist is left alone without an error, so discarding twice is the
    same as discarding once. *)
Theorem discard_autosave_only_removes_target (fs : FS) (path : string) :
  files (discard_autosave fs path) = delete path (files fs) /\
  files (discard_autosave fs path) !! path = None /\
  (forall other, other <> path ->
     files (discard_autosave fs path) !! other = files fs !! other) /\
  (files fs !! path = None -> discard_autosave fs path = fs) /\
  discard_autosave (discard_autosave fs path) path = discard_autosave fs path.
Proof.
  assert (Hfiles : files (discard_autosave fs path) = delete path (files fs)).
  { unfold discard_autosave, os_remove.
    destruct (files fs !! path) as [df|] eqn:E.
    - rewrite (os_path_exists_true _ _ _ E). reflexivity.
    - rewrite (os_path_exists_false _ _ E). symmetry. now apply delete_id. }
  assert (Hmissing : forall fs', files fs' !! path = None ->
                                 discard_autosave fs' path = fs').
  { intros fs' E. unfold discard_autosave.
    now rewrite (os_path_exists_false _ _ E). }
  split; [exact Hfiles|]. split; [|split; [|split]].
  - rewrite Hfiles. apply lookup_delete_eq.
  - intros other Hne. rewrite Hfiles. now apply lookup_delete_ne.
  - apply Hmissing.
  - apply Hmissing. rewrite Hfiles. apply lookup_delete_eq.
Qed.

(** X2.  Autosave then commit: for a series with equally long columns,
    when the staging file and the target can be written, [autosave_sweep]
    followed by [move_autosave] on the path it returned succeeds, writes
    the two columns to [target_dir/prefix_timestamp.csv], then removes
    the staged file, and leaves every other file as it was.  When the
    target is another path than the staged file it holds the two
    columns afterwards; when it is the staged path itself (the staging
    directory chosen as target, the prefix [sweep_autosave], the same
    second) the commit still returns the path, and no file is left. *)
Theorem autosave_then_move_round_trip
    (cwd ts1 ts2 : string) (fs : FS) (wl sg : list Q) (dir prefix : string) :
  length wl = length sg ->
  can_mkdir fs (AUTOSAVE_DIR cwd) = true ->
  let staged := autosave_path cwd ts1 in
  let tgt := path_join dir (prefix +:+ "_" +:+ ts2 +:+ ".csv") in
  writable fs staged = true ->
  writable fs tgt = true ->
  exists fs1 fs2,
    autosave_sweep cwd ts1 fs wl sg = (Ok staged, fs1) /\
    move_autosave ts2 fs1 staged dir prefix = (Ok tgt, fs2) /\
    files fs2 =
      delete staged (<[tgt := sweep_frame wl sg]>
                       (<[staged := sweep_frame wl sg]> (files fs))) /\
    files fs2 !! staged = None /\
    (tgt <> staged -> read_csv fs2 tgt = Ok (sweep_frame wl sg)) /\
    (tgt = staged -> files fs2 = delete staged (files fs)) /\
    (forall other, other <> tgt -> other <> staged ->
       files fs2 !! other = files fs !! other).
Proof.
  intros Hlen Hdir staged tgt Hws Hwt.
  set (df := sweep_frame wl sg).
  exists (with_files fs (<[staged := df]> (files fs))),
         (with_files fs (delete staged (<[tgt := df]> (<[staged := df]> (files fs))))).
  split; [|split; [|split; [|split; [|split; [|split]]]]].
  - unfold autosave_sweep, ensure_autosave_dir, make_frame, to_csv.
    rewrite Hdir, Hlen, Nat.eqb_refl.
    fold (autosave_path cwd ts1). fold staged. now rewrite Hws.
  - unfold move_autosave, read_csv, to_csv, os_remove.
    assert (Hs : files (with_files fs (<[staged := df]> (files fs))) !! staged
                 = Some df) by (cbn [files with_files]; apply lookup_insert_eq).
    rewrite (os_path_exists_true _ _ _ Hs), Hs. cbn [negb].
    fold tgt. cbn [writable files with_files]. rewrite Hwt.
    unfold with_files. cbn [files writable can_mkdir].
    assert (Hin : <[tgt := df]> (<[staged := df]> (files fs)) !! staged = Some df).
    { destruct (decide (tgt = staged)) as [->|Hne].
      - apply lookup_insert_eq.
      - rewrite lookup_insert_ne by exact Hne. apply lookup_insert_eq. }
    rewrite Hin. reflexivity.
  - reflexivity.
  - cbn [files with_files]. apply lookup_delete_eq.
  - intros Hne. unfold read_csv. cbn [files with_files].
    rewrite lookup_delete_ne by congruence. now rewrite lookup_insert_eq.
  - intros Heq. cbn [files with_files]. rewrite Heq.
    rewrite insert_insert_eq. apply delete_insert_eq.
  - intros other Ht Hs. cbn [files with_files].
    rewrite lookup_delete_ne by congruence.
    rewrite lookup_insert_ne by congruence.
    now rewrite lookup_insert_ne by congruence.
Qed.

Lemma autosave_then_move_round_trip_witness :
  (exists fs1 fs2,
     autosave_sweep "/lab" "20240101_120000" open_fs [1550; 1551] [1 # 2; 1 # 4]
       = (Ok (autosave_path "/lab" "20240101_120000"), fs1) /\
     move_autosave "20240101_120500" fs1 (autosave_path "/lab" "20240101_120000")
       "/home/user" "scan"
       = (Ok (path_join "/home/user"
                ("scan" +:+ "_" +:+ "20240101_120500" +:+ ".csv")), fs2) /\
     read_csv fs2 (path_join "/home/user"
                     ("scan" +:+ "_" +:+ "20240101_120500" +:+ ".csv"))
       = Ok (sweep_frame [1550; 1551] [1 # 2; 1 # 4]) /\
     files fs2 !! autosave_path "/lab" "20240101_120000" = None) /\
  (exists fs1 fs2,
     autosave_sweep "/lab" "20240101_120000" open_fs [1550; 1551] [1 # 2; 1 # 4]
       = (Ok (autosave_path "/lab" "20240101_120000"), fs1) /\
     move_autosave "20240101_120000" fs1 (autosave_path "/lab" "20240101_120000")
       "/lab/data/autosaves" "sweep_autosave"
       = (Ok (autosave_path "/lab" "20240101_120000"), fs2) /\
     files fs2 = delete (autosave_path "/lab" "20240101_120000") (files open_fs)).
Proof.
  split.
  - destruct (autosave_then_move_round_trip "/lab" "20240101_120000"
                "20240101_120500" open_fs [1550; 1551] [1 # 2; 1 # 4]
                "/home/user" "scan")
      as (fs1 & fs2 & Hsave & Hmove & _ & Hgone & Hread & _); try reflexivity.
    exists fs1, fs2. split; [exact Hsave|]. split; [exact Hmove|].
    split; [|exact Hgone]. apply Hread. vm_compute. discriminate.
  - destruct (autosave_then_move_round_trip "/lab" "20240101_120000"
                "20240101_120000" open_fs [1550; 1551] [1 # 2; 1 # 4]
                "/lab/data/autosaves" "sweep_autosave")
      as (fs1 & fs2 & Hsave & Hmove & _ & _ & _ & Hsame & _); try reflexivity.
    exists fs1, fs2. split; [exact Hsave|]. split; [exact Hmove|].
    apply Hsame. reflexivity.
Defined.

(** X3.  The staging file name carries the clock reading to the second:
    two autosaves with the same reading go to the same path, and the
    second silently replaces the first. *)
Theorem autosave_same_second_overwrites
    (cwd ts : string) (fs : FS) (wl1 sg1 wl2 sg2 : list Q) :
  length wl1 = length sg1 ->
  length wl2 = length sg2 ->
  can_mkdir fs (AUTOSAVE_DIR cwd) = true ->
  writable fs (autosave_path cwd ts) = true ->
  exists fs1 fs2,
    autosave_sweep cwd ts fs wl1 sg1 = (Ok (autosave_path cwd ts), fs1) /\
    autosave_sweep cwd ts fs1 wl2 sg2 = (Ok (autosave_path cwd ts), fs2) /\
    read_csv fs1 (autosave_path cwd ts) = Ok (sweep_frame wl1 sg1) /\
    read_csv fs2 (autosave_path cwd ts) = Ok (sweep_frame wl2 sg2) /\
    files fs2 = <[autosave_path cwd ts := sweep_frame wl2 sg2]> (files fs).
Proof.
  intros Hl1 Hl2 Hdir Hw.
  set (p := autosave_path cwd ts) in *.
  exists (with_files fs (<[p := sweep_frame wl1 sg1]> (files fs))),
         (with_files fs (<[p := sweep_frame wl2 sg2]> (files fs))).
  split; [|split; [|split; [|split]]].
  - unfold autosave_sweep, ensure_autosave_dir, make_frame, to_csv.
    rewrite Hdir, Hl1, Nat.eqb_refl.
    fold (autosave_path cwd ts). fold p. now rewrite Hw.
  - unfold autosave_sweep, ensure_autosave_dir, make_frame, to_csv.
    cbn [can_mkdir writable files with_files].
    rewrite Hdir, Hl2, Nat.eqb_refl.
    fold (autosave_path cwd ts). fold p. rewrite Hw.
    unfold with_files. cbn [can_mkdir writable files].
    now rewrite insert_insert_eq.
  - unfold read_csv. cbn [files with_files]. now rewrite lookup_insert_eq.
  - unfold read_csv. cbn [files with_files]. now rewrite lookup_insert_eq.
  - reflexivity.
Qed.

Lemma autosave_same_second_overwrites_witness :
  exists fs1 fs2,
    autosave_sweep "/lab" "20240101_120000" open_fs [1550; 1551] [1 # 2; 1 # 4]
      = (Ok (autosave_path "/lab" "20240101_120000"), fs1) /\
    autosave_sweep "/lab" "20240101_120000" fs1 [1560] [1]
      = (Ok (autosave_path "/lab" "20240101_120000"), fs2) /\
    read_csv fs1 (autosave_path "/lab" "20240101_120000")
      = Ok (sweep_frame [1550; 1551] [1 # 2; 1 # 4]) /\
    read_csv fs2 (autosave_path "/lab" "20240101_120000")
      = Ok (sweep_frame [1560] [1]) /\
    files fs2 = <[autosave_path "/lab" "20240101_120000" := sweep_frame [1560] [1]]>
                  (files open_fs).
Proof.
  apply (autosave_same_second_overwrites "/lab" "20240101_120000" open_fs
           [1550; 1551] [1 # 2; 1 # 4] [1560] [1]); reflexivity.
Defined.

End StagingArea.

(** ** The slot of finished_safe (gui/main_window.py) *)

Section SaveSlot.
Import DataManager MainWindow.

Lemma string_app_nil_l (s : string) : "" +:+ s = s.
Proof. reflexivity. Qed.

Lemma string_app_cons (ch : ascii) (a b : string) :
  String ch a +:+ b = String ch (a +:+ b).
Proof. reflexivity. Qed.

Lemma string_app_nil_r (s : string) : s +:+ "" = s.
Proof.
  induction s as [|ch s IH]; [reflexivity|].
  rewrite string_app_cons. now f_equal.
Qed.

Lemma string_app_assoc (a b c : string) : (a +:+ b) +:+ c = a +:+ (b +:+ c).
Proof.
  induction a as [|ch a IH]; [reflexivity|].
  rewrite !string_app_cons. now f_equal.
Qed.

Lemma basename_from_no_slash (b : string) :
  has_slash b = false -> forall seg, basename_from b seg = seg +:+ b.
Proof.
  induction b as [|ch b IH]; intros Hb seg; simpl in *.
  - now rewrite string_app_nil_r.
  - apply orb_false_iff in Hb as [Hch Hb]. rewrite Hch, (IH Hb).
    now rewrite string_app_assoc.
Qed.

Lemma basename_from_after_slash (a b : string) :
  forall seg, basename_from (a +:+ String "/" b) seg = basename_from b "".
Proof.
  induction a as [|ch a IH]; intros seg.
  - reflexivity.
  - rewrite string_app_cons. simpl. destruct (Ascii.eqb ch "/"); apply IH.
Qed.

Lemma basename_from_ends_with_slash (a : string) :
  ends_with_slash a = true -> forall seg, basename_from a seg = "".
Proof.
  induction a as [|ch a IH]; intros Ha seg; [discriminate|].
  destruct a as [|c2 a].
  - unfold ends_with_slash in Ha. simpl in Ha. simpl. now rewrite Ha.
  - assert (Ha' : ends_with_slash (String c2 a) = true) by exact Ha.
    change (basename_from (String ch (String c2 a)) seg)
      with (if Ascii.eqb ch "/" then basename_from (String c2 a) ""
            else basename_from (String c2 a) (seg +:+ String ch "")).
    destruct (Ascii.eqb ch "/"); now apply IH.
Qed.

Lemma basename_from_append (a b : string) :
  has_slash b = false ->
  forall seg, basename_from (a +:+ b) seg = basename_from a seg +:+ b.
Proof.
  intros Hb. induction a as [|ch a IH]; intros seg.
  - rewrite string_app_nil_l. now apply basename_from_no_slash.
  - rewrite string_app_cons. simpl. destruct (Ascii.eqb ch "/"); apply IH.
Qed.

Lemma has_slash_starts (b : string) :
  has_slash b = false -> starts_with_slash b = false.
Proof. destruct b as [|ch b]; simpl; [auto|]. now intros [? _]%orb_false_iff. Qed.

(** [basename(join(dir, name)) = name] for a name without a slash. *)
Lemma basename_path_join (dir name : string) :
  has_slash name = false -> os_path_basename (path_join dir name) = name.
Proof.
  intros Hn. unfold os_path_basename, path_join.
  rewrite (has_slash_starts _ Hn).
  destruct (String.length dir =? 0)%nat eqn:E0; cbn [orb].
  - destruct dir; [|discriminate]. rewrite string_app_nil_l.
    now apply basename_from_no_slash.
  - destruct (ends_with_slash dir) eqn:Es.
    + rewrite basename_from_append by exact Hn.
      now rewrite basename_from_ends_with_slash.
    + change ("/" +:+ name) with (String "/" name).
      rewrite basename_from_after_slash. now apply basename_from_no_slash.
Qed.

Lemma has_slash_append (a b : string) :
  has_slash (a +:+ b) = has_slash a || has_slash b.
Proof.
  induction a as [|ch a IH]; [reflexivity|].
  rewrite string_app_cons. simpl. now rewrite IH, orb_assoc.
Qed.

(** X4.  [on_sweep_finished] never raises.  With the empty path (a
    failed autosave) it does nothing at all; for a staged file that no
    longer exists it shows the warning "Original autosave file missing"
    and changes nothing.  When the target can be written it writes the
    frame to [target_dir/prefix_timestamp.csv], removes the staged file
    and shows "Saved to: " followed by [prefix_timestamp.csv] (for a
    prefix without a slash): the frame is then in the target file,
    unless the target path is the staged path itself, in which case the
    message is shown although no file is left.  When the target cannot
    be written it shows a warning and does not remove the staged file,
    which keeps its frame when the target is another path. *)
Theorem on_sweep_finished_outcomes
    (ts : string) (fs : FS) (src prefix dir : string) :
  let tgt := path_join dir (prefix +:+ "_" +:+ ts +:+ ".csv") in
  (src = "" -> on_sweep_finished ts fs src prefix dir = (Nothing, fs)) /\
  (src <> "" -> files fs !! src = None ->
     on_sweep_finished ts fs src prefix dir =
       (WarningBox "Save Error" "Original autosave file missing", fs)) /\
  (forall df, src <> "" -> files fs !! src = Some df ->
     (writable fs tgt = true ->
        has_slash prefix = false -> has_slash ts = false ->
        exists fs',
          on_sweep_finished ts fs src prefix dir =
            (StatusMessage ("Saved to: " +:+ prefix +:+ "_" +:+ ts +:+ ".csv"), fs') /\
          files fs' = delete src (<[tgt := df]> (files fs)) /\
          files fs' !! src = None /\
          (tgt <> src -> files fs' !! tgt = Some df) /\
          (tgt = src -> files fs' !! tgt = None)) /\
     (writable fs tgt = false ->
        exists msg fs',
          on_sweep_finished ts fs src prefix dir = (WarningBox "Save Error" msg, fs') /\
          is_Some (files fs' !! src) /\
          (tgt <> src -> files fs' !! src = Some df))).
Proof.
  intros tgt.
  assert (Hnz : src <> "" -> (String.length src =? 0)%nat = false).
  { intros H. destruct src; [congruence | reflexivity]. }
  split; [|split].
  - intros ->. reflexivity.
  - intros Hsrc Hnone. unfold on_sweep_finished. rewrite (Hnz Hsrc).
    now rewrite move_autosave_missing.
  - intros df Hsrc Hsome. split.
    + intros Hw Hp Hts. unfold on_sweep_finished. rewrite (Hnz Hsrc).
      unfold move_autosave, read_csv, to_csv, os_remove.
      rewrite (os_path_exists_true _ _ _ Hsome), Hsome. cbn [negb].
      fold tgt. rewrite Hw. cbn [files with_files].
      assert (Hin : <[tgt := df]> (files fs) !! src <> None).
      { destruct (decide (tgt = src)) as [->|Hne].
        - now rewrite lookup_insert_eq.
        - rewrite lookup_insert_ne by assumption. congruence. }
      destruct (<[tgt := df]> (files fs) !! src) as [df'|]; [|congruence].
      eexists. split; [|split; [|split; [|split]]].
      * unfold tgt. rewrite basename_path_join; [reflexivity|].
        rewrite !has_slash_append, Hp, Hts. reflexivity.
      * reflexivity.
      * cbn [files with_files]. apply lookup_delete_eq.
      * intros Hne. cbn [files with_files].
        rewrite lookup_delete_ne by congruence. apply lookup_insert_eq.
      * intros Heq. cbn [files with_files]. rewrite Heq.
        apply lookup_delete_eq.
    + intros Hw. unfold on_sweep_finished. rewrite (Hnz Hsrc).
      unfold move_autosave, read_csv, to_csv.
      rewrite (os_path_exists_true _ _ _ Hsome), Hsome. cbn [negb].
      fold tgt. rewrite Hw. eexists. eexists.
      split; [reflexivity|]. rewrite Hsome. split; [now exists df | reflexivity].
Qed.

Lemma on_sweep_finished_outcomes_witness :
  on_sweep_finished "20240101_120500" staged_fs "" "scan" "/home/user"
    = (Nothing, staged_fs) /\
  on_sweep_finished "20240101_120500" staged_fs
    "/lab/data/autosaves/gone.csv" "scan" "/home/user"
    = (WarningBox "Save Error" "Original autosave file missing", staged_fs) /\
  (exists fs',
     on_sweep_finished "20240101_120500" staged_fs
       "/lab/data/autosaves/sweep_autosave_20240101_120000.csv" "scan" "/home/user"
       = (StatusMessage ("Saved to: " +:+ "scan" +:+ "_" +:+ "20240101_120500"
                         +:+ ".csv"), fs') /\
     files fs' !! "/lab/data/autosaves/sweep_autosave_20240101_120000.csv" = None /\
     files fs' !! path_join "/home/user"
                    ("scan" +:+ "_" +:+ "20240101_120500" +:+ ".csv")
       = Some staged_frame) /\
  (exists fs',
     on_sweep_finished "20240101_120000" staged_fs
       "/lab/data/autosaves/sweep_autosave_20240101_120000.csv"
       "sweep_autosave" "/lab/data/autosaves"
       = (StatusMessage ("Saved to: " +:+ "sweep_autosave" +:+ "_"
                         +:+ "20240101_120000" +:+ ".csv"), fs') /\
     files fs' !! path_join "/lab/data/autosaves"
                    ("sweep_autosave" +:+ "_" +:+ "20240101_120000" +:+ ".csv")
       = None).
Proof.
  split; [|split; [|split]].
  - apply (on_sweep_finished_outcomes "20240101_120500" staged_fs "" "scan"
             "/home/user"). reflexivity.
  - apply (on_sweep_finished_outcomes "20240101_120500" staged_fs
             "/lab/data/autosaves/gone.csv" "scan" "/home/user");
      [discriminate | reflexivity].
  - destruct (on_sweep_finished_outcomes "20240101_120500" staged_fs
                "/lab/data/autosaves/sweep_autosave_20240101_120000.csv"
                "scan" "/home/user") as (_ & _ & H).
    destruct (H staged_frame) as [Hok _];
      [discriminate | apply lookup_singleton_eq |].
    destruct Hok as (fs' & Hrun & _ & Hgone & Htgt & _); try reflexivity.
    exists fs'. split; [exact Hrun|]. split; [exact Hgone|].
    apply Htgt. vm_compute. discriminate.
  - destruct (on_sweep_finished_outcomes "20240101_120000" staged_fs
                "/lab/data/autosaves/sweep_autosave_20240101_120000.csv"
                "sweep_autosave" "/lab/data/autosaves") as (_ & _ & H).
    destruct (H staged_frame) as [Hok _];
      [discriminate | apply lookup_singleton_eq |].
    destruct Hok as (fs' & Hrun & _ & _ & _ & Hsame); try reflexivity.
    exists fs'. split; [exact Hrun|]. apply Hsame. reflexivity.
Defined.

End SaveSlot.

(** ** How SweepWorker.run ends (core/engine.py) *)

Section RunOutcome.
Import Numpy Mapping DataManager Engine.

(** Case analysis on every call of [run] that can raise. *)
Ltac run_paths :=
  unfold events, run, run_body;
  unfold mbind, M_bind, mret, M_ret, emit, laser, raise, capture_block,
         masked, autosave, log;
  cbn [trace fs];
  repeat match goal with
  | |- context [laser_raises ?e ?c] =>
      destruct (laser_raises e c) eqn:?; cbn [trace fs fst snd app]
  | |- context [Qeq_bool ?a ?b] =>
      destruct (Qeq_bool a b) eqn:?; cbn [trace fs fst snd app]
  | |- context [scope_capture ?e ?a ?b] =>
      destruct (scope_capture e a b) eqn:?; cbn [trace fs fst snd app]
  | |- context [bool_index ?a ?b] =>
      destruct (bool_index a b) eqn:?; cbn [trace fs fst snd app]
  | |- context [autosave_sweep ?a ?b ?c ?d ?e] =>
      destruct (autosave_sweep a b c d e) as [[?|?] ?] eqn:?;
      cbn [trace fs fst snd app]
  end;
  cbn [map ev].


(** The status texts a run sends are always an initial part of the
    five stages, in their order: "Configuring Laser...",
    "Arming Trigger...", "Acquiring...", "Processing...", "Saving...". *)
Lemma run_status_messages_in_order (env : Env) (p : SweepParams) (fs0 : FS) :
  status_messages (events (run env p fs0)) `prefix_of` stages.
Proof.
  run_paths.
  all: cbn [status_messages omap list_omap option_bind mbind app];
    unfold stages; eexists; reflexivity.
Qed.

(** X6.  A sweep speed of zero makes the duration computation raise
    after the laser has been configured: the run reports the error and
    calls [stop_sweep], without switching the emission on, arming the
    scope or touching the file system. *)
Theorem run_zero_speed (env : Env) (p : SweepParams) (fs0 : FS) :
  laser_raises env (SetPower (power_dbm p)) = None ->
  laser_raises env (SetSweepParams (start_nm p) (end_nm p) (speed_nm_s p)) = None ->
  speed_nm_s p == 0 ->
  exists msg,
    events (run env p fs0) =
      [StatusUpdate "Configuring Laser..."; LaserCall (SetPower (power_dbm p));
       LaserCall (SetSweepParams (start_nm p) (end_nm p) (speed_nm_s p));
       ErrorOccurred msg; LaserCall StopSweep] /\
    fs (run env p fs0) = fs0.
Proof.
  intros Hp Hs Hz. apply Qeq_bool_iff in Hz.
  unfold events, run, run_body.
  unfold mbind, M_bind, mret, M_ret, emit, laser, raise, log.
  cbn [trace fs]. rewrite Hp. cbn [trace fs fst snd app]. rewrite Hs.
  cbn [trace fs fst snd app]. rewrite Hz.
  eexists. split; reflexivity.
Qed.

Lemma run_zero_speed_witness :
  exists msg,
    events (run bench sweep_zero_speed open_fs) =
      [StatusUpdate "Configuring Laser..."; LaserCall (SetPower 0);
       LaserCall (SetSweepParams 1550 1551 0);
       ErrorOccurred msg; LaserCall StopSweep] /\
    fs (run bench sweep_zero_speed open_fs) = open_fs.
Proof.
  apply (run_zero_speed bench sweep_zero_speed open_fs); reflexivity.
Defined.

(** The run whose capture raises, event by event. *)
Lemma run_capture_failure_world
    (env : Env) (p : SweepParams) (fs0 : FS) (e : exn) :
  (forall c, laser_raises env c = None) ->
  Qeq_bool (speed_nm_s p) 0 = false ->
  scope_capture env (duration p) 100000 = Raise e ->
  run env p fs0 =
    {| trace := map (fun x => {| ev := x; fs_then := fs0 |})
        [StatusUpdate "Configuring Laser..."; LaserCall (SetPower (power_dbm p));
         LaserCall (SetSweepParams (start_nm p) (end_nm p) (speed_nm_s p));
         StatusUpdate "Arming Trigger..."; LaserCall TurnOn;
         Sleep (1 # 2); StatusUpdate "Acquiring..."; TriggerThreadStart;
         CaptureBlock (duration p) 100000;
         ErrorOccurred (exn_str e); LaserCall StopSweep];
       fs := fs0 |}.
Proof.
  intros Hl Hs Hcap.
  unfold duration in *. unfold run, run_body.
  unfold mbind, M_bind, mret, M_ret, emit, laser, raise, capture_block, log.
  cbn [trace fs]. rewrite !Hl, Hs. cbn [trace fs fst snd app].
  rewrite Hcap. reflexivity.
Qed.

(** X7.  When [capture_block] raises (the laser calls succeeding), the
    run reports the text of the exception and calls [stop_sweep]; the
    emission switched on by [turn_on] is not switched off, the trigger
    thread that was started is not joined, and nothing is saved. *)
Theorem run_capture_failure_leaves_laser_on
    (env : Env) (p : SweepParams) (fs0 : FS) (e : exn) :
  (forall c, laser_raises env c = None) ->
  Qeq_bool (speed_nm_s p) 0 = false ->
  scope_capture env (duration p) 100000 = Raise e ->
  events (run env p fs0) =
    [StatusUpdate "Configuring Laser..."; LaserCall (SetPower (power_dbm p));
     LaserCall (SetSweepParams (start_nm p) (end_nm p) (speed_nm_s p));
     StatusUpdate "Arming Trigger..."; LaserCall TurnOn;
     Sleep (1 # 2); StatusUpdate "Acquiring..."; TriggerThreadStart;
     CaptureBlock (duration p) 100000;
     ErrorOccurred (exn_str e); LaserCall StopSweep] /\
  ~ In (LaserCall TurnOff) (events (run env p fs0)) /\
  ~ In TriggerThreadJoin (events (run env p fs0)) /\
  fs (run env p fs0) = fs0.
Proof.
  intros Hl Hs Hcap.
  rewrite (run_capture_failure_world env p fs0 e Hl Hs Hcap).
  unfold events. cbn [trace fs map ev].
  split; [reflexivity|]. split; [|split; [|reflexivity]].
  - cbn [In]. intros H.
    repeat match type of H with
           | _ \/ _ => destruct H as [H|H]
           | False => exact H
           | _ = _ => discriminate H
           end.
  - cbn [In]. intros H.
    repeat match type of H with
           | _ \/ _ => destruct H as [H|H]
           | False => exact H
           | _ = _ => discriminate H
           end.
Qed.

Lemma run_capture_failure_leaves_laser_on_witness :
  events (run bench_unplugged sweep_1550 open_fs) =
    [StatusUpdate "Configuring Laser..."; LaserCall (SetPower 0);
     LaserCall (SetSweepParams 1550 1551 1);
     StatusUpdate "Arming Trigger..."; LaserCall TurnOn;
     Sleep (1 # 2); StatusUpdate "Acquiring..."; TriggerThreadStart;
     CaptureBlock (duration sweep_1550) 100000;
     ErrorOccurred "Not connected"; LaserCall StopSweep] /\
  ~ In (LaserCall TurnOff) (events (run bench_unplugged sweep_1550 open_fs)) /\
  ~ In TriggerThreadJoin (events (run bench_unplugged sweep_1550 open_fs)) /\
  fs (run bench_unplugged sweep_1550 open_fs) = open_fs.
Proof.
  apply (run_capture_failure_leaves_laser_on bench_unplugged sweep_1550 open_fs
           (InstrumentConnectionError "Not connected")); reflexivity.
Defined.

End RunOutcome.

(** ** The live view: buffer invariant, mismatched channels, successive
    chunks (gui/widgets/live_plot.py) *)

Section LiveView.
Import Numpy LivePlot.

(** A chunk that fits: both buffers are shifted and the chunk appended. *)
Lemma update_plot_chunk (self : Widget) (new_a new_b : list Q) :
  is_streaming self = true ->
  wf self ->
  (0 < length new_a)%nat ->
  (length new_a <= roll_buffer_size self)%nat ->
  length new_b = length new_a ->
  update_plot self (Some (new_a, new_b)) =
    (set_buffers self (drop (length new_a) (data_buffer_a self) ++ new_a)
                      (drop (length new_a) (data_buffer_b self) ++ new_b), None).
Proof.
  intros Hs [Ha Hb] Hpos Hle Hlen.
  unfold update_plot. rewrite Hs. cbn [negb].
  assert (H0 : (0 <? length new_a)%nat = true) by now apply Nat.ltb_lt.
  assert (H1 : (roll_buffer_size self <? length new_a)%nat = false)
    by (apply Nat.ltb_ge; lia).
  rewrite H0, H1.
  rewrite roll_then_assign by (rewrite ?Ha; assumption).
  rewrite <- Hlen at 1 2.
  rewrite roll_then_assign by (rewrite ?Hb, ?Hlen; assumption).
  rewrite Hlen. reflexivity.
Qed.

(** A tick with equally long channels: no exception, buffers of the
    same size as before. *)
Lemma update_plot_safe (self : Widget) (poll : option (list Q * list Q)) :
  wf self ->
  (forall new_a new_b, poll = Some (new_a, new_b) -> length new_b = length new_a) ->
  (update_plot self poll).2 = None /\
  wf (update_plot self poll).1 /\
  roll_buffer_size (update_plot self poll).1 = roll_buffer_size self /\
  is_streaming (update_plot self poll).1 = is_streaming self.
Proof.
  intros Hwf Hpoll. pose proof Hwf as [Ha Hb].
  destruct (is_streaming self) eqn:Hs.
  2: { unfold update_plot. rewrite Hs. cbn [negb fst snd]. auto. }
  destruct poll as [[new_a new_b]|].
  2: { unfold update_plot. rewrite Hs. cbn [negb fst snd]. auto. }
  specialize (Hpoll new_a new_b eq_refl).
  destruct (Nat.ltb_spec 0 (length new_a)) as [Hpos|Hzero].
  - destruct (Nat.ltb_spec (roll_buffer_size self) (length new_a)) as [Hlag|Hfit].
    + unfold update_plot. rewrite Hs. cbn [negb].
      apply Nat.ltb_lt in Hpos, Hlag. rewrite Hpos, Hlag.
      cbn [fst snd]. unfold wf, set_buffers, fill.
      cbn [data_buffer_a data_buffer_b roll_buffer_size is_streaming].
      rewrite !length_replicate. auto.
    + rewrite update_plot_chunk by assumption.
      cbn [fst snd]. unfold wf, set_buffers.
      cbn [data_buffer_a data_buffer_b roll_buffer_size is_streaming].
      rewrite !length_app, !length_drop, Ha, Hb, Hpoll.
      repeat split; auto; lia.
  - unfold update_plot. rewrite Hs. cbn [negb].
    apply Nat.ltb_ge in Hzero. rewrite Hzero. cbn [fst snd]. auto.
Qed.

(** X8.  The buffer invariant.  Starting from a widget whose two
    buffers have [roll_buffer_size] entries (as [__init__] builds it),
    no sequence of timer ticks raises or changes the size of either
    buffer, whatever the scope offers at each tick (no poll method, an
    empty chunk, a chunk that fits, a chunk that is too long), as long
    as the two channels of every chunk are equally long. *)
Theorem ticks_keep_buffer_size
    (polls : list (option (list Q * list Q))) (self : Widget) :
  wf self ->
  Forall even_channels polls ->
  (ticks self polls).2 = [] /\
  wf (ticks self polls).1 /\
  roll_buffer_size (ticks self polls).1 = roll_buffer_size self /\
  is_streaming (ticks self polls).1 = is_streaming self.
Proof.
  revert self. induction polls as [|p polls IH]; intros self Hwf Hall.
  - cbn [ticks fst snd]. auto.
  - inversion Hall as [|? ? Hp Hrest]; subst.
    destruct (update_plot_safe self p Hwf Hp) as (Hnone & Hwf' & Hsize & Hstr).
    destruct (IH (update_plot self p).1 Hwf' Hrest) as (He & Hw & Hs & Hst).
    cbn [ticks fst snd]. rewrite Hnone, He, Hs, Hst. auto.
Qed.

Lemma ticks_keep_buffer_size_witness :
  (ticks small_widget [Some ([7; 8], [9; 10]); None; Some ([1; 2; 3; 4], [0; 0; 0; 0])]).2
    = [] /\
  wf (ticks small_widget
        [Some ([7; 8], [9; 10]); None; Some ([1; 2; 3; 4], [0; 0; 0; 0])]).1 /\
  roll_buffer_size
    (ticks small_widget
       [Some ([7; 8], [9; 10]); None; Some ([1; 2; 3; 4], [0; 0; 0; 0])]).1 = 3%nat /\
  is_streaming
    (ticks small_widget
       [Some ([7; 8], [9; 10]); None; Some ([1; 2; 3; 4], [0; 0; 0; 0])]).1 = true.
Proof.
  apply (ticks_keep_buffer_size
           [Some ([7; 8], [9; 10]); None; Some ([1; 2; 3; 4], [0; 0; 0; 0])]
           small_widget).
  - split; reflexivity.
  - constructor; [intros new_a new_b H; injection H as <- <-; reflexivity|].
    constructor; [intros new_a new_b H; discriminate H|].
    constructor; [intros new_a new_b H; injection H as <- <-; reflexivity|].
    constructor.
Defined.

(** X9.  Channels of different lengths.  When a fitting chunk has a
    channel B whose length differs from that of channel A (and is not
    1, which numpy would broadcast), the tick raises [ValueError] after
    having stored channel A: buffer A holds the new chunk while buffer B
    has only been rotated, its oldest samples now sitting at its end. *)
Theorem update_plot_channel_mismatch (self : Widget) (new_a new_b : list Q) :
  is_streaming self = true ->
  wf self ->
  (0 < length new_a)%nat ->
  (length new_a <= roll_buffer_size self)%nat ->
  length new_b <> length new_a ->
  length new_b <> 1%nat ->
  let n := length new_a in
  let r := update_plot self (Some (new_a, new_b)) in
  r.2 = Some (ValueError "could not broadcast input array") /\
  data_buffer_a r.1 = drop n (data_buffer_a self) ++ new_a /\
  data_buffer_b r.1 = drop n (data_buffer_b self) ++ take n (data_buffer_b self).
Proof.
  intros Hs [Ha Hb] Hpos Hle Hne H1 n r.
  assert (Hr : r = (set_buffers self
                      (drop n (data_buffer_a self) ++ new_a)
                      (drop n (data_buffer_b self) ++ take n (data_buffer_b self)),
                    Some (ValueError "could not broadcast input array"))).
  { unfold r, update_plot. rewrite Hs. cbn [negb].
    assert (E0 : (0 <? length new_a)%nat = true) by now apply Nat.ltb_lt.
    assert (E1 : (roll_buffer_size self <? length new_a)%nat = false)
      by (apply Nat.ltb_ge; lia).
    rewrite E0, E1.
    rewrite roll_then_assign by (rewrite ?Ha; assumption).
    rewrite (roll_left (data_buffer_b self)) by (rewrite ?Hb; assumption).
    fold n. unfold assign_tail.
    assert (Hlb : length (drop n (data_buffer_b self) ++ take n (data_buffer_b self))
                  = roll_buffer_size self).
    { rewrite length_app, length_drop, length_take, Hb. unfold n. lia. }
    rewrite Hlb.
    replace (roll_buffer_size self - (roll_buffer_size self - n))%nat with n
      by (unfold n; lia).
    assert (E2 : (length new_b =? n)%nat = false) by now apply Nat.eqb_neq.
    rewrite E2.
    destruct new_b as [|x [|y new_b]]; simpl in H1; try reflexivity.
    congruence. }
  rewrite Hr. cbn [fst snd set_buffers data_buffer_a data_buffer_b]. auto.
Qed.

Lemma update_plot_channel_mismatch_witness :
  let r := update_plot small_widget (Some ([7; 8], [9; 10; 11])) in
  r.2 = Some (ValueError "could not broadcast input array") /\
  data_buffer_a r.1 = [3; 7; 8] /\
  data_buffer_b r.1 = [6; 4; 5].
Proof.
  apply (update_plot_channel_mismatch small_widget [7; 8] [9; 10; 11]);
    try reflexivity; try (split; reflexivity); simpl; lia.
Defined.

(** X10.  Successive chunks compose: feeding a chunk and then a second
    one leaves the widget exactly as feeding their concatenation in one
    tick, as long as the two together fit in the buffer. *)
Theorem update_plot_chunks_compose
    (self : Widget) (a1 b1 a2 b2 : list Q) :
  is_streaming self = true ->
  wf self ->
  (0 < length a1)%nat ->
  (0 < length a2)%nat ->
  (length a1 + length a2 <= roll_buffer_size self)%nat ->
  length b1 = length a1 ->
  length b2 = length a2 ->
  update_plot (update_plot self (Some (a1, b1))).1 (Some (a2, b2)) =
  update_plot self (Some (a1 ++ a2, b1 ++ b2)).
Proof.
  intros Hs Hwf Hp1 Hp2 Hfit Hl1 Hl2. pose proof Hwf as [Ha Hb].
  rewrite (update_plot_chunk self a1 b1) by (auto; lia).
  cbn [fst].
  rewrite update_plot_chunk; cbn [set_buffers is_streaming roll_buffer_size
                                  data_buffer_a data_buffer_b]; auto; try lia.
  2: { unfold wf, set_buffers.
       cbn [data_buffer_a data_buffer_b roll_buffer_size].
       rewrite !length_app, !length_drop. lia. }
  rewrite (update_plot_chunk self (a1 ++ a2) (b1 ++ b2));
    rewrite ?length_app; auto; try lia.
  unfold set_buffers. cbn [is_streaming roll_buffer_size].
  rewrite !drop_app_le by (rewrite length_drop; lia).
  rewrite !drop_drop, <- !app_assoc.
  reflexivity.
Qed.

Lemma update_plot_chunks_compose_witness :
  update_plot (update_plot small_widget (Some ([7], [9]))).1 (Some ([8], [10])) =
  update_plot small_widget (Some ([7] ++ [8], [9] ++ [10])).
Proof.
  apply (update_plot_chunks_compose small_widget [7] [9] [8] [10]);
    try reflexivity; try (split; reflexivity); simpl; lia.
Defined.

End LiveView.

(** ** The wavelength dial (gui/widgets/live_plot.py) *)

Section Dial.
Import LiveControls.

(** X11.  The dial is read as an endless encoder.  For two positions in
    the dial's range [0..360], the difference [on_dial_moved] acts on is
    the signed turn between them taken the short way round: it lies in
    [-180..180] and differs from [val - last] by a multiple of 360.  The
    spin box is stepped up for a positive turn, down for a negative one
    and left alone otherwise, and the position is remembered. *)
Theorem on_dial_moved_short_way (last val : Z) :
  (0 <= last <= 360)%Z ->
  (0 <= val <= 360)%Z ->
  let d := dial_delta last val in
  (-180 <= d <= 180)%Z /\
  (exists k, d = val - last + 360 * k /\ -1 <= k <= 1)%Z /\
  (on_dial_moved last val).2 = val /\
  ((on_dial_moved last val).1 = StepUp <-> 0 < d)%Z /\
  ((on_dial_moved last val).1 = StepDown <-> d < 0)%Z /\
  ((on_dial_moved last val).1 = NoStep <-> d = 0)%Z.
Proof.
  intros Hl Hv d.
  assert (Hd : (-180 <= d <= 180)%Z /\
               (exists k, d = val - last + 360 * k /\ -1 <= k <= 1)%Z).
  { unfold d, dial_delta.
    destruct (Z.ltb_spec 180 (val - last)) as [H1|H1].
    - destruct (Z.ltb_spec (val - last - 360) (-180)) as [H2|H2]; [lia|].
      split; [lia|]. exists (-1)%Z. lia.
    - destruct (Z.ltb_spec (val - last) (-180)) as [H2|H2].
      + split; [lia|]. exists 1%Z. lia.
      + split; [lia|]. exists 0%Z. lia. }
  destruct Hd as [Hrange Hk]. split; [exact Hrange|]. split; [exact Hk|].
  unfold on_dial_moved. fold d. cbn [fst snd]. split; [reflexivity|].
  destruct (Z.ltb_spec 0 d) as [H1|H1]; [|destruct (Z.ltb_spec d 0) as [H2|H2]];
    repeat split; intros; try discriminate; try reflexivity; lia.
Qed.

Lemma on_dial_moved_short_way_witness :
  (-180 <= dial_delta 350 10 <= 180)%Z /\
  (exists k, dial_delta 350 10 = 10 - 350 + 360 * k /\ -1 <= k <= 1)%Z /\
  (on_dial_moved 350 10).2 = 10%Z /\
  ((on_dial_moved 350 10).1 = StepUp <-> 0 < dial_delta 350 10)%Z /\
  ((on_dial_moved 350 10).1 = StepDown <-> dial_delta 350 10 < 0)%Z /\
  ((on_dial_moved 350 10).1 = NoStep <-> dial_delta 350 10 = 0)%Z.
Proof.
  apply (on_dial_moved_short_way 350 10); lia.
Defined.

End Dial.

(** ** PicoScopeDriver outside of capture_block (drivers/scope.py) *)

Section PicoScopeFacts.
Import Numpy Scope PicoScope.

Lemma stop_streaming_flags (d : Driver) :
  streaming (stop_streaming d) = false /\
  connected (stop_streaming d) = connected d.
Proof. unfold stop_streaming. destruct (streaming d) eqn:E; auto. Qed.

Lemma configure_channels_drv (s : Pico) (channels : list (Channel * ChannelParams)) :
  drv (configure_channels s channels) = drv s.
Proof.
  unfold configure_channels. destruct (negb (connected (drv s))); [reflexivity|].
  revert s. induction channels as [|c channels IH]; intros s; [reflexivity|].
  simpl. now rewrite IH.
Qed.

(** X12.  The driver never streams without being connected: the
    property holds for a new driver, every method other than a failing
    [connect] keeps it, and [disconnect] from such a state leaves the
    driver neither connected nor streaming, so it always stops a running
    stream. *)
Theorem pico_streams_only_when_connected
    (s : Pico) (sdk : option OpenUnit) (l : Latest)
    (channels : list (Channel * ChannelParams)) :
  consistent (drv s) ->
  consistent (drv init) /\
  consistent (drv (start_streaming s)) /\
  consistent (stop_streaming (drv s)) /\
  consistent (drv (configure_channels s channels)) /\
  consistent (drv (get_streaming_values l s).2) /\
  (forall dev fuel d r ret,
     Scope.capture_block (drv s) dev fuel d r = Some ret ->
     consistent (driver_after ret)) /\
  ((connect sdk s).1 = Ok tt -> consistent (drv (connect sdk s).2)) /\
  connected (drv (disconnect s)) = false /\
  streaming (drv (disconnect s)) = false.
Proof.
  intros Hc. unfold consistent in *.
  split; [discriminate|]. split; [|split; [|split; [|split; [|split; [|split]]]]].
  - unfold start_streaming.
    destruct (connected (drv s)) eqn:Ec; cbn [negb orb];
      [|intros H; specialize (Hc H); discriminate].
    destruct (streaming (drv s)); cbn [drv connected]; auto.
  - destruct (stop_streaming_flags (drv s)) as [-> _]. discriminate.
  - now rewrite configure_channels_drv.
  - unfold get_streaming_values.
    destruct (streaming (drv s)) eqn:Es; cbn [negb snd]; [|now rewrite Es].
    destruct (callback l) as [[n i]|]; [destruct (0 <? n)%Z|];
      cbn [snd with_buffers drv]; auto.
  - intros dev fuel d r ret H. unfold Scope.capture_block in H.
    destruct (connected (drv s)) eqn:Ec; cbn [negb] in H.
    + destruct (wait_ready dev fuel 0) as [k|]; [|discriminate].
      assert (Hd : connected (if streaming (drv s)
                              then stop_streaming (drv s) else drv s) = true).
      { destruct (streaming (drv s)); [|exact Ec].
        destruct (stop_streaming_flags (drv s)) as [_ ->]. exact Ec. }
      destruct (py_int (d * r) <? 0)%Z; injection H as <-;
        cbn [driver_after]; intros _; exact Hd.
    + injection H as <-. cbn [driver_after].
      intros H; specialize (Hc H); discriminate.
  - unfold connect.
    destruct sdk as [u|]; cbn [fst snd]; [|discriminate].
    destruct (assert_pico_ok u (openunit u)); cbn [fst snd drv connected]; auto.
    destruct ((openunit u =? 286)%Z || (openunit u =? 282)%Z);
      [|discriminate].
    destruct (assert_pico_ok u (changePowerSource u));
      cbn [mbind result_bind fst snd drv connected]; auto; discriminate.
  - unfold disconnect. cbn [drv with_drv connected streaming]. split; [reflexivity|].
    destruct (connected (drv s)) eqn:Ec; cbn [drv with_drv].
    + apply stop_streaming_flags.
    + destruct (streaming (drv s)) eqn:Es; [|reflexivity].
      specialize (Hc eq_refl). congruence.
Qed.

Lemma pico_streams_only_when_connected_witness :
  consistent (drv init) /\
  consistent (drv (start_streaming pico_streaming)) /\
  consistent (stop_streaming (drv pico_streaming)) /\
  consistent (drv (configure_channels pico_streaming a_5V_b_1V)) /\
  consistent (drv (get_streaming_values two_samples pico_streaming).2) /\
  (forall dev fuel d r ret,
     Scope.capture_block (drv pico_streaming) dev fuel d r = Some ret ->
     consistent (driver_after ret)) /\
  ((connect None pico_streaming).1 = Ok tt ->
   consistent (drv (connect None pico_streaming).2)) /\
  connected (drv (disconnect pico_streaming)) = false /\
  streaming (drv (disconnect pico_streaming)) = false.
Proof.
  apply (pico_streams_only_when_connected pico_streaming None two_samples a_5V_b_1V).
  intros _. reflexivity.
Defined.

Lemma length_slice {A} (a : list A) (start stop : nat) :
  length (slice a start stop) = (Nat.min (stop - start) (length a - start))%nat.
Proof. unfold slice. now rewrite length_take, length_drop. Qed.

Lemma length_to_volts (s : Pico) (raw : list Z) :
  length (to_volts s raw) = length raw.
Proof. unfold to_volts, adc2mV. now rewrite !length_map. Qed.

(** What a poll returns: two arrays of the same length. *)
Lemma get_streaming_values_lengths (l : Latest) (s : Pico) :
  length (bufferAMax s) = length (bufferBMax s) ->
  length (get_streaming_values l s).1.1 = length (get_streaming_values l s).1.2.
Proof.
  intros Hbuf. unfold get_streaming_values.
  destruct (streaming (drv s)); cbn [negb fst snd]; [|reflexivity].
  destruct (callback l) as [[n i]|]; [|reflexivity].
  destruct (0 <? n)%Z; cbn [fst snd]; [|reflexivity].
  rewrite !length_to_volts, !length_slice. cbn [bufferAMax bufferBMax with_buffers].
  rewrite !length_imap. now rewrite Hbuf.
Qed.

(** X13.  Polling the stream.  As long as the two driver buffers have
    the same length, which [start_streaming] establishes (10000 samples
    each) and every poll keeps, [get_streaming_values] returns two
    arrays of equal length, with at most [noOfSamples] samples and never
    more than the buffer holds; it returns two empty arrays when the
    driver is not streaming, when the SDK did not call back, and when
    it reported no sample. *)
Theorem get_streaming_values_well_formed (l : Latest) (s : Pico) :
  length (bufferAMax s) = length (bufferBMax s) ->
  let r := get_streaming_values l s in
  length r.1.1 = length r.1.2 /\
  (length r.1.1 <= length (bufferAMax s))%nat /\
  (forall n i, callback l = Some (n, i) ->
     (Z.of_nat (length r.1.1) <= Z.max 0 n)%Z) /\
  (streaming (drv s) = false -> r.1 = ([], [])) /\
  (callback l = None -> r.1 = ([], [])) /\
  (forall n i, callback l = Some (n, i) -> (n <= 0)%Z -> r.1 = ([], [])) /\
  length (bufferAMax r.2) = length (bufferBMax r.2) /\
  length (bufferAMax (start_streaming s)) = length (bufferBMax (start_streaming s)) /\
  (connected (drv s) = true -> streaming (drv s) = false ->
     length (bufferAMax (start_streaming s)) = Z.to_nat 10000).
Proof.
  intros Hbuf r.
  split; [now apply get_streaming_values_lengths|].
  unfold r, get_streaming_values.
  destruct (streaming (drv s)) eqn:Es; cbn [negb].
  - destruct (callback l) as [[n i]|] eqn:Ecb.
    + destruct (Z.ltb_spec 0 n) as [Hn|Hn]; cbn [fst snd].
      * rewrite !length_to_volts, !length_slice.
        cbn [bufferAMax bufferBMax with_buffers]. rewrite !length_imap.
        split; [lia|]. split; [intros n' i' [= <- <-]; lia|].
        split; [discriminate|]. split; [discriminate|].
        split; [intros n' i' [= <- <-]; lia|]. split; [exact Hbuf|].
        unfold start_streaming. rewrite Es, orb_true_r.
        split; [exact Hbuf|]. discriminate.
      * cbn [length bufferAMax bufferBMax with_buffers]. rewrite !length_imap.
        split; [lia|]. split; [intros n' i' [= <- <-]; lia|].
        split; [reflexivity|]. split; [reflexivity|].
        split; [reflexivity|]. split; [exact Hbuf|].
        unfold start_streaming. rewrite Es, orb_true_r.
        split; [exact Hbuf|]. discriminate.
    + cbn [fst snd length bufferAMax bufferBMax with_buffers].
      rewrite !length_imap.
      split; [lia|]. split; [discriminate|].
      split; [reflexivity|]. split; [reflexivity|].
      split; [reflexivity|]. split; [exact Hbuf|].
      unfold start_streaming. rewrite Es, orb_true_r.
      split; [exact Hbuf|]. discriminate.
  - cbn [fst snd length].
    split; [lia|]. split; [intros; lia|].
    split; [reflexivity|]. split; [reflexivity|].
    split; [reflexivity|]. split; [exact Hbuf|].
    unfold start_streaming. rewrite Es.
    destruct (connected (drv s)); cbn [negb orb bufferAMax bufferBMax].
    + split; [reflexivity|]. intros _ _. apply length_replicate.
    + split; [exact Hbuf|]. discriminate.
Qed.

Lemma get_streaming_values_well_formed_witness :
  let r := get_streaming_values two_samples pico_streaming in
  length r.1.1 = length r.1.2 /\
  (length r.1.1 <= 4)%nat /\
  (forall n i, Some (2%Z, 1%nat) = Some (n, i) ->
     (Z.of_nat (length r.1.1) <= Z.max 0 n)%Z) /\
  (true = false -> r.1 = ([], [])) /\
  (Some (2%Z, 1%nat) = None -> r.1 = ([], [])) /\
  (forall n i, Some (2%Z, 1%nat) = Some (n, i) -> (n <= 0)%Z -> r.1 = ([], [])) /\
  length (bufferAMax r.2) = length (bufferBMax r.2) /\
  length (bufferAMax (start_streaming pico_streaming))
    = length (bufferBMax (start_streaming pico_streaming)) /\
  (true = true -> true = false ->
     length (bufferAMax (start_streaming pico_streaming)) = Z.to_nat 10000).
Proof.
  apply (get_streaming_values_well_formed two_samples pico_streaming).
  reflexivity.
Defined.

(** X14.  The range requested for a channel is rounded down to a
    standard range, never up: the range selected is the largest of 5 V,
    2 V, 1 V and 500 mV that does not exceed the request, so a request
    between two standard ranges gets less than it asked for, every
    request of 5 V or more gets 5 V, and every request below 500 mV
    gets 500 mV. *)
Theorem range_code_rounds_down (v_range : Q) :
  (1 # 2 <= v_range -> full_scale (range_code v_range) <= v_range) /\
  (forall r, full_scale r <= v_range ->
     full_scale r <= full_scale (range_code v_range)) /\
  (5 <= v_range -> range_code v_range = PS5000A_5V) /\
  (v_range < 1 -> range_code v_range = PS5000A_500MV) /\
  (forall r, full_scale r < v_range -> v_range < 5 ->
     (forall r', ~ (full_scale r' == v_range)) ->
     full_scale (range_code v_range) < v_range).
Proof.
  assert (Hcase : (5 <= v_range /\ range_code v_range = PS5000A_5V) \/
                  (2 <= v_range /\ v_range < 5 /\ range_code v_range = PS5000A_2V) \/
                  (1 <= v_range /\ v_range < 2 /\ range_code v_range = PS5000A_1V) \/
                  (v_range < 1 /\ range_code v_range = PS5000A_500MV)).
  { unfold range_code.
    destruct (Qle_bool 5 v_range) eqn:E5.
    { left. now apply Qle_bool_iff in E5. }
    assert (H5 : v_range < 5).
    { apply Qnot_le_lt. rewrite <- Qle_bool_iff. congruence. }
    destruct (Qle_bool 2 v_range) eqn:E2.
    { right; left. now apply Qle_bool_iff in E2. }
    assert (H2 : v_range < 2).
    { apply Qnot_le_lt. rewrite <- Qle_bool_iff. congruence. }
    destruct (Qle_bool 1 v_range) eqn:E1.
    { right; right; left. now apply Qle_bool_iff in E1. }
    right; right; right. split; [|reflexivity].
    apply Qnot_le_lt. rewrite <- Qle_bool_iff. congruence. }
  split; [|split; [|split; [|split]]].
  - intros Hhalf.
    destruct Hcase as [[H ->]|[(H & _ & ->)|[(H & _ & ->)|[H ->]]]];
      cbn [full_scale]; lra.
  - intros r Hr.
    destruct Hcase as [[H ->]|[(H & H' & ->)|[(H & H' & ->)|[H ->]]]];
      destruct r; cbn [full_scale] in *; lra.
  - intros H5.
    destruct Hcase as [[H ->]|[(H & H' & ->)|[(H & H' & ->)|[H ->]]]];
      try reflexivity; lra.
  - intros H1.
    destruct Hcase as [[H ->]|[(H & H' & ->)|[(H & H' & ->)|[H ->]]]];
      try reflexivity; lra.
  - intros r Hr H5 Hne.
    pose proof (Hne PS5000A_2V) as N2. pose proof (Hne PS5000A_1V) as N1.
    pose proof (Hne PS5000A_500MV) as N0. cbn [full_scale] in N2, N1, N0.
    destruct Hcase as [[H ->]|[(H & H' & ->)|[(H & H' & ->)|[H ->]]]];
      destruct r; cbn [full_scale] in *; lra.
Qed.

Lemma range_code_rounds_down_witness :
  full_scale (range_code 3) <= 3 /\
  range_code 3 = PS5000A_2V /\
  full_scale (range_code 3) < 3.
Proof.
  destruct (range_code_rounds_down 3) as (Hle & _ & _ & _ & Hlt).
  split; [apply Hle; discriminate|]. split; [reflexivity|].
  apply (Hlt PS5000A_2V); [reflexivity | reflexivity |].
  intros [] H; discriminate H.
Defined.

Lemma fold_configure_channel_last (channels : list (Channel * ChannelParams)) :
  forall (s : Pico) (c : Channel * ChannelParams),
    last channels = Some c ->
    channel_range (fold_left configure_channel channels s)
      = range_code (default 5 (range c.2)).
Proof.
  induction channels as [|c0 channels IH]; intros s c Hlast; [discriminate|].
  destruct channels as [|c1 channels].
  - injection Hlast as <-. reflexivity.
  - cbn [fold_left]. apply (IH _ c). exact Hlast.
Qed.

Lemma fold_configure_channel_fields (channels : list (Channel * ChannelParams)) :
  forall s : Pico,
    maxADC (fold_left configure_channel channels s) = maxADC s /\
    bufferAMax (fold_left configure_channel channels s) = bufferAMax s /\
    bufferBMax (fold_left configure_channel channels s) = bufferBMax s /\
    length (set_channel_calls (fold_left configure_channel channels s))
      = (length (set_channel_calls s) + length channels)%nat.
Proof.
  induction channels as [|c channels IH]; intros s; cbn [fold_left length].
  - repeat split; lia.
  - destruct (IH (configure_channel s c)) as (-> & -> & -> & ->).
    cbn [configure_channel maxADC bufferAMax bufferBMax set_channel_calls].
    rewrite length_app. cbn [length]. repeat split; lia.
Qed.

(** X15.  The driver keeps a single conversion range.  On a connected
    scope [configure_channels] makes one SDK call per channel and then
    remembers only the range of the channel configured last; the
    samples of both channels are converted to volts with that range,
    whatever range the other channel was given.  On a scope that is not
    connected it does nothing. *)
Theorem configure_channels_keeps_last_range
    (s : Pico) (channels : list (Channel * ChannelParams))
    (c : Channel * ChannelParams) (l : Latest) :
  last channels = Some c ->
  let r_last := range_code (default 5 (range c.2)) in
  let s' := configure_channels s channels in
  (connected (drv s) = true ->
     channel_range s' = r_last /\
     length (set_channel_calls s')
       = (length (set_channel_calls s) + length channels)%nat /\
     forall n i, streaming (drv s) = true ->
       callback l = Some (n, i) -> (0 < n)%Z ->
       let stop := (i + Z.to_nat n)%nat in
       (get_streaming_values l s').1 =
         (map (fun mv => mv / 1000)
            (adc2mV (slice (imap (written_A l) (bufferAMax s)) i stop)
               r_last (maxADC s)),
          map (fun mv => mv / 1000)
            (adc2mV (slice (imap (written_B l) (bufferBMax s)) i stop)
               r_last (maxADC s)))) /\
  (connected (drv s) = false -> s' = s).
Proof.
  intros Hlast r_last s'. split.
  - intros Hc.
    assert (Hs' : s' = fold_left configure_channel channels s).
    { unfold s', configure_channels. now rewrite Hc. }
    destruct (fold_configure_channel_fields channels s) as (Hm & Ha & Hb & Hn).
    assert (Hr : channel_range s' = r_last).
    { rewrite Hs'. now apply fold_configure_channel_last. }
    split; [exact Hr|]. split; [now rewrite Hs'|].
    intros n i Hstr Hcb Hn0 stop.
    unfold get_streaming_values.
    assert (Hd : drv s' = drv s) by apply configure_channels_drv.
    rewrite Hd, Hstr. cbn [negb]. rewrite Hcb.
    apply Z.ltb_lt in Hn0. rewrite Hn0. cbn [fst].
    unfold to_volts. cbn [channel_range maxADC bufferAMax bufferBMax with_buffers].
    rewrite Hr. rewrite Hs', Hm, Ha, Hb. reflexivity.
  - intros Hc. unfold s', configure_channels. now rewrite Hc.
Qed.

Lemma configure_channels_keeps_last_range_witness :
  channel_range (configure_channels pico_streaming a_5V_b_1V) = PS5000A_1V /\
  length (set_channel_calls (configure_channels pico_streaming a_5V_b_1V)) = 2%nat /\
  (get_streaming_values two_samples
     (configure_channels pico_streaming a_5V_b_1V)).1 =
    (map (fun mv => mv / 1000) (adc2mV [1; 2]%Z PS5000A_1V 32512),
     map (fun mv => mv / 1000) (adc2mV [-1; -2]%Z PS5000A_1V 32512)).
Proof.
  destruct (configure_channels_keeps_last_range pico_streaming a_5V_b_1V
              (ChannelB, {| enabled := None; range := Some 1 |}) two_samples
              eq_refl) as [H _].
  destruct (H eq_refl) as (Hr & Hn & Hv).
  split; [exact Hr|]. split; [exact Hn|].
  apply (Hv 2%Z 1%nat); [reflexivity | reflexivity | lia].
Defined.

End PicoScopeFacts.

(** ** SantecLaserDriver (drivers/laser.py) *)

Section SantecFacts.
Import Numpy Mapping DataManager Engine SantecLaser.

Lemma call_disconnected (visa : Visa) (c : LaserCmd) (s : Driver) :
  connected s = false -> call visa c s = (None, s).
Proof. intros H. unfold call. now rewrite H. Qed.

Lemma write_all_flags (visa : Visa) (cmds : list Scpi) :
  forall s : Driver,
    connected (write_all visa cmds s).2 = connected s /\
    resource (write_all visa cmds s).2 = resource s /\
    session_open (write_all visa cmds s).2 = session_open s /\
    opened (write_all visa cmds s).2 = opened s.
Proof.
  induction cmds as [|c cmds IH]; intros s; cbn [write_all snd]; [auto|].
  unfold resource_write. destruct (write visa c); cbn [snd]; [auto|].
  destruct (IH {| connected := connected s; resource := resource s;
                  session_open := session_open s; timeout := timeout s;
                  opened := opened s; written := written s ++ [c] |})
    as (-> & -> & -> & ->). auto.
Qed.

Lemma write_all_ok (visa : Visa) (cmds : list Scpi) :
  (forall c, write visa c = None) ->
  forall s : Driver,
    (write_all visa cmds s).1 = None /\
    written (write_all visa cmds s).2 = written s ++ cmds.
Proof.
  intros Hw. induction cmds as [|c cmds IH]; intros s; cbn [write_all fst snd].
  - now rewrite app_nil_r.
  - unfold resource_write. rewrite Hw.
    destruct (IH {| connected := connected s; resource := resource s;
                    session_open := session_open s; timeout := timeout s;
                    opened := opened s; written := written s ++ [c] |})
      as (-> & ->).
    cbn [written]. now rewrite <- app_assoc.
Qed.

(** X16.  [connect] over LAN needs both [ip] and [port]: when the
    config selects the LAN interface and lacks one of them, a new driver
    raises [InstrumentConnectionError] whose text names the missing key,
    opens no VISA resource and stays disconnected. *)
Theorem santec_connect_lan_missing_key (visa : Visa) (config : Config) :
  resource_manager visa = None ->
  config !! "interface" = Some (VStr "LAN") ->
  config !! "ip" = None \/ config !! "port" = None ->
  exists key,
    (key = "ip" \/ key = "port") /\
    config !! key = None /\
    connect visa config init =
      (Raise (InstrumentConnectionError
                ("Failed to connect to Santec Laser: '" +:+ key +:+ "'")),
       init).
Proof.
  intros Hrm Hlan Hmiss.
  assert (Hl : is_lan config = true) by (unfold is_lan; now rewrite Hlan).
  unfold connect, connect_attempt, resource_name. rewrite Hrm, Hl.
  destruct (config !! "ip") as [ip|] eqn:Eip.
  - destruct Hmiss as [H|Hport]; [discriminate|]. rewrite Hport.
    exists "port". split; [now right|]. split; [exact Hport | reflexivity].
  - exists "ip". split; [now left|]. split; [exact Eip | reflexivity].
Qed.

Lemma santec_connect_lan_missing_key_witness :
  exists key,
    (key = "ip" \/ key = "port") /\
    lan_without_port !! key = None /\
    connect visa_ok lan_without_port init =
      (Raise (InstrumentConnectionError
                ("Failed to connect to Santec Laser: '" +:+ key +:+ "'")),
       init).
Proof.
  apply (santec_connect_lan_missing_key visa_ok lan_without_port);
    [reflexivity | reflexivity | right; reflexivity].
Defined.

(** Every interface other than "LAN", a missing one included, is
    treated as GPIB, and a config without [address] falls back to
    [GPIB0::10::INSTR]: when VISA answers, the driver opens that
    resource, selects nanometres and ends up connected. *)
Lemma santec_connect_defaults_to_gpib (visa : Visa) (config : Config) :
  config !! "interface" <> Some (VStr "LAN") ->
  resource_manager visa = None ->
  (forall name, open_resource visa name = None) ->
  (exists idn, query visa "*IDN?" = Ok idn) ->
  write visa (Plain ":WAVelength:UNIT 0") = None ->
  let name := format (default (VStr "GPIB0::10::INSTR") (config !! "address")) in
  connect visa config init =
    (Ok tt,
     {| connected := true; resource := Some name; session_open := true;
        timeout := None; opened := [name];
        written := [Plain ":WAVelength:UNIT 0"] |}) /\
  (config !! "address" = None -> name = "GPIB0::10::INSTR").
Proof.
  intros Hif Hrm Hopen [idn Hq] Hw name.
  assert (Hl : is_lan config = false).
  { unfold is_lan. destruct (config !! "interface") as [[i|n]|] eqn:E; auto.
    destruct (String.eqb_spec i "LAN") as [->|]; [congruence | reflexivity]. }
  split.
  - unfold connect, connect_attempt, resource_name, resource_write.
    rewrite Hrm, Hl. fold name. cbn [opened init app].
    rewrite Hopen, Hq, Hw. reflexivity.
  - intros Ha. unfold name. now rewrite Ha.
Qed.

Lemma santec_connect_defaults_to_gpib_witness :
  connect visa_ok gpib_bare init =
    (Ok tt,
     {| connected := true; resource := Some "GPIB0::10::INSTR";
        session_open := true; timeout := None; opened := ["GPIB0::10::INSTR"];
        written := [Plain ":WAVelength:UNIT 0"] |}).
Proof.
  destruct (santec_connect_defaults_to_gpib visa_ok gpib_bare) as [H _].
  - vm_compute. discriminate.
  - reflexivity.
  - intros name. reflexivity.
  - now exists "SANTEC,TSL-550,0,0".
  - reflexivity.
  - exact H.
Defined.

(** X17.  [disconnect] shuts the laser down and silences the driver.
    On a connected driver whose writes succeed it stops the sweep,
    closes the shutter and switches the diode off, in that order, and
    closes the session.  Whatever the state before and whatever VISA
    raises on the way, the driver is disconnected afterwards and every
    later command method returns without writing anything. *)
Theorem santec_disconnect_shuts_down (visa : Visa) (s : Driver) :
  connected (disconnect visa s) = false /\
  (forall c, call visa c (disconnect visa s) = (None, disconnect visa s)) /\
  (forall w, set_wavelength visa w (disconnect visa s)
             = (None, disconnect visa s)) /\
  (connected s = true -> resource s <> None ->
   (forall c, write visa c = None) -> close visa = None ->
     written (disconnect visa s) =
       written s ++ [Plain ":WAV:SWE 0"; Plain ":POW:SHUT 1";
                     Plain ":POWer:STATe 0"] /\
     session_open (disconnect visa s) = false).
Proof.
  assert (Hoff : connected (disconnect visa s) = false) by reflexivity.
  split; [exact Hoff|]. split; [|split].
  - intros c. now apply call_disconnected.
  - intros w. unfold set_wavelength. now rewrite Hoff.
  - intros Hc Hres Hw Hcl. unfold disconnect.
    destruct (resource s) as [name|] eqn:Er; [|congruence].
    unfold call. rewrite Hc. cbn [negb].
    destruct (write_all_ok visa (commands StopSweep) Hw s) as [H1 H1w].
    destruct (write_all_flags visa (commands StopSweep) s) as (H1c & _).
    destruct (write_all visa (commands StopSweep) s) as [r1 s1].
    cbn [fst snd] in *. subst r1. rewrite H1c, Hc. cbn [negb].
    destruct (write_all_ok visa (commands TurnOff) Hw s1) as [H2 H2w].
    destruct (write_all visa (commands TurnOff) s1) as [r2 s2].
    cbn [fst snd] in *. subst r2.
    unfold resource_close. rewrite Hcl.
    cbn [snd set_connected written session_open].
    rewrite H2w, H1w. cbn [commands]. rewrite <- app_assoc.
    split; reflexivity.
Qed.

Lemma santec_disconnect_shuts_down_witness :
  connected (disconnect visa_ok santec_connected) = false /\
  call visa_ok TurnOn (disconnect visa_ok santec_connected)
    = (None, disconnect visa_ok santec_connected) /\
  written (disconnect visa_ok santec_connected) =
    [Plain ":WAVelength:UNIT 0"] ++
    [Plain ":WAV:SWE 0"; Plain ":POW:SHUT 1"; Plain ":POWer:STATe 0"] /\
  session_open (disconnect visa_ok santec_connected) = false.
Proof.
  destruct (santec_disconnect_shuts_down visa_ok santec_connected)
    as (H1 & H2 & _ & H4).
  destruct H4 as [Hw Hs]; try reflexivity; [discriminate|].
  split; [exact H1|]. split; [apply H2|]. split; [exact Hw | exact Hs].
Defined.

End SantecFacts.

(** ** MeasurementEngine: choosing and connecting the drivers
    (core/engine.py) *)

Section EngineDrivers.
Import Numpy Mapping DataManager Engine Initialize.

Lemma santec_connect_flag (visa : SantecLaser.Visa) (config : SantecLaser.Config)
    (s : SantecLaser.Driver) :
  SantecLaser.connected (SantecLaser.connect visa config s).2
  = match (SantecLaser.connect visa config s).1 with
    | Ok _ => true
    | Raise _ => false
    end.
Proof.
  unfold SantecLaser.connect.
  destruct (SantecLaser.connect_attempt visa config s) as [s' [f|]] eqn:E.
  - cbn [SantecLaser.resource SantecLaser.set_connected].
    destruct (SantecLaser.resource s'); [|reflexivity].
    unfold SantecLaser.resource_close.
    destruct (SantecLaser.close visa); reflexivity.
  - cbn [fst snd]. unfold SantecLaser.connect_attempt in E.
    destruct (SantecLaser.resource_manager visa); [discriminate|].
    destruct (SantecLaser.resource_name config); [discriminate|].
    destruct (SantecLaser.open_resource visa _); [discriminate|].
    destruct (SantecLaser.query visa _); [|discriminate].
    unfold SantecLaser.resource_write in E.
    destruct (SantecLaser.write visa _); [discriminate|].
    injection E as <-. reflexivity.
Qed.

Lemma pico_connect_flag (sdk : option PicoScope.OpenUnit) (s : PicoScope.Pico) :
  Scope.connected (PicoScope.drv (PicoScope.connect sdk s).2)
  = match (PicoScope.connect sdk s).1 with
    | Ok _ => true
    | Raise _ => false
    end.
Proof.
  unfold PicoScope.connect.
  match goal with
  | |- context [match ?b with Ok m => _ | Raise e => _ end] => destruct b
  end; reflexivity.
Qed.

Lemma laser_disconnect_off (hw : Hardware) (o : LaserObj) :
  laser_is_connected (laser_disconnect hw o) = false.
Proof. destruct o; reflexivity. Qed.

Lemma scope_disconnect_off (o : ScopeObj) :
  scope_is_connected (scope_disconnect o) = false.
Proof. destruct o; reflexivity. Qed.

(** X18.  Offline mode always connects.  With [force_mock] set,
    [initialize_drivers] returns [(True, "Connected successfully")]
    whatever the configs, the hardware and the engine's previous state:
    the engine then holds a connected mock laser and a connected, idle
    mock scope, [mock_mode] is set, and the drivers it held before have
    been disconnected. *)
Theorem initialize_drivers_force_mock
    (hw : Hardware) (self : MeasurementEngine)
    (laser_config scope_config : SantecLaser.Config) :
  let r := initialize_drivers hw self laser_config scope_config true in
  returned r = (true, "Connected successfully") /\
  engine r = {| laser := Some (MockLaser true);
                scope := Some (MockScope true false);
                mock_mode := true |} /\
  (forall o, old_laser r = Some o -> laser_is_connected o = false) /\
  (forall o, old_scope r = Some o -> scope_is_connected o = false) /\
  (forall o, laser self = Some o -> old_laser r <> None) /\
  (forall o, scope self = Some o -> old_scope r <> None).
Proof.
  intros r. unfold r, initialize_drivers. cbn.
  split; [reflexivity|]. split; [reflexivity|]. split; [|split; [|split]].
  - intros o H. destruct (laser self); [|discriminate].
    injection H as <-. apply laser_disconnect_off.
  - intros o H. destruct (scope self); [|discriminate].
    injection H as <-. apply scope_disconnect_off.
  - intros o ->. discriminate.
  - intros o ->. discriminate.
Qed.

(** X19.  With the real drivers [initialize_drivers] never raises: a
    failed connection comes back as [(False, text of the exception)].
    The engine always ends up holding new drivers, the old ones having
    been disconnected.  When the laser fails, the scope is not tried and
    stays untouched; when the laser connects and the scope fails, the
    call reports failure but the laser stays connected.  The call
    returns [True] exactly when both new drivers are connected. *)
Theorem initialize_drivers_real_outcomes
    (hw : Hardware) (self : MeasurementEngine)
    (laser_config scope_config : SantecLaser.Config) :
  let r := initialize_drivers hw self laser_config scope_config false in
  let lr := SantecLaser.connect (visa hw) laser_config SantecLaser.init in
  let sr := PicoScope.connect (sdk hw) PicoScope.init in
  mock_mode (engine r) = false /\
  laser (engine r) = Some (Santec lr.2) /\
  (forall o, old_laser r = Some o -> laser_is_connected o = false) /\
  (forall o, old_scope r = Some o -> scope_is_connected o = false) /\
  (forall e, lr.1 = Raise e ->
     returned r = (false, exn_str e) /\
     scope (engine r) = Some (Pico PicoScope.init) /\
     SantecLaser.connected lr.2 = false) /\
  (forall e, lr.1 = Ok tt -> sr.1 = Raise e ->
     returned r = (false, exn_str e) /\
     scope (engine r) = Some (Pico sr.2) /\
     SantecLaser.connected lr.2 = true /\
     Scope.connected (PicoScope.drv sr.2) = false) /\
  (lr.1 = Ok tt -> sr.1 = Ok tt ->
     returned r = (true, "Connected successfully") /\
     scope (engine r) = Some (Pico sr.2)) /\
  ((returned r).1 = true <->
   SantecLaser.connected lr.2 = true /\
   Scope.connected (PicoScope.drv sr.2) = true).
Proof.
  intros r lr sr.
  pose proof (santec_connect_flag (visa hw) laser_config SantecLaser.init) as Hlf.
  pose proof (pico_connect_flag (sdk hw) PicoScope.init) as Hsf.
  fold lr in Hlf. fold sr in Hsf.
  unfold r, initialize_drivers. cbn [laser_connect scope_connect].
  fold lr. fold sr.
  destruct lr as [[[]|el] ls]; destruct sr as [[[]|es] ss];
    cbn [fst snd] in *; cbn [returned engine mock_mode laser scope old_laser
                              old_scope fst snd].
  all: split; [reflexivity|]; split; [reflexivity|].
  all: split;
    [intros o H; destruct (laser self); [|discriminate];
     injection H as <-; apply laser_disconnect_off|].
  all: split;
    [intros o H; destruct (scope self); [|discriminate];
     injection H as <-; apply scope_disconnect_off|].
  all: split; [intros e H; try discriminate H; injection H as <-; auto|].
  all: split; [intros e H1 H2; try discriminate H1; try discriminate H2;
               injection H2 as <-; auto|].
  all: split; [intros H1 H2; try discriminate H1; try discriminate H2; auto|].
  all: rewrite Hlf, Hsf; split; [intros H; try discriminate H; auto|];
       intros [H1 H2]; try discriminate H1; try discriminate H2; reflexivity.
Qed.

Lemma initialize_drivers_real_outcomes_witness :
  let r := initialize_drivers laser_only_hw mock_engine gpib_bare ∅ false in
  returned r = (false, "PicoScope Error: PicoScope not found") /\
  SantecLaser.connected
    (SantecLaser.connect visa_ok gpib_bare SantecLaser.init).2 = true /\
  Scope.connected
    (PicoScope.drv (PicoScope.connect (Some sdk_not_found) PicoScope.init).2)
    = false /\
  old_laser r = Some (MockLaser false).
Proof.
  destruct (initialize_drivers_real_outcomes laser_only_hw mock_engine gpib_bare ∅)
    as (_ & _ & _ & _ & _ & H & _).
  destruct (H (InstrumentConnectionError "PicoScope Error: PicoScope not found"))
    as (Hret & _ & Hl & Hs); [reflexivity | reflexivity |].
  split; [exact Hret|]. split; [exact Hl|]. split; [exact Hs | reflexivity].
Defined.

(** X20.  A sweep started before any driver was chosen (the connection
    dialog was cancelled): the first laser call fails on [None], the run
    reports that error text right after "Configuring Laser..." and
    ends; nothing is captured or saved. *)
Theorem run_without_drivers
    (hw : Hardware) (self : MeasurementEngine)
    (digitizer : Q -> Q -> result Capture) (noise : nat -> Q)
    (cwd ts : string) (p : SweepParams) (fs0 : FS) :
  laser self = None ->
  let w := run (start_sweep hw self digitizer noise cwd ts) p fs0 in
  events w =
    [StatusUpdate "Configuring Laser..."; LaserCall (SetPower (power_dbm p));
     ErrorOccurred "'NoneType' object has no attribute 'set_power'";
     LaserCall StopSweep] /\
  fs w = fs0.
Proof.
  intros Hnone w. unfold w, events, run, run_body, start_sweep.
  unfold mbind, M_bind, mret, M_ret, emit, Engine.laser, raise, log.
  cbn [trace fs laser_raises]. rewrite Hnone. split; reflexivity.
Qed.

Lemma run_without_drivers_witness :
  events (run (start_sweep bench_hw init bench_digitizer no_noise "/lab"
                 "20240101_120000") sweep_1550 open_fs) =
    [StatusUpdate "Configuring Laser..."; LaserCall (SetPower 0);
     ErrorOccurred "'NoneType' object has no attribute 'set_power'";
     LaserCall StopSweep] /\
  fs (run (start_sweep bench_hw init bench_digitizer no_noise "/lab"
             "20240101_120000") sweep_1550 open_fs) = open_fs.
Proof.
  apply (run_without_drivers bench_hw init bench_digitizer no_noise "/lab"
           "20240101_120000" sweep_1550 open_fs).
  reflexivity.
Defined.

(** X21.  A sweep after a failed connection.  When the laser could not
    be connected, the engine is left with a Santec driver and a
    PicoScope driver that are both disconnected.  A sweep started then
    goes through every laser call without writing a single command
    (each method returns at once), and ends with the error
    "Not connected" raised by [capture_block]. *)
Theorem sweep_after_failed_connection
    (hw : Hardware) (self : MeasurementEngine)
    (laser_config scope_config : SantecLaser.Config)
    (digitizer : Q -> Q -> result Capture) (noise : nat -> Q)
    (cwd ts : string) (p : SweepParams) (fs0 : FS) (e : exn) :
  (SantecLaser.connect (visa hw) laser_config SantecLaser.init).1 = Raise e ->
  Qeq_bool (speed_nm_s p) 0 = false ->
  let r := initialize_drivers hw self laser_config scope_config false in
  let w := run (start_sweep hw (engine r) digitizer noise cwd ts) p fs0 in
  returned r = (false, exn_str e) /\
  (forall d c, laser (engine r) = Some (Santec d) ->
     SantecLaser.call (visa hw) c d = (None, d)) /\
  events w =
    [StatusUpdate "Configuring Laser..."; LaserCall (SetPower (power_dbm p));
     LaserCall (SetSweepParams (start_nm p) (end_nm p) (speed_nm_s p));
     StatusUpdate "Arming Trigger..."; LaserCall TurnOn;
     Sleep (1 # 2); StatusUpdate "Acquiring..."; TriggerThreadStart;
     CaptureBlock (duration p) 100000;
     ErrorOccurred "Not connected"; LaserCall StopSweep] /\
  fs w = fs0.
Proof.
  intros Hfail Hs r w.
  pose proof (santec_connect_flag (visa hw) laser_config SantecLaser.init) as Hflag.
  rewrite Hfail in Hflag.
  assert (Hr : returned r = (false, exn_str e) /\
               engine r =
                 {| laser := Some (Santec (SantecLaser.connect (visa hw)
                                             laser_config SantecLaser.init).2);
                    scope := Some (Pico PicoScope.init);
                    mock_mode := false |}).
  { unfold r, initialize_drivers. cbn [laser_connect].
    destruct (SantecLaser.connect (visa hw) laser_config SantecLaser.init)
      as [res ls]. cbn [fst snd] in *. subst res. split; reflexivity. }
  destruct Hr as [Hret Heng]. split; [exact Hret|].
  assert (Hcall : forall d c, laser (engine r) = Some (Santec d) ->
                              SantecLaser.call (visa hw) c d = (None, d)).
  { intros d c Hd. rewrite Heng in Hd. cbn [laser] in Hd. injection Hd as <-.
    apply call_disconnected. exact Hflag. }
  split; [exact Hcall|].
  unfold w.
  rewrite (run_capture_failure_world _ p fs0
             (InstrumentConnectionError "Not connected")).
  - split; reflexivity.
  - intros c. cbn [start_sweep laser_raises]. rewrite Heng.
    cbn [laser laser_call]. now rewrite call_disconnected.
  - exact Hs.
  - cbn [start_sweep scope_capture]. rewrite Heng. reflexivity.
Qed.

Lemma sweep_after_failed_connection_witness :
  let r := initialize_drivers empty_bench_hw init gpib_bare ∅ false in
  let w := run (start_sweep empty_bench_hw (engine r) bench_digitizer no_noise
                  "/lab" "20240101_120000") sweep_1550 open_fs in
  returned r = (false, "Failed to connect to Santec Laser: VI_ERROR_RSRC_NFOUND") /\
  events w =
    [StatusUpdate "Configuring Laser..."; LaserCall (SetPower 0);
     LaserCall (SetSweepParams 1550 1551 1);
     StatusUpdate "Arming Trigger..."; LaserCall TurnOn;
     Sleep (1 # 2); StatusUpdate "Acquiring..."; TriggerThreadStart;
     CaptureBlock (duration sweep_1550) 100000;
     ErrorOccurred "Not connected"; LaserCall StopSweep] /\
  fs w = open_fs.
Proof.
  destruct (sweep_after_failed_connection empty_bench_hw init gpib_bare ∅
              bench_digitizer no_noise "/lab" "20240101_120000" sweep_1550 open_fs
              (InstrumentConnectionError
                 "Failed to connect to Santec Laser: VI_ERROR_RSRC_NFOUND"))
    as (Hret & _ & Hev & Hfs); [reflexivity | reflexivity |].
  split; [exact Hret|]. split; [exact Hev | exact Hfs].
Defined.

End EngineDrivers.

(** ** Offline mode: a sweep on the mock drivers (drivers/mocks.py) *)

Section OfflineMode.
Import Numpy Mapping DataManager Engine.









End OfflineMode.

(** ** The live view on a scope driver (live_plot.py, scope.py, mocks.py) *)

Section LiveTick.
Import Numpy LivePlot Initialize.

(** X23.  A timer tick on either scope driver.  With the PicoScope
    driver (its two buffers equally long, as [start_streaming] makes
    them) the chunk polled always has equally long channels, so the
    tick never raises and both widget buffers keep their size.  The
    mock scope has no [get_streaming_values]: in offline mode a tick
    changes nothing, the live plot stays as it is. *)
Theorem live_tick_is_safe
    (l : PicoScope.Latest) (self : Widget) (o : ScopeObj) :
  wf self ->
  (forall d, o = Pico d ->
     length (PicoScope.bufferAMax d) = length (PicoScope.bufferBMax d)) ->
  (live_tick l self o).1.2 = None /\
  wf (live_tick l self o).1.1 /\
  (forall c s, o = MockScope c s -> live_tick l self o = ((self, None), o)) /\
  (forall d d', o = Pico d -> (live_tick l self o).2 = Pico d' ->
     length (PicoScope.bufferAMax d') = length (PicoScope.bufferBMax d')).
Proof.
  intros Hwf Hbuf.
  assert (Hnone : update_plot self None = (self, None)).
  { unfold update_plot. destruct (negb (is_streaming self)); reflexivity. }
  unfold live_tick.
  destruct (is_streaming self) eqn:Hs; cbn [negb].
  - destruct o as [d|c s].
    + specialize (Hbuf d eq_refl). cbn [fst snd].
      destruct (update_plot_safe self
                  (Some (PicoScope.get_streaming_values l d).1) Hwf)
        as (H1 & H2 & _).
      { intros new_a new_b [= Hp].
        pose proof (get_streaming_values_lengths l d Hbuf) as Hl.
        rewrite Hp in Hl. cbn [fst snd] in Hl. congruence. }
      split; [exact H1|]. split; [exact H2|]. split; [discriminate|].
      intros d0 d' [= <-] [= <-].
      unfold PicoScope.get_streaming_values.
      destruct (negb (Scope.streaming (PicoScope.drv d))); cbn [snd]; [exact Hbuf|].
      destruct (PicoScope.callback l) as [[n i]|];
        [destruct (0 <? n)%Z|];
        cbn [snd PicoScope.with_buffers PicoScope.bufferAMax PicoScope.bufferBMax];
        rewrite !length_imap; exact Hbuf.
    + rewrite Hnone. cbn [fst snd]. split; [reflexivity|]. split; [exact Hwf|].
      split; [reflexivity | discriminate].
  - rewrite Hnone. cbn [fst snd]. split; [reflexivity|]. split; [exact Hwf|].
    split; [reflexivity|]. intros d d' -> [= <-]. now apply Hbuf.
Qed.

Lemma live_tick_is_safe_witness :
  (live_tick two_samples small_widget (Pico pico_streaming)).1.2 = None /\
  wf (live_tick two_samples small_widget (Pico pico_streaming)).1.1 /\
  live_tick two_samples small_widget (MockScope true true)
    = ((small_widget, None), MockScope true true).
Proof.
  destruct (live_tick_is_safe two_samples small_widget (Pico pico_streaming))
    as (H1 & H2 & _).
  - split; reflexivity.
  - intros d [= <-]. reflexivity.
  - split; [exact H1|]. split; [exact H2|].
    destruct (live_tick_is_safe two_samples small_widget (MockScope true true))
      as (_ & _ & H3 & _).
    + split; reflexivity.
    + intros d H. discriminate H.
    + apply (H3 true true). reflexivity.
Defined.

End LiveTick.

(** ** Loading and fitting a spectrum (gui/widgets/sweep_plot.py) *)

Section SweepPlotFacts.
Import Numpy SweepPlot SweepData.

Lemma sorted_lt_head (a : Q) (l : list Q) :
  StronglySorted Qlt (a :: l) -> Forall (fun x => a < x) l.
Proof. intros H. now inversion H. Qed.

Lemma filter_none (f : Q -> bool) (l : list Q) :
  Forall (fun x => f x = false) l -> List.filter f l = [].
Proof.
  induction 1 as [|x l Hx _ IH]; simpl; [reflexivity|]. now rewrite Hx.
Qed.

(** On a strictly increasing list, the entries up to a given one are an
    initial part. *)
Lemma filter_sorted_prefix (l : list Q) :
  StronglySorted Qlt l ->
  forall (lo hi : Q) (j : nat),
    l !! j = Some hi ->
    Forall (fun x => lo <= x) l ->
    List.filter (fun x => Qle_bool lo x && Qle_bool x hi) l = take (S j) l.
Proof.
  induction 1 as [|a l Hs IH Hall]; intros lo hi j Hj Hlo; [discriminate|].
  inversion Hlo as [|? ? Ha Hlo']; subst.
  apply Qle_bool_iff in Ha as Ha'.
  destruct j as [|j]; simpl in Hj.
  - injection Hj as <-. simpl.
    rewrite Ha'. assert (E : Qle_bool a a = true) by (apply Qle_bool_iff; lra).
    rewrite E. cbn [andb]. f_equal. rewrite take_0. apply filter_none.
    eapply Forall_impl; [exact Hall|]. intros x Hx. simpl in Hx.
    apply andb_false_iff. right.
    destruct (Qle_bool x a) eqn:E'; [|reflexivity].
    apply Qle_bool_iff in E'. lra.
  - assert (Hlt : a < hi).
    { rewrite Forall_lookup in Hall. exact (Hall _ _ Hj). }
    simpl. rewrite Ha'.
    assert (E : Qle_bool a hi = true) by (apply Qle_bool_iff; lra).
    rewrite E. cbn [andb]. f_equal. now apply IH.
Qed.

(** On a strictly increasing list, the entries between two given ones
    are exactly those in between by position. *)
Lemma filter_sorted_window (l : list Q) :
  StronglySorted Qlt l ->
  forall (lo hi : Q) (i j : nat),
    l !! i = Some lo -> l !! j = Some hi -> (i <= j)%nat ->
    List.filter (fun x => Qle_bool lo x && Qle_bool x hi) l
      = take (S (j - i)) (drop i l).
Proof.
  induction 1 as [|a l Hs IH Hall]; intros lo hi i j Hi Hj Hij; [discriminate|].
  destruct i as [|i].
  - simpl in Hi. injection Hi as <-. rewrite Nat.sub_0_r, drop_0.
    apply filter_sorted_prefix; [now constructor | exact Hj |].
    constructor; [lra|]. eapply Forall_impl; [exact Hall|].
    intros x Hx. simpl in Hx. lra.
  - destruct j as [|j]; [lia|]. simpl in Hi, Hj.
    assert (Hlt : a < lo).
    { rewrite Forall_lookup in Hall. exact (Hall _ _ Hi). }
    simpl. destruct (Qle_bool lo a) eqn:E.
    + apply Qle_bool_iff in E. lra.
    + cbn [andb]. apply IH; auto. lia.
Qed.

Lemma sorted_lt_lookup_le (l : list Q) :
  StronglySorted Qlt l ->
  forall (i j : nat) (a b : Q),
    l !! i = Some a -> l !! j = Some b -> (i <= j)%nat -> a <= b.
Proof.
  induction 1 as [|x l Hs IH Hall]; intros i j a b Hi Hj Hij; [discriminate|].
  destruct i as [|i]; destruct j as [|j]; simpl in Hi, Hj; try lia.
  - injection Hi as <-. injection Hj as <-. lra.
  - injection Hi as <-. rewrite Forall_lookup in Hall.
    specialize (Hall _ _ Hj). simpl in Hall. lra.
  - eapply IH; eauto. lia.
Qed.

Lemma sorted_lt_lookup_lt (l : list Q) :
  StronglySorted Qlt l ->
  forall (i j : nat) (a b : Q),
    l !! i = Some a -> l !! j = Some b -> (i < j)%nat -> a < b.
Proof.
  induction 1 as [|x l Hs IH Hall]; intros i j a b Hi Hj Hij; [discriminate|].
  destruct i as [|i]; destruct j as [|j]; simpl in Hi, Hj; try lia.
  - injection Hi as <-. rewrite Forall_lookup in Hall.
    exact (Hall _ _ Hj).
  - eapply IH; eauto. lia.
Qed.

(** Two entries of a strictly increasing list, read back as a region. *)
Lemma qmin_qmax_sorted (l : list Q) (i j : nat) (a b : Q) :
  StronglySorted Qlt l ->
  l !! i = Some a -> l !! j = Some b -> (i <= j)%nat ->
  qmin a b = a /\ qmax a b = b.
Proof.
  intros Hs Hi Hj Hij. unfold qmin, qmax.
  destruct (Nat.eq_dec i j) as [->|Hne].
  - assert (a = b) as -> by congruence.
    destruct (Qle_bool b b); auto.
  - assert (Hlt : a < b) by (eapply (sorted_lt_lookup_lt l Hs i j); eauto; lia).
    assert (E1 : Qle_bool a b = true) by (apply Qle_bool_iff; lra).
    assert (E2 : Qle_bool b a = false).
    { destruct (Qle_bool b a) eqn:E; [|reflexivity].
      apply Qle_bool_iff in E. lra. }
    now rewrite E1, E2.
Qed.

(** The initial guesses exist for every non-empty selection. *)
Lemma guesses_ok (x y : list Q) :
  length x = length y -> y <> [] -> exists p, guesses x y = Ok p.
Proof.
  intros Hlen Hy.
  set (dev := map (fun v => Qabs (v - np_mean y)) y).
  assert (Hdev : dev <> []).
  { unfold dev. destruct y; [congruence | discriminate]. }
  destruct (np_max_spec y Hy) as (mx & Hmx & _).
  destruct (np_min_spec y Hy) as (mn & Hmn & _).
  destruct (np_argmax_spec dev Hdev) as (i & Hi & (v & Hv & _)).
  assert (Hxi : is_Some (x !! i)).
  { apply lookup_lt_is_Some_2. apply lookup_lt_Some in Hv.
    unfold dev in Hv. rewrite length_map in Hv. lia. }
  destruct Hxi as [xi Hxi].
  eexists. unfold guesses. rewrite Hmx, Hmn. cbn [mbind result_bind].
  fold dev. rewrite Hi. cbn [mbind result_bind].
  rewrite (item_lookup _ _ _ Hxi). reflexivity.
Qed.

(** [update_fit] on a stored series with equally long columns. *)
Lemma update_fit_cases (fit : Fitter) (self : Widget) (wl sig : list Q) (lo hi : Q) :
  current self = Some (wl, sig) ->
  roi self = (lo, hi) ->
  length sig = length wl ->
  let x_sub := in_roi lo hi wl in
  let y_sub := select sig (between_mask lo hi wl) in
  ((length x_sub < 10)%nat -> update_fit fit self = Ok self) /\
  ((10 <= length x_sub)%nat ->
     exists p, guesses x_sub y_sub = Ok p /\
       update_fit fit self = Ok (after_fit fit self lo hi x_sub y_sub p)).
Proof.
  intros Hcur Hroi Hlen x_sub y_sub.
  assert (Hrun : update_fit fit self =
            if (length x_sub <? 10)%nat then Ok self
            else match guesses x_sub y_sub with
                 | Raise e => Ok (set_label self (FitFailed (exn_str e)))
                 | Ok p => Ok (after_fit fit self lo hi x_sub y_sub p)
                 end).
  { unfold update_fit. rewrite Hcur, Hroi. unfold between_mask.
    rewrite bool_index_mask. cbn [mbind result_bind].
    unfold bool_index. rewrite length_map, Hlen, Nat.eqb_refl.
    cbn [mbind result_bind]. fold (in_roi lo hi wl). fold x_sub.
    change (select sig (map (fun x => Qle_bool lo x && Qle_bool x hi) wl))
      with y_sub.
    destruct (length x_sub <? 10)%nat; [reflexivity|].
    destruct (guesses x_sub y_sub) as [p|e]; [|reflexivity].
    unfold after_fit. destruct (fit y_sub p x_sub); reflexivity. }
  split.
  - intros Hfew. apply Nat.ltb_lt in Hfew. now rewrite Hrun, Hfew.
  - intros Hmany.
    assert (Hxy : length x_sub = length y_sub).
    { unfold x_sub, y_sub, in_roi, between_mask.
      rewrite <- select_mask_filter. apply select_length_eq. congruence. }
    destruct (guesses_ok x_sub y_sub Hxy) as [p Hp].
    { intros E. rewrite E in Hxy. simpl in Hxy. lia. }
    exists p. split; [exact Hp|].
    apply Nat.ltb_ge in Hmany. now rewrite Hrun, Hmany, Hp.
Qed.

Lemma after_fit_fields (fit : Fitter) (self : Widget) (lo hi : Q)
    (x_sub y_sub : list Q) (p : Params) :
  current (after_fit fit self lo hi x_sub y_sub p) = current self /\
  roi (after_fit fit self lo hi x_sub y_sub p) = roi self /\
  fit_calls (after_fit fit self lo hi x_sub y_sub p)
    = fit_calls self ++ [(y_sub, p, x_sub)].
Proof. unfold after_fit. destruct (fit y_sub p x_sub); auto. Qed.

(** X24.  [update_fit] lets exactly one exception out: the
    [IndexError] of indexing the signal with a mask of another length.
    With a stored series whose two columns are equally long it always
    returns, whatever the region and whether or not the fit converges;
    with columns of different lengths it raises before touching the
    label. *)
Theorem update_fit_raises_only_on_length_mismatch
    (fit : Fitter) (self : Widget) (wl sig : list Q) :
  current self = Some (wl, sig) ->
  (length sig = length wl -> exists self', update_fit fit self = Ok self') /\
  (length sig <> length wl ->
     update_fit fit self
       = Raise (IndexError "boolean index did not match indexed array")).
Proof.
  intros Hcur. split.
  - intros Hlen. destruct (roi self) as [lo hi] eqn:Hroi.
    destruct (update_fit_cases fit self wl sig lo hi Hcur Hroi Hlen) as [Hfew Hmany].
    destruct (Nat.lt_ge_cases (length (in_roi lo hi wl)) 10) as [H|H].
    + exists self. now apply Hfew.
    + destruct (Hmany H) as (p & _ & Hrun). eexists. exact Hrun.
  - intros Hne. unfold update_fit. rewrite Hcur.
    destruct (roi self) as [lo hi]. unfold between_mask.
    rewrite bool_index_mask. cbn [mbind result_bind].
    unfold bool_index. rewrite length_map.
    apply Nat.eqb_neq in Hne. now rewrite Hne.
Qed.

Lemma update_fit_raises_only_on_length_mismatch_witness :
  (exists self', update_fit constant_fitter fitted_widget = Ok self') /\
  update_fit constant_fitter
    {| current := Some ([1550; 1551], [1]); roi := (1550, 1551);
       lbl_info := DataLoaded; curve_fit := ([], []); fit_calls := [] |}
    = Raise (IndexError "boolean index did not match indexed array").
Proof.
  split.
  - apply (update_fit_raises_only_on_length_mismatch constant_fitter fitted_widget
             twelve_nm twelve_volts); reflexivity.
  - apply (update_fit_raises_only_on_length_mismatch constant_fitter _
             [1550; 1551] [1]); [reflexivity | simpl; lia].
Defined.

(** X25.  A fit that fails.  With ten or more samples in the region,
    when the fitter raises, [update_fit] itself does not: the label
    becomes "Fit Failed: " followed by the text of the exception, and
    the fit curve is not cleared, so the curve of an earlier fit stays
    on the plot. *)
Theorem update_fit_failure_keeps_old_curve
    (fit : Fitter) (self : Widget) (wl sig : list Q) (lo hi : Q) (e : exn) :
  current self = Some (wl, sig) ->
  roi self = (lo, hi) ->
  length sig = length wl ->
  (10 <= length (in_roi lo hi wl))%nat ->
  (forall y p x, fit y p x = Raise e) ->
  exists self',
    update_fit fit self = Ok self' /\
    lbl_info self' = FitFailed (exn_str e) /\
    curve_fit self' = curve_fit self /\
    current self' = current self /\
    roi self' = roi self.
Proof.
  intros Hcur Hroi Hlen Hmany Hfit.
  destruct (update_fit_cases fit self wl sig lo hi Hcur Hroi Hlen) as [_ H].
  destruct (H Hmany) as (p & _ & Hrun).
  eexists. split; [exact Hrun|]. unfold after_fit. rewrite Hfit. auto.
Qed.

Lemma update_fit_failure_keeps_old_curve_witness :
  exists self',
    update_fit failing_fitter fitted_widget = Ok self' /\
    lbl_info self' = FitFailed "The model function generated NaN values" /\
    curve_fit self' = ([1550; 1561], [1; 1]) /\
    current self' = Some (twelve_nm, twelve_volts) /\
    roi self' = (1550, 1561).
Proof.
  apply (update_fit_failure_keeps_old_curve failing_fitter fitted_widget
           twelve_nm twelve_volts 1550 1561
           (ValueError "The model function generated NaN values"));
    try reflexivity.
  vm_compute. lia.
Defined.

(** X26.  A fit that converges.  With ten or more samples in the
    region, [update_fit] draws the fitted model on 500 points spanning
    the region and shows the fitted centre with the quality factor
    [center / fwhm]; a fitted width of zero gives a quality factor of 0
    instead of a division error. *)
Theorem update_fit_shows_quality_factor
    (fit : Fitter) (self : Widget) (wl sig : list Q) (lo hi : Q) (res : FitResult) :
  current self = Some (wl, sig) ->
  roi self = (lo, hi) ->
  length sig = length wl ->
  (10 <= length (in_roi lo hi wl))%nat ->
  (forall y p x, fit y p x = Ok res) ->
  exists self',
    update_fit fit self = Ok self' /\
    curve_fit self' = (linspace lo hi 500, eval res (linspace lo hi 500)) /\
    length (curve_fit self').1 = 500%nat /\
    (fwhm_value res == 0 ->
       lbl_info self' = FitResults (center_value res) 0) /\
    (~ fwhm_value res == 0 ->
       lbl_info self' =
         FitResults (center_value res) (center_value res / fwhm_value res)).
Proof.
  intros Hcur Hroi Hlen Hmany Hfit.
  destruct (update_fit_cases fit self wl sig lo hi Hcur Hroi Hlen) as [_ H].
  destruct (H Hmany) as (p & _ & Hrun).
  eexists. split; [exact Hrun|]. unfold after_fit. rewrite Hfit.
  cbn [curve_fit lbl_info set_label set_curve fst].
  split; [reflexivity|]. split; [apply linspace_length|]. split.
  - intros Hz. apply Qeq_bool_iff in Hz. now rewrite Hz.
  - intros Hnz. destruct (Qeq_bool (fwhm_value res) 0) eqn:E; [|reflexivity].
    apply Qeq_bool_iff in E. contradiction.
Qed.

Lemma update_fit_shows_quality_factor_witness :
  exists self',
    update_fit zero_width_fitter fitted_widget = Ok self' /\
    lbl_info self' = FitResults 1550 0.
Proof.
  destruct (update_fit_shows_quality_factor zero_width_fitter fitted_widget
              twelve_nm twelve_volts 1550 1561
              {| center_value := 1550; fwhm_value := 0;
                 eval := fun xs => map (fun _ => 1) xs |})
    as (self' & Hrun & _ & _ & Hz & _); try reflexivity.
  - vm_compute. lia.
  - exists self'. split; [exact Hrun|]. apply Hz. reflexivity.
Defined.

Lemma run_slots_unchanged (fit : Fitter) (k : nat) (self : Widget) :
  update_fit fit self = Ok self -> run_slots fit k self = self.
Proof.
  intros H. induction k as [|k IH]; [reflexivity|].
  cbn [run_slots]. unfold update_fit_slot. now rewrite H.
Qed.

Lemma run_slots_fits (fit : Fitter) (wl sig : list Q) (lo hi : Q) (k : nat) :
  length sig = length wl ->
  (10 <= length (in_roi lo hi wl))%nat ->
  forall self : Widget,
    current self = Some (wl, sig) ->
    roi self = (lo, hi) ->
    current (run_slots fit k self) = Some (wl, sig) /\
    roi (run_slots fit k self) = (lo, hi) /\
    length (fit_calls (run_slots fit k self)) = (length (fit_calls self) + k)%nat.
Proof.
  intros Hlen Hmany. induction k as [|k IH]; intros self Hcur Hroi.
  - cbn [run_slots]. repeat split; auto.
  - cbn [run_slots]. unfold update_fit_slot.
    destruct (update_fit_cases fit self wl sig lo hi Hcur Hroi Hlen) as [_ H].
    destruct (H Hmany) as (p & _ & Hrun). rewrite Hrun.
    destruct (after_fit_fields fit self lo hi (in_roi lo hi wl)
                (select sig (between_mask lo hi wl)) p) as (Hc & Hr & Hf).
    destruct (IH _ (eq_trans Hc Hcur) (eq_trans Hr Hroi)) as (H1 & H2 & H3).
    split; [exact H1|]. split; [exact H2|].
    rewrite H3, Hf, length_app. simpl. lia.
Qed.

(** X27.  Loading a sweep.  For a series with equally long columns and
    strictly increasing wavelengths, [set_data] never raises: the two
    indices it reads for the region are always in range.  It stores the
    series, selects the samples from index [n/2 - n/4] to [n/2 + n/4]
    (exactly [2 (n/4) + 1] of them) and fits that region; since a fit
    needs ten samples, a sweep of fewer than 20 samples is shown with
    "Data Loaded", a cleared fit curve and no fit attempted, while from
    20 samples on every run of [update_fit] attempts a fit. *)
Theorem set_data_fits_from_twenty_samples
    (fit : Fitter) (k : nat) (self : Widget) (wl sig : list Q) :
  length sig = length wl ->
  StronglySorted Qlt wl ->
  let n := length wl in
  exists self',
    set_data fit k self wl sig = Ok self' /\
    current self' = Some (wl, sig) /\
    ((n <= 1)%nat ->
       roi self' = roi self /\ lbl_info self' = DataLoaded /\
       curve_fit self' = ([], []) /\ fit_calls self' = fit_calls self) /\
    ((1 < n)%nat ->
       wl !! (n / 2 - n / 4)%nat = Some (roi self').1 /\
       wl !! (n / 2 + n / 4)%nat = Some (roi self').2 /\
       length (in_roi (roi self').1 (roi self').2 wl) = (2 * (n / 4) + 1)%nat) /\
    ((n < 20)%nat ->
       lbl_info self' = DataLoaded /\ curve_fit self' = ([], []) /\
       fit_calls self' = fit_calls self) /\
    ((20 <= n)%nat ->
       length (fit_calls self') = (length (fit_calls self) + k + 1)%nat).
Proof.
  intros Hlen Hsorted n.
  set (self1 := {| current := Some (wl, sig); roi := roi self;
                   lbl_info := DataLoaded; curve_fit := ([], []);
                   fit_calls := fit_calls self |}).
  unfold set_data. rewrite <- Hlen, Nat.eqb_refl. cbn [negb]. rewrite Hlen.
  fold n. fold self1.
  destruct (Nat.ltb_spec 1 n) as [Hn|Hn].
  2: { exists self1. split; [reflexivity|]. split; [reflexivity|].
       split; [auto|]. split; [lia|]. split; [auto|]. lia. }
  set (i := (n / 2 - n / 4)%nat). set (j := (n / 2 + n / 4)%nat).
  assert (Hij : (i <= j)%nat) by (unfold i, j; lia).
  assert (Hj : (j < n)%nat).
  { unfold j. pose proof (Nat.div_mod_eq n 2). pose proof (Nat.div_mod_eq n 4).
    pose proof (Nat.mod_upper_bound n 2). pose proof (Nat.mod_upper_bound n 4).
    lia. }
  destruct (lookup_lt_is_Some_2 wl i) as [lo Hlo]; [fold n; lia|].
  destruct (lookup_lt_is_Some_2 wl j) as [hi Hhi]; [fold n; lia|].
  rewrite (item_lookup _ _ _ Hlo), (item_lookup _ _ _ Hhi).
  cbn [mbind result_bind].
  destruct (qmin_qmax_sorted wl i j lo hi Hsorted Hlo Hhi Hij) as [Hmin Hmax].
  set (self2 := set_roi self1 lo hi).
  assert (Hcur2 : current self2 = Some (wl, sig)) by reflexivity.
  assert (Hroi2 : roi self2 = (lo, hi)).
  { unfold self2, set_roi. cbn [roi]. now rewrite Hmin, Hmax. }
  assert (Hcount : length (in_roi lo hi wl) = (2 * (n / 4) + 1)%nat).
  { unfold in_roi. rewrite (filter_sorted_window wl Hsorted lo hi i j Hlo Hhi Hij).
    rewrite length_take, length_drop. fold n.
    assert (j - i = 2 * (n / 4))%nat.
    { unfold i, j.
      pose proof (Nat.div_mod_eq n 2). pose proof (Nat.div_mod_eq n 4).
      pose proof (Nat.mod_upper_bound n 2). pose proof (Nat.mod_upper_bound n 4).
      lia. }
    lia. }
  destruct (update_fit_cases fit self2 wl sig lo hi Hcur2 Hroi2 Hlen)
    as [Hfew Hmany].
  destruct (Nat.lt_ge_cases n 20) as [Hshort|Hlong].
  - assert (Hc : (length (in_roi lo hi wl) < 10)%nat).
    { rewrite Hcount.
      pose proof (Nat.div_mod_eq n 4). pose proof (Nat.mod_upper_bound n 4). lia. }
    rewrite (run_slots_unchanged fit k self2 (Hfew Hc)).
    exists self2. split; [exact (Hfew Hc)|]. split; [reflexivity|].
    split; [lia|]. split; [|split; [auto | lia]].
    intros _. rewrite Hroi2. cbn [fst snd]. auto.
  - assert (Hc : (10 <= length (in_roi lo hi wl))%nat).
    { rewrite Hcount.
      pose proof (Nat.div_mod_eq n 4). pose proof (Nat.mod_upper_bound n 4). lia. }
    destruct (run_slots_fits fit wl sig lo hi k Hlen Hc self2 Hcur2 Hroi2)
      as (Hc3 & Hr3 & Hf3).
    destruct (update_fit_cases fit (run_slots fit k self2) wl sig lo hi Hc3 Hr3 Hlen)
      as [_ Hmany3].
    destruct (Hmany3 Hc) as (p & _ & Hrun).
    destruct (after_fit_fields fit (run_slots fit k self2) lo hi (in_roi lo hi wl)
                (select sig (between_mask lo hi wl)) p) as (Hc4 & Hr4 & Hf4).
    eexists. split; [exact Hrun|]. split; [congruence|].
    split; [lia|]. split; [|split; [lia|]].
    + intros _. rewrite Hr4, Hr3. cbn [fst snd]. auto.
    + intros _. rewrite Hf4, length_app, Hf3. cbn [length self2 set_roi fit_calls self1].
      lia.
Qed.

Lemma set_data_fits_from_twenty_samples_witness :
  (exists self',
     set_data constant_fitter 1 SweepPlot.init twelve_nm twelve_volts = Ok self' /\
     lbl_info self' = DataLoaded /\ fit_calls self' = []) /\
  (exists self',
     set_data constant_fitter 1 SweepPlot.init twenty_nm twenty_volts = Ok self' /\
     length (fit_calls self') = 2%nat).
Proof.
  split.
  - destruct (set_data_fits_from_twenty_samples constant_fitter 1 SweepPlot.init
                twelve_nm twelve_volts) as (self' & Hrun & _ & _ & _ & Hshort & _).
    + reflexivity.
    + repeat constructor.
    + exists self'. split; [exact Hrun|].
      destruct Hshort as (Hl & _ & Hf); [simpl; lia|]. auto.
  - destruct (set_data_fits_from_twenty_samples constant_fitter 1 SweepPlot.init
                twenty_nm twenty_volts) as (self' & Hrun & _ & _ & _ & _ & Hlong).
    + reflexivity.
    + repeat constructor.
    + exists self'. split; [exact Hrun|]. apply Hlong. simpl. lia.
Defined.

End SweepPlotFacts.

(** ** The legacy window (LaserConrtolOLD.py) *)

Section LegacyFacts.
Import Numpy Mapping Legacy.

Lemma sorted_le_head (x : Q) (l : list Q) :
  StronglySorted Qle (x :: l) -> Forall (fun y => x <= y) l.
Proof. intros H. now inversion H. Qed.

Lemma searchsorted_le_length (l : list Q) (v : Q) :
  (searchsorted l v <= length l)%nat.
Proof.
  induction l as [|x l IH]; simpl; [lia|].
  destruct (Qle_bool v x); simpl; lia.
Qed.

Lemma searchsorted_zero (l : list Q) (v : Q) :
  Forall (fun y => v <= y) l -> searchsorted l v = 0%nat.
Proof.
  intros H. destruct l as [|x l]; [reflexivity|].
  inversion H as [|? ? Hx _]; subst. simpl.
  apply Qle_bool_iff in Hx. now rewrite Hx.
Qed.

Lemma in_span_none (xmin xmax : Q) (l : list Q) :
  Forall (fun y => xmax <= y) l -> List.filter (in_span xmin xmax) l = [].
Proof.
  intros H. apply filter_none. eapply Forall_impl; [exact H|].
  intros y Hy. simpl in Hy. unfold in_span.
  apply Qle_bool_iff in Hy. rewrite Hy. apply andb_false_r.
Qed.

(** On a sorted array the entries in [[xmin, xmax)] are those between
    the two insertion points. *)
Lemma filter_in_span_sorted (xmin xmax : Q) (l : list Q) :
  xmin <= xmax ->
  StronglySorted Qle l ->
  List.filter (in_span xmin xmax) l =
    take (searchsorted l xmax - searchsorted l xmin)
         (drop (searchsorted l xmin) l).
Proof.
  intros Hx. induction 1 as [|x l Hs IH Hall]; [reflexivity|].
  cbn [searchsorted List.filter]. unfold in_span at 1.
  destruct (Qle_bool xmin x) eqn:Emin.
  - apply Qle_bool_iff in Emin.
    assert (Hge : Forall (fun y => xmin <= y) l).
    { eapply Forall_impl; [exact Hall|]. intros y Hy. simpl in Hy. lra. }
    destruct (Qle_bool xmax x) eqn:Emax; cbn [andb negb].
    + apply Qle_bool_iff in Emax. cbn [Nat.sub take].
      apply in_span_none.
      eapply Forall_impl; [exact Hall|]. intros y Hy. simpl in Hy. lra.
    + rewrite Nat.sub_0_r, drop_0. cbn [take]. f_equal.
      rewrite IH, (searchsorted_zero l xmin Hge), Nat.sub_0_r, drop_0.
      reflexivity.
  - assert (Hlt : x < xmin).
    { apply Qnot_le_lt. rewrite <- Qle_bool_iff. congruence. }
    assert (Emax : Qle_bool xmax x = false).
    { destruct (Qle_bool xmax x) eqn:E; [|reflexivity].
      apply Qle_bool_iff in E. lra. }
    rewrite Emax. cbn [andb]. cbn [Nat.sub drop]. exact IH.
Qed.

Lemma searchsorted_mono (l : list Q) (a b : Q) :
  a <= b -> (searchsorted l a <= searchsorted l b)%nat.
Proof.
  intros Hab. induction l as [|x l IH]; simpl; [lia|].
  destruct (Qle_bool a x) eqn:Ea; [lia|].
  destruct (Qle_bool b x) eqn:Eb; [|lia].
  apply Qle_bool_iff in Eb.
  assert (a <= x) by lra. apply Qle_bool_iff in H. congruence.
Qed.

Lemma searchsorted_take (l : list Q) (v : Q) (n : nat) :
  searchsorted (take n l) v = Nat.min (searchsorted l v) n.
Proof.
  revert n. induction l as [|x l IH]; intros [|n]; simpl; try reflexivity.
  - destruct (Qle_bool v x); reflexivity.
  - destruct (Qle_bool v x); [reflexivity|]. now rewrite IH.
Qed.

Lemma StronglySorted_take (l : list Q) (n : nat) :
  StronglySorted Qle l -> StronglySorted Qle (take n l).
Proof.
  intros H. revert n. induction H as [|x l Hs IH Hall]; intros [|n]; simpl;
    try constructor; auto.
  apply Forall_take. exact Hall.
Qed.

(** The region as a slice of the array. *)
Lemma select_region_slices (wl sp : list Q) (xmin xmax : Q) :
  length sp = length wl ->
  let i := searchsorted wl xmin in
  let j := Nat.min (length wl - 1) (searchsorted wl xmax) in
  select_region wl sp xmin xmax = (take (j - i) (drop i wl), take (j - i) (drop i sp)).
Proof.
  intros Hlen i j. unfold select_region, py_slice. rewrite Hlen.
  pose proof (searchsorted_le_length wl xmin) as Hi.
  pose proof (searchsorted_le_length wl xmax) as Hj.
  fold i in Hi |- *.
  assert (Hs : slice_bound (length wl) (Z.of_nat i) = i).
  { unfold slice_bound. destruct (Z.ltb_spec (Z.of_nat i) 0); lia. }
  assert (He : slice_bound (length wl)
                 (Z.min (Z.of_nat (length wl) - 1) (Z.of_nat (searchsorted wl xmax)))
               = j).
  { unfold slice_bound, j.
    destruct (Z.ltb_spec (Z.min (Z.of_nat (length wl) - 1)
                            (Z.of_nat (searchsorted wl xmax))) 0); lia. }
  now rewrite Hs, He.
Qed.

(** X28.  The region cut out for the Q fit.  On a sweep with sorted
    wavelengths, dragging from [xmin] to [xmax] selects the samples whose
    wavelength lies in [[xmin, xmax)], with their amplitudes at the
    same positions, except that the last sample of the sweep is never
    part of the region, however far the selection extends. *)
Theorem legacy_region_excludes_last_sample
    (wl sp : list Q) (xmin xmax : Q) :
  StronglySorted Qle wl ->
  length sp = length wl ->
  xmin <= xmax ->
  let r := select_region wl sp xmin xmax in
  r.1 = List.filter (in_span xmin xmax) (but_last wl) /\
  (exists i, r.1 = take (length r.1) (drop i wl) /\
             r.2 = take (length r.1) (drop i sp)) /\
  length r.2 = length r.1 /\
  (length r.1 <= length wl - 1)%nat /\
  Forall (fun x => xmin <= x /\ x < xmax) r.1.
Proof.
  intros Hsorted Hlen Hx r.
  set (n := length wl).
  set (i := searchsorted wl xmin).
  set (j := Nat.min (n - 1) (searchsorted wl xmax)).
  assert (Hr : r = (take (j - i) (drop i wl), take (j - i) (drop i sp))).
  { unfold r. now rewrite select_region_slices. }
  pose proof (searchsorted_le_length wl xmin) as Hi. fold i n in Hi.
  pose proof (searchsorted_mono wl xmin xmax Hx) as Hmono. fold i in Hmono.
  assert (Hfilter : take (j - i) (drop i wl)
                    = List.filter (in_span xmin xmax) (but_last wl)).
  { unfold but_last. fold n.
    rewrite (filter_in_span_sorted xmin xmax (take (n - 1) wl) Hx)
      by now apply StronglySorted_take.
    rewrite !searchsorted_take. fold i.
    replace (Nat.min (searchsorted wl xmax) (n - 1)) with j by (unfold j; lia).
    destruct (Nat.le_gt_cases i (n - 1)) as [Hle|Hgt].
    - rewrite (Nat.min_l i) by exact Hle.
      rewrite skipn_firstn_comm, take_take.
      f_equal. unfold j. lia.
    - replace (j - i)%nat with 0%nat by (unfold j; lia).
      replace (j - Nat.min i (n - 1))%nat with 0%nat by (unfold j; lia).
      reflexivity. }
  assert (Hl1 : length (take (j - i) (drop i wl)) = (j - i)%nat).
  { rewrite length_take, length_drop. fold n. unfold j. lia. }
  rewrite Hr. cbn [fst snd].
  split; [exact Hfilter|]. split; [|split; [|split]].
  - exists i. rewrite Hl1. split; reflexivity.
  - rewrite !length_take, !length_drop, Hlen. reflexivity.
  - rewrite Hl1. fold n. unfold j. lia.
  - rewrite Hfilter. apply List.Forall_forall. intros x Hin.
    apply List.filter_In in Hin as [_ Hin]. unfold in_span in Hin.
    apply andb_true_iff in Hin as [H1 H2]. apply Qle_bool_iff in H1.
    split; [exact H1|]. apply Qnot_le_lt. rewrite <- Qle_bool_iff.
    destruct (Qle_bool xmax x); [discriminate | congruence].
Qed.

Lemma legacy_region_excludes_last_sample_witness :
  let r := select_region legacy_nm legacy_volts 1552 2000 in
  r.1 = List.filter (in_span 1552 2000) (but_last legacy_nm) /\
  r = ([1552; 1553], [1; 4]) /\
  (length r.1 <= length legacy_nm - 1)%nat.
Proof.
  destruct (legacy_region_excludes_last_sample legacy_nm legacy_volts 1552 2000)
    as (H1 & _ & _ & H4 & _).
  - repeat constructor; discriminate.
  - reflexivity.
  - discriminate.
  - split; [exact H1|]. split; [reflexivity | exact H4].
Defined.

Lemma push_history_drop (h : list Q) (x : Q) :
  (length h <= 10)%nat ->
  push_history h x = drop (length (h ++ [x]) - 10) (h ++ [x]).
Proof.
  intros Hh. unfold push_history. rewrite length_app. cbn [length].
  destruct (Nat.ltb_spec 10 (length h + 1)) as [H|H].
  - replace (length h + 1 - 10)%nat with 1%nat by lia. reflexivity.
  - replace (length h + 1 - 10)%nat with 0%nat by lia. reflexivity.
Qed.

(** X29.  The live statistics use a sliding window: however many
    samples have arrived, the history holds the last ten of them (all
    of them while there are fewer), in arrival order. *)
Theorem legacy_history_keeps_last_ten (xs h : list Q) :
  (length h <= 10)%nat ->
  fold_left push_history xs h = drop (length (h ++ xs) - 10) (h ++ xs) /\
  length (fold_left push_history xs h) = Nat.min 10 (length (h ++ xs)).
Proof.
  revert h. induction xs as [|x xs IH]; intros h Hh.
  - cbn [fold_left]. rewrite app_nil_r.
    replace (length h - 10)%nat with 0%nat by lia. rewrite drop_0. split; [reflexivity | lia].
  - cbn [fold_left]. rewrite (push_history_drop h x Hh).
    set (h' := h ++ [x]).
    assert (Hh' : length h' = (length h + 1)%nat)
      by (unfold h'; rewrite length_app; reflexivity).
    destruct (IH (drop (length h' - 10) h')) as [IH1 IH2].
    { rewrite length_drop. lia. }
    assert (Happ : h ++ x :: xs = h' ++ xs)
      by (unfold h'; now rewrite <- app_assoc).
    rewrite Happ. split.
    + rewrite IH1.
      rewrite <- (drop_app_le h' xs (length h' - 10)) by lia.
      rewrite drop_drop. f_equal.
      rewrite !length_drop, !length_app. lia.
    + rewrite IH2. rewrite !length_app, length_drop. lia.
Qed.

Lemma legacy_history_keeps_last_ten_witness :
  fold_left push_history [10; 11; 12] [1; 2; 3; 4; 5; 6; 7; 8; 9]
    = drop (length ([1; 2; 3; 4; 5; 6; 7; 8; 9] ++ [10; 11; 12]) - 10)
        ([1; 2; 3; 4; 5; 6; 7; 8; 9] ++ [10; 11; 12]) /\
  length (fold_left push_history [10; 11; 12] [1; 2; 3; 4; 5; 6; 7; 8; 9])
    = Nat.min 10 (length ([1; 2; 3; 4; 5; 6; 7; 8; 9] ++ [10; 11; 12])).
Proof.
  apply (legacy_history_keeps_last_ten [10; 11; 12] [1; 2; 3; 4; 5; 6; 7; 8; 9]).
  simpl. lia.
Defined.

(** A mask over a sorted array that holds up to a threshold is a run of
    [true] followed by a run of [false]. *)
Lemma threshold_mask_prefix (end_ : Q) (w : list Q) :
  StronglySorted Qle w ->
  exists k, (k <= length w)%nat /\
    map (fun x => Qle_bool x end_) w
      = replicate k true ++ replicate (length w - k) false.
Proof.
  induction 1 as [|x w Hs IH Hall].
  - exists 0%nat. split; [simpl; lia | reflexivity].
  - destruct (Qle_bool x end_) eqn:E.
    + destruct IH as (k & Hk & IH). exists (S k). split; [simpl; lia|].
      simpl. now rewrite E, IH.
    + exists 0%nat. split; [simpl; lia|]. simpl. rewrite E. f_equal.
      clear IH Hs. induction Hall as [|y w Hy _ IHw]; [reflexivity|].
      simpl. rewrite IHw. f_equal.
      destruct (Qle_bool y end_) eqn:E'; [|reflexivity].
      apply Qle_bool_iff in E'.
      assert (x <= end_) by lra. apply Qle_bool_iff in H. congruence.
Qed.

Lemma select_prefix {A} (a : list A) (k m : nat) :
  length a = (k + m)%nat ->
  select a (replicate k true ++ replicate m false) = take k a.
Proof.
  revert a. induction k as [|k IH]; intros a Ha.
  - simpl. clear Ha. revert a. induction m as [|m IHm]; intros [|x a];
      simpl; auto.
  - destruct a as [|x a]; [discriminate|]. simpl. f_equal. apply IH.
    simpl in Ha. lia.
Qed.

(** X30.  The legacy sweep thread and the new worker map a capture the
    same way.  For a sweep speed and a sampling interval that are not
    negative, the pair the legacy thread emits (wavelengths up to the
    end wavelength, and as many leading samples) is exactly what the
    processing step of the new [run] computes on the same samples and
    time axis: truncating the samples to the number of kept
    wavelengths pairs each wavelength with its own sample. *)
Theorem legacy_sweep_agrees_with_run
    (start_ end_ speed interval power : Q) (cap_a data_b : list Q) :
  0 <= speed ->
  0 <= interval ->
  process_data
    {| start_nm := start_; end_nm := end_; speed_nm_s := speed;
       power_dbm := power |}
    {| cap_t := arange_times (length data_b) interval;
       cap_A := cap_a; cap_B := data_b |}
  = Ok (sweep_thread_data start_ end_ speed interval data_b).
Proof.
  intros Hs Hi.
  set (ts := arange_times (length data_b) interval).
  set (w := wavelengths start_ speed ts).
  assert (Hts : StronglySorted Qle ts).
  { unfold ts, arange_times. apply StronglySorted_map_seq.
    intros a b Hab. apply Qmult_le_compat_r; [|exact Hi].
    rewrite <- Zle_Qle. lia. }
  assert (Hw : StronglySorted Qle w) by now apply wavelengths_sorted.
  assert (Hlw : length w = length data_b).
  { unfold w, wavelengths, add_scalar, mul_scalar, ts, arange_times.
    now rewrite !length_map, length_seq. }
  assert (Hmask : clip_mask start_ end_ w = map (fun x => Qle_bool x end_) w).
  { unfold clip_mask, between_mask. apply List.map_ext_in. intros x Hin.
    assert (Hge : start_ <= x).
    { unfold w, wavelengths, add_scalar, mul_scalar in Hin.
      rewrite List.map_map in Hin.
      apply List.in_map_iff in Hin as (t & <- & Ht).
      unfold ts, arange_times in Ht.
      apply List.in_map_iff in Ht as (i & <- & _).
      assert (0 <= inject_Z (Z.of_nat i) * interval * speed).
      { apply Qmult_le_0_compat; [|exact Hs].
        apply Qmult_le_0_compat; [|exact Hi].
        change 0 with (inject_Z 0). rewrite <- Zle_Qle. lia. }
      lra. }
    apply Qle_bool_iff in Hge. now rewrite Hge. }
  destruct (threshold_mask_prefix end_ w Hw) as (k & Hk & Hpre).
  unfold process_data, sweep_thread_data. cbn [start_nm end_nm speed_nm_s cap_t cap_B].
  fold (arange_times (length data_b) interval). fold ts.
  fold (wavelengths start_ speed ts). fold w.
  rewrite Hmask, Hpre. unfold bool_index.
  rewrite length_app, !length_replicate.
  replace (k + (length w - k))%nat with (length w) by lia.
  rewrite Nat.eqb_refl. cbn [mbind result_bind].
  rewrite <- Hlw, Nat.eqb_refl. cbn [mbind result_bind].
  rewrite !select_prefix by lia.
  rewrite length_take. replace (Nat.min k (length w)) with k by lia.
  reflexivity.
Qed.

Lemma legacy_sweep_agrees_with_run_witness :
  process_data
    {| start_nm := 1550; end_nm := 1551; speed_nm_s := 1; power_dbm := 0 |}
    {| cap_t := arange_times (length [1; 2; 3]) (3 # 4);
       cap_A := [0; 0; 0]; cap_B := [1; 2; 3] |}
  = Ok (sweep_thread_data 1550 1551 1 (3 # 4) [1; 2; 3]).
Proof.
  apply (legacy_sweep_agrees_with_run 1550 1551 1 (3 # 4) 0 [0; 0; 0] [1; 2; 3]);
    discriminate.
Defined.

End LegacyFacts.
